(** * Presence service: a shallow embedding of [PresenceService] and
    [FirebaseValidator], and the properties of the session manager.

    The service is a single mutable object driven by callbacks (identity
    changes, connectivity observations, app-lifecycle changes, timers and
    the settlement of store promises).  It is embedded as a record
    [Service] inside a [World] that also holds what the JavaScript runtime
    keeps for it: the live timers, the suspended [async] calls and the
    history of calls made to the collaborators ([trace]).  Every method is a
    function [World -> World]; one callback runs to completion per [step].

    Conventions of the embedding:
    - numbers that the code uses as counters and millisecond delays are
      integers ([Z]) that a double holds exactly; where the arithmetic of
      the code can leave them, the result is a [JsNumber] (an integer, an
      infinity or NaN);
    - handles typed [any] are [JsVal]s and are tested for truthiness as the
      code does;
    - [ref], [onValue], [setTimeout], [serverTimestamp] and the unsubscribe
      functions of the identity provider and of the store return normally;
      [set] and [onDisconnect(..).set] return a promise that the store
      settles later, either way;
    - [AppState.addEventListener] returns a subscription object (with a
      [remove] method), as in React Native and in the mock of the
      repository's tests; it is not a function;
    - listener callbacks are opaque: they are recorded in the trace with the
      status they were handed and do not call back into the service;
    - a continuation of a promise that is already settled runs before any
      other callback, so it is run in the same step. *)

From Stdlib Require Import ZArith List String Bool Lia.
From Stdlib Require DecimalString.
Import ListNotations.

Local Open Scope string_scope.
Local Open Scope Z_scope.
Local Open Scope list_scope.

(** ** JavaScript values, errors and promises *)

Inductive JsVal : Type :=
| JUndefined
| JNull
| JBool (b : bool)
| JNum (n : Z)
| JStr (s : string)
| JObj (id : nat).

(** [!!v] *)
Definition truthy (v : JsVal) : bool :=
  match v with
  | JUndefined | JNull => false
  | JBool b => b
  | JNum n => negb (n =? 0)
  | JStr s => negb (s =? "")%string
  | JObj _ => true
  end.

(** Thrown values: a [PresenceError] (message, code, originalError) or an
    error raised by a collaborator or the runtime, known by its message.
    The [originalError] of a [PresenceError] is such a foreign error. *)
Inductive Error : Type :=
| PresenceError (message code : string) (originalError : option string)
| ForeignError (what : string).

Definition code_of (e : Error) : string :=
  match e with
  | PresenceError _ c _ => c
  | ForeignError _ => ""
  end.

(** The result of running a synchronous body: it returns or it throws. *)
Inductive Completion (A : Type) : Type :=
| Normal (a : A)
| Throw (e : Error).
Arguments Normal {A} a.
Arguments Throw {A} e.

(** A settled promise. *)
Inductive Outcome : Type :=
| Resolved
| Rejected (e : Error).

Definition Promise := Outcome.

(** A number of the code that is an integer, an infinity or NaN. *)
Inductive JsNumber : Type :=
| Finite (z : Z)
| PlusInfinity
| MinusInfinity
| NotANumber.

(** ** Types of [src/types/index.ts] *)

Inductive PState : Type := online | offline | away | busy.

Definition state_name (s : PState) : string :=
  match s with
  | online => "online"
  | offline => "offline"
  | away => "away"
  | busy => "busy"
  end.

Definition PState_eqb (a b : PState) : bool :=
  match a, b with
  | online, online | offline, offline | away, away | busy, busy => true
  | _, _ => false
  end.

Definition CustomData := list (string * JsVal).

Definition Ref := string.

(** [PresenceState]; [lastChanged] is always the server-timestamp sentinel. *)
Record PresenceData : Type := mkPresenceData {
  pd_state : PState;
  pd_uid : string;
  pd_customData : option CustomData
}.

(** [PresenceConfig]: every key is optional; [None] is an absent key. *)
Record PresenceConfig : Type := mkPresenceConfig {
  p_firebaseApp : option JsVal;
  p_database : option JsVal;
  p_auth : option JsVal;
  p_databasePath : option string;
  p_offlineTimeout : option Z;
  p_retryInterval : option Z;
  p_maxRetries : option Z;
  p_debug : option bool;
  p_customStates : option (list string);
  p_autoSetAway : option bool;
  p_awayTimeout : option Z
}.

(** [Required<PresenceConfig>]; [awayTimeout_ms] is the configuration's
    [awayTimeout], renamed because the service has a field of that name. *)
Record Config : Type := mkConfig {
  firebaseApp : JsVal;
  database : JsVal;
  auth : JsVal;
  databasePath : string;
  offlineTimeout : Z;
  retryInterval : Z;
  maxRetries : Z;
  debug : bool;
  customStates : list string;
  autoSetAway : bool;
  awayTimeout_ms : Z
}.

Record ConnectionStatus : Type := mkStatus {
  isConnected : bool;
  lastConnected : option Z;
  retryCount : Z
}.

Record User : Type := mkUser { uid : string }.

Definition Callback := nat.
Definition TimerHandle := nat.

(** ** [src/utils/firebase.ts] *)

Module FirebaseValidator.

Definition validateConfig (c : Config) : Completion unit :=
  if negb (truthy (firebaseApp c)) then
    Throw (PresenceError "Firebase app is required" "MISSING_FIREBASE_APP" None)
  else if negb (truthy (database c)) then
    Throw (PresenceError "Firebase database is required" "MISSING_DATABASE" None)
  else if negb (truthy (auth c)) then
    Throw (PresenceError "Firebase auth is required" "MISSING_AUTH" None)
  else Normal tt.

(** [Math.pow(2, attempt)] for an integer [attempt >= 0]: exact up to
    [2^1023], [Infinity] from 1024 on. *)
Definition pow2 (attempt : Z) : JsNumber :=
  if attempt <=? 1023 then Finite (2 ^ attempt) else PlusInfinity.

(** [baseDelay * p] for an integer [baseDelay] below [2^53] in magnitude
    and [p] a power of two or an infinity: the product is exact unless it
    leaves the range of the doubles; [0 * Infinity] is NaN. *)
Definition times (baseDelay : Z) (p : JsNumber) : JsNumber :=
  match p with
  | Finite q =>
      let m := baseDelay * q in
      if 2 ^ 1024 <=? m then PlusInfinity
      else if m <=? - 2 ^ 1024 then MinusInfinity
      else Finite m
  | PlusInfinity =>
      if baseDelay =? 0 then NotANumber
      else if 0 <? baseDelay then PlusInfinity else MinusInfinity
  | MinusInfinity =>
      if baseDelay =? 0 then NotANumber
      else if 0 <? baseDelay then MinusInfinity else PlusInfinity
  | NotANumber => NotANumber
  end.

(** [Math.min(x, 30000)] *)
Definition min30000 (x : JsNumber) : JsNumber :=
  match x with
  | Finite m => Finite (Z.min m 30000)
  | PlusInfinity => Finite 30000
  | MinusInfinity => MinusInfinity
  | NotANumber => NotANumber
  end.

(** [Math.min(baseDelay * Math.pow(2, attempt), 30000)] *)
Definition createRetryDelay (attempt baseDelay : Z) : JsNumber :=
  min30000 (times baseDelay (pow2 attempt)).

End FirebaseValidator.

(** ** The service object *)

Record Service : Type := mkService {
  config : Config;
  userRef : option Ref;
  connectedRef : option Ref;
  connectedListener : option Ref;
  connectionStatus : ConnectionStatus;
  currentUser : option User;
  listeners : list Callback;
  presenceListeners : list (string * list Callback);
  authUnsubscribe : bool;
  appStateUnsubscribe : bool;
  initialized : bool;
  initPromise : option Promise;
  setupInProgress : bool;
  currentSetupUid : option string;
  retryTimeout : option TimerHandle;
  awayTimeout : option TimerHandle;
  currentPresenceState : PState
}.

(** Field assignments [this.f = v]. *)
Definition set_config (v : Config) (s : Service) : Service :=
  {| config := v; userRef := userRef s; connectedRef := connectedRef s; connectedListener
:= connectedListener s; connectionStatus := connectionStatus s; currentUser := currentUser
s; listeners := listeners s; presenceListeners := presenceListeners s; authUnsubscribe :=
authUnsubscribe s; appStateUnsubscribe := appStateUnsubscribe s; initialized := initialized
s; initPromise := initPromise s; setupInProgress := setupInProgress s; currentSetupUid :=
currentSetupUid s; retryTimeout := retryTimeout s; awayTimeout := awayTimeout s;
currentPresenceState := currentPresenceState s |}.
Definition set_userRef (v : option Ref) (s : Service) : Service :=
  {| config := config s; userRef := v; connectedRef := connectedRef s; connectedListener :=
connectedListener s; connectionStatus := connectionStatus s; currentUser := currentUser s;
listeners := listeners s; presenceListeners := presenceListeners s; authUnsubscribe :=
authUnsubscribe s; appStateUnsubscribe := appStateUnsubscribe s; initialized := initialized
s; initPromise := initPromise s; setupInProgress := setupInProgress s; currentSetupUid :=
currentSetupUid s; retryTimeout := retryTimeout s; awayTimeout := awayTimeout s;
currentPresenceState := currentPresenceState s |}.
Definition set_connectedRef (v : option Ref) (s : Service) : Service :=
  {| config := config s; userRef := userRef s; connectedRef := v; connectedListener :=
connectedListener s; connectionStatus := connectionStatus s; currentUser := currentUser s;
listeners := listeners s; presenceListeners := presenceListeners s; authUnsubscribe :=
authUnsubscribe s; appStateUnsubscribe := appStateUnsubscribe s; initialized := initialized
s; initPromise := initPromise s; setupInProgress := setupInProgress s; currentSetupUid :=
currentSetupUid s; retryTimeout := retryTimeout s; awayTimeout := awayTimeout s;
currentPresenceState := currentPresenceState s |}.
Definition set_connectedListener (v : option Ref) (s : Service) : Service :=
  {| config := config s; userRef := userRef s; connectedRef := connectedRef s;
connectedListener := v; connectionStatus := connectionStatus s; currentUser := currentUser
s; listeners := listeners s; presenceListeners := presenceListeners s; authUnsubscribe :=
authUnsubscribe s; appStateUnsubscribe := appStateUnsubscribe s; initialized := initialized
s; initPromise := initPromise s; setupInProgress := setupInProgress s; currentSetupUid :=
currentSetupUid s; retryTimeout := retryTimeout s; awayTimeout := awayTimeout s;
currentPresenceState := currentPresenceState s |}.
Definition set_connectionStatus (v : ConnectionStatus) (s : Service) : Service :=
  {| config := config s; userRef := userRef s; connectedRef := connectedRef s;
connectedListener := connectedListener s; connectionStatus := v; currentUser := currentUser
s; listeners := listeners s; presenceListeners := presenceListeners s; authUnsubscribe :=
authUnsubscribe s; appStateUnsubscribe := appStateUnsubscribe s; initialized := initialized
s; initPromise := initPromise s; setupInProgress := setupInProgress s; currentSetupUid :=
currentSetupUid s; retryTimeout := retryTimeout s; awayTimeout := awayTimeout s;
currentPresenceState := currentPresenceState s |}.
Definition set_currentUser (v : option User) (s : Service) : Service :=
  {| config := config s; userRef := userRef s; connectedRef := connectedRef s;
connectedListener := connectedListener s; connectionStatus := connectionStatus s;
currentUser := v; listeners := listeners s; presenceListeners := presenceListeners s;
authUnsubscribe := authUnsubscribe s; appStateUnsubscribe := appStateUnsubscribe s;
initialized := initialized s; initPromise := initPromise s; setupInProgress :=
setupInProgress s; currentSetupUid := currentSetupUid s; retryTimeout := retryTimeout s;
awayTimeout := awayTimeout s; currentPresenceState := currentPresenceState s |}.
Definition set_listeners (v : list Callback) (s : Service) : Service :=
  {| config := config s; userRef := userRef s; connectedRef := connectedRef s;
connectedListener := connectedListener s; connectionStatus := connectionStatus s;
currentUser := currentUser s; listeners := v; presenceListeners := presenceListeners s;
authUnsubscribe := authUnsubscribe s; appStateUnsubscribe := appStateUnsubscribe s;
initialized := initialized s; initPromise := initPromise s; setupInProgress :=
setupInProgress s; currentSetupUid := currentSetupUid s; retryTimeout := retryTimeout s;
awayTimeout := awayTimeout s; currentPresenceState := currentPresenceState s |}.
Definition set_presenceListeners (v : list (string * list Callback)) (s : Service) :
Service :=
  {| config := config s; userRef := userRef s; connectedRef := connectedRef s;
connectedListener := connectedListener s; connectionStatus := connectionStatus s;
currentUser := currentUser s; listeners := listeners s; presenceListeners := v;
authUnsubscribe := authUnsubscribe s; appStateUnsubscribe := appStateUnsubscribe s;
initialized := initialized s; initPromise := initPromise s; setupInProgress :=
setupInProgress s; currentSetupUid := currentSetupUid s; retryTimeout := retryTimeout s;
awayTimeout := awayTimeout s; currentPresenceState := currentPresenceState s |}.
Definition set_authUnsubscribe (v : bool) (s : Service) : Service :=
  {| config := config s; userRef := userRef s; connectedRef := connectedRef s;
connectedListener := connectedListener s; connectionStatus := connectionStatus s;
currentUser := currentUser s; listeners := listeners s; presenceListeners :=
presenceListeners s; authUnsubscribe := v; appStateUnsubscribe := appStateUnsubscribe s;
initialized := initialized s; initPromise := initPromise s; setupInProgress :=
setupInProgress s; currentSetupUid := currentSetupUid s; retryTimeout := retryTimeout s;
awayTimeout := awayTimeout s; currentPresenceState := currentPresenceState s |}.
Definition set_appStateUnsubscribe (v : bool) (s : Service) : Service :=
  {| config := config s; userRef := userRef s; connectedRef := connectedRef s;
connectedListener := connectedListener s; connectionStatus := connectionStatus s;
currentUser := currentUser s; listeners := listeners s; presenceListeners :=
presenceListeners s; authUnsubscribe := authUnsubscribe s; appStateUnsubscribe := v;
initialized := initialized s; initPromise := initPromise s; setupInProgress :=
setupInProgress s; currentSetupUid := currentSetupUid s; retryTimeout := retryTimeout s;
awayTimeout := awayTimeout s; currentPresenceState := currentPresenceState s |}.
Definition set_initialized (v : bool) (s : Service) : Service :=
  {| config := config s; userRef := userRef s; connectedRef := connectedRef s;
connectedListener := connectedListener s; connectionStatus := connectionStatus s;
currentUser := currentUser s; listeners := listeners s; presenceListeners :=
presenceListeners s; authUnsubscribe := authUnsubscribe s; appStateUnsubscribe :=
appStateUnsubscribe s; initialized := v; initPromise := initPromise s; setupInProgress :=
setupInProgress s; currentSetupUid := currentSetupUid s; retryTimeout := retryTimeout s;
awayTimeout := awayTimeout s; currentPresenceState := currentPresenceState s |}.
Definition set_initPromise (v : option Promise) (s : Service) : Service :=
  {| config := config s; userRef := userRef s; connectedRef := connectedRef s;
connectedListener := connectedListener s; connectionStatus := connectionStatus s;
currentUser := currentUser s; listeners := listeners s; presenceListeners :=
presenceListeners s; authUnsubscribe := authUnsubscribe s; appStateUnsubscribe :=
appStateUnsubscribe s; initialized := initialized s; initPromise := v; setupInProgress :=
setupInProgress s; currentSetupUid := currentSetupUid s; retryTimeout := retryTimeout s;
awayTimeout := awayTimeout s; currentPresenceState := currentPresenceState s |}.
Definition set_setupInProgress (v : bool) (s : Service) : Service :=
  {| config := config s; userRef := userRef s; connectedRef := connectedRef s;
connectedListener := connectedListener s; connectionStatus := connectionStatus s;
currentUser := currentUser s; listeners := listeners s; presenceListeners :=
presenceListeners s; authUnsubscribe := authUnsubscribe s; appStateUnsubscribe :=
appStateUnsubscribe s; initialized := initialized s; initPromise := initPromise s;
setupInProgress := v; currentSetupUid := currentSetupUid s; retryTimeout := retryTimeout s;
awayTimeout := awayTimeout s; currentPresenceState := currentPresenceState s |}.
Definition set_currentSetupUid (v : option string) (s : Service) : Service :=
  {| config := config s; userRef := userRef s; connectedRef := connectedRef s;
connectedListener := connectedListener s; connectionStatus := connectionStatus s;
currentUser := currentUser s; listeners := listeners s; presenceListeners :=
presenceListeners s; authUnsubscribe := authUnsubscribe s; appStateUnsubscribe :=
appStateUnsubscribe s; initialized := initialized s; initPromise := initPromise s;
setupInProgress := setupInProgress s; currentSetupUid := v; retryTimeout := retryTimeout s;
awayTimeout := awayTimeout s; currentPresenceState := currentPresenceState s |}.
Definition set_retryTimeout (v : option TimerHandle) (s : Service) : Service :=
  {| config := config s; userRef := userRef s; connectedRef := connectedRef s;
connectedListener := connectedListener s; connectionStatus := connectionStatus s;
currentUser := currentUser s; listeners := listeners s; presenceListeners :=
presenceListeners s; authUnsubscribe := authUnsubscribe s; appStateUnsubscribe :=
appStateUnsubscribe s; initialized := initialized s; initPromise := initPromise s;
setupInProgress := setupInProgress s; currentSetupUid := currentSetupUid s; retryTimeout :=
v; awayTimeout := awayTimeout s; currentPresenceState := currentPresenceState s |}.
Definition set_awayTimeout (v : option TimerHandle) (s : Service) : Service :=
  {| config := config s; userRef := userRef s; connectedRef := connectedRef s;
connectedListener := connectedListener s; connectionStatus := connectionStatus s;
currentUser := currentUser s; listeners := listeners s; presenceListeners :=
presenceListeners s; authUnsubscribe := authUnsubscribe s; appStateUnsubscribe :=
appStateUnsubscribe s; initialized := initialized s; initPromise := initPromise s;
setupInProgress := setupInProgress s; currentSetupUid := currentSetupUid s; retryTimeout :=
retryTimeout s; awayTimeout := v; currentPresenceState := currentPresenceState s |}.
Definition set_currentPresenceState (v : PState) (s : Service) : Service :=
  {| config := config s; userRef := userRef s; connectedRef := connectedRef s;
connectedListener := connectedListener s; connectionStatus := connectionStatus s;
currentUser := currentUser s; listeners := listeners s; presenceListeners :=
presenceListeners s; authUnsubscribe := authUnsubscribe s; appStateUnsubscribe :=
appStateUnsubscribe s; initialized := initialized s; initPromise := initPromise s;
setupInProgress := setupInProgress s; currentSetupUid := currentSetupUid s; retryTimeout :=
retryTimeout s; awayTimeout := awayTimeout s; currentPresenceState := v |}.

Definition set_isConnected (b : bool) (s : Service) : Service :=
  let st := connectionStatus s in
  set_connectionStatus (mkStatus b (lastConnected st) (retryCount st)) s.

Definition set_lastConnected (d : option Z) (s : Service) : Service :=
  let st := connectionStatus s in
  set_connectionStatus (mkStatus (isConnected st) d (retryCount st)) s.

Definition set_retryCount (n : Z) (s : Service) : Service :=
  let st := connectionStatus s in
  set_connectionStatus (mkStatus (isConnected st) (lastConnected st) n) s.

(** ** The runtime around the service *)

Inductive TimerKind : Type := RetryTimer | AwayTimer.

(** Who consumes the promise returned by [setPresenceState]: nobody (the
    call was not awaited), an outside caller, or [setupPresence]. *)
Inductive Cont : Type :=
| KDetached
| KCaller (c : nat)
| KSetup.

(** An [async] call of [setPresenceState] suspended at one of its [await]s,
    with the locals it still needs. *)
Inductive Pending : Type :=
| AwaitSet (state : PState) (customData : option CustomData) (k : Cont)
| AwaitOnDisconnect (k : Cont).

(** How the store settles a promise. *)
Inductive Reply : Type :=
| Ok
| Failed (cause : string).

(** Calls made to the collaborators, in order. *)
Inductive Effect : Type :=
| AuthSubscribed
| AuthUnsubscribed
| AppStateSubscribed
| OnValue (r : Ref)
| OffValue (r : Ref)
| StoreSet (id : nat) (r : Ref) (d : PresenceData)
| OnDisconnectSet (id : nat) (r : Ref) (d : PresenceData)
| OnDisconnectCancel (r : Ref)
| SetTimeout (h : TimerHandle) (k : TimerKind) (delay : JsNumber)
| ClearTimeout (h : TimerHandle)
| Notify (cb : Callback) (st : ConnectionStatus)
| Settled (c : nat) (o : Outcome)
| UnhandledRejection (e : Error).

Record World : Type := mkWorld {
  svc : Service;
  timers : list (TimerHandle * TimerKind);
  suspended : list (nat * Pending);
  fresh : nat;
  trace : list Effect
}.

Definition upd (f : Service -> Service) (w : World) : World :=
  mkWorld (f (svc w)) (timers w) (suspended w) (fresh w) (trace w).

Definition emits (es : list Effect) (w : World) : World :=
  mkWorld (svc w) (timers w) (suspended w) (fresh w) (trace w ++ es).

Definition emit (e : Effect) (w : World) : World := emits [e] w.

Definition setTimeout (k : TimerKind) (delay : JsNumber) (w : World) :
  TimerHandle * World :=
  let h := fresh w in
  (h, mkWorld (svc w) ((h, k) :: timers w) (suspended w) (S h)
              (trace w ++ [SetTimeout h k delay])).

Definition drop {A : Type} (n : nat) (l : list (nat * A)) : list (nat * A) :=
  filter (fun x => negb (Nat.eqb (fst x) n)) l.

Fixpoint lookup {A : Type} (n : nat) (l : list (nat * A)) : option A :=
  match l with
  | [] => None
  | (m, a) :: l' => if Nat.eqb m n then Some a else lookup n l'
  end.

Definition clearTimeout (h : TimerHandle) (w : World) : World :=
  mkWorld (svc w) (drop h (timers w)) (suspended w) (fresh w)
          (trace w ++ [ClearTimeout h]).

(** Suspend at an [await] on a store call; the store answers under [id]. *)
Definition suspend (p : Pending) (call : nat -> Effect) (w : World) : World :=
  let id := fresh w in
  mkWorld (svc w) (timers w) ((id, p) :: suspended w) (S id) (trace w ++ [call id]).

Definition isSome {A : Type} (o : option A) : bool :=
  match o with Some _ => true | None => false end.

(** [Array.prototype.includes] on strings *)
Definition includes (l : list string) (x : string) : bool :=
  existsb (String.eqb x) l.

(** ** [PresenceService] *)

Definition defaults : Config :=
  mkConfig JUndefined JUndefined JUndefined "presence" 30000 1000 5 false
           ["online"; "offline"; "away"; "busy"] true 300000.

Definition pick {A : Type} (o : option A) (d : A) : A :=
  match o with Some a => a | None => d end.

(** [{ ...c, ...p }] *)
Definition merge (c : Config) (p : PresenceConfig) : Config :=
  mkConfig (pick (p_firebaseApp p) (firebaseApp c))
           (pick (p_database p) (database c))
           (pick (p_auth p) (auth c))
           (pick (p_databasePath p) (databasePath c))
           (pick (p_offlineTimeout p) (offlineTimeout c))
           (pick (p_retryInterval p) (retryInterval c))
           (pick (p_maxRetries p) (maxRetries c))
           (pick (p_debug p) (debug c))
           (pick (p_customStates p) (customStates c))
           (pick (p_autoSetAway p) (autoSetAway c))
           (pick (p_awayTimeout p) (awayTimeout_ms c)).

(** The field initialisers of the class. *)
Definition newService (c : Config) : Service :=
  mkService c None None None (mkStatus false None 0) None [] [] false false
            false None false None None None offline.

Definition newWorld (c : Config) : World :=
  mkWorld (newService c) [] [] 1%nat [].

Definition notifyConnectionListeners (w : World) : World :=
  emits (map (fun cb => Notify cb (connectionStatus (svc w))) (listeners (svc w))) w.

Definition scheduleRetry (w : World) : World :=
  if isSome (retryTimeout (svc w))
     || (retryCount (connectionStatus (svc w)) >=? maxRetries (config (svc w)))
  then w
  else
    let delay := FirebaseValidator.createRetryDelay
                   (retryCount (connectionStatus (svc w)))
                   (retryInterval (config (svc w))) in
    let (h, w1) := setTimeout RetryTimer delay w in
    upd (set_retryTimeout (Some h)) w1.

Definition handleSetupError (w : World) : World :=
  let w1 := upd (set_retryCount (retryCount (connectionStatus (svc w)) + 1)) w in
  if retryCount (connectionStatus (svc w1)) <? maxRetries (config (svc w1))
  then scheduleRetry w1
  else w1.

Definition handleConnectionError (w : World) : World :=
  scheduleRetry (upd (set_retryCount (retryCount (connectionStatus (svc w)) + 1)) w).

Definition setupAwayTimer (w : World) : World :=
  if negb (autoSetAway (config (svc w))) then w
  else
    let (h, w1) := setTimeout AwayTimer (Finite (awayTimeout_ms (config (svc w)))) w in
    upd (set_awayTimeout (Some h)) w1.

(** [setupPresence] after its [await]: the rest of the [try] block, or the
    [catch], then the [finally]. *)
Definition setupPresence_finally (w : World) : World :=
  upd (set_setupInProgress false) w.

Definition setupPresence_catch (w : World) : World :=
  setupPresence_finally (handleSetupError (upd (set_userRef None) w)).

Definition setupPresence_resume (o : Outcome) (w : World) : World :=
  match o with
  | Resolved => setupPresence_finally (setupAwayTimer w)
  | Rejected _ => setupPresence_catch w
  end.

(** The promise of [setPresenceState] settles with [o]. *)
Definition settle (k : Cont) (o : Outcome) (w : World) : World :=
  match k with
  | KDetached =>
      match o with
      | Resolved => w
      | Rejected e => emit (UnhandledRejection e) w
      end
  | KCaller c => emit (Settled c o) w
  | KSetup => setupPresence_resume o w
  end.

Definition invalidState (state : PState) : Error :=
  PresenceError ("Invalid presence state: " ++ state_name state)%string
                "INVALID_STATE" None.

Definition setStateFailed (cause : string) : Error :=
  PresenceError "Failed to set presence state" "SET_STATE_FAILED" (Some cause).

(** [setPresenceState], up to its first [await]. *)
Definition setPresenceState (state : PState) (customData : option CustomData)
    (k : Cont) (w : World) : World :=
  match userRef (svc w) with
  | None => settle k Resolved w
  | Some r =>
      match currentUser (svc w) with
      | None => settle k Resolved w
      | Some u =>
          if negb (includes (customStates (config (svc w))) (state_name state))
          then settle k (Rejected (invalidState state)) w
          else
            let w1 := upd (set_currentPresenceState state) w in
            suspend (AwaitSet state customData k)
                    (fun id => StoreSet id r (mkPresenceData state (uid u) customData))
                    w1
      end
  end.

(** [setPresenceState] resumed when the store settles the awaited promise.
    After [await set(..)] the code reads [this.userRef] and
    [this.currentUser.uid] again; if either is gone the call it builds
    throws inside the [try]. *)
Definition resume (p : Pending) (r : Reply) (w : World) : World :=
  match p, r with
  | AwaitSet state customData k, Ok =>
      if PState_eqb state online then
        match userRef (svc w), currentUser (svc w) with
        | Some ref, Some u =>
            suspend (AwaitOnDisconnect k)
                    (fun id => OnDisconnectSet id ref
                                 (mkPresenceData offline (uid u) customData))
                    w
        | _, _ => settle k (Rejected (setStateFailed "TypeError")) w
        end
      else settle k Resolved w
  | AwaitSet _ _ k, Failed cause => settle k (Rejected (setStateFailed cause)) w
  | AwaitOnDisconnect k, Ok => settle k Resolved w
  | AwaitOnDisconnect k, Failed cause => settle k (Rejected (setStateFailed cause)) w
  end.

Definition cleanup (w : World) : World :=
  let w1 := match connectedListener (svc w) with
            | Some r => upd (set_connectedListener None) (emit (OffValue r) w)
            | None => w
            end in
  let w2 := match userRef (svc w1) with
            | Some r => upd (set_userRef None) (emit (OnDisconnectCancel r) w1)
            | None => w1
            end in
  let w3 := match connectedRef (svc w2) with
            | Some _ => upd (set_connectedRef None) w2
            | None => w2
            end in
  let w4 := match retryTimeout (svc w3) with
            | Some h => upd (set_retryTimeout None) (clearTimeout h w3)
            | None => w3
            end in
  let w5 := match awayTimeout (svc w4) with
            | Some h => upd (set_awayTimeout None) (clearTimeout h w4)
            | None => w4
            end in
  let w6 := upd (set_retryCount 0) (upd (set_isConnected false) w5) in
  notifyConnectionListeners w6.

Definition connectedPath : Ref := ".info/connected".

Definition setupPresence (uid : string) (w : World) : World :=
  if setupInProgress (svc w) then w
  else
    let w1 := upd (set_setupInProgress true) w in
    if negb (truthy (database (config (svc w1)))) then setupPresence_catch w1
    else
      let w2 := cleanup w1 in
      let w3 := upd (set_userRef
                       (Some (databasePath (config (svc w2)) ++ "/" ++ uid)%string)) w2 in
      let w4 := upd (set_connectedRef (Some connectedPath)) w3 in
      let w5 := upd (set_connectedListener (Some connectedPath))
                    (emit (OnValue connectedPath) w4) in
      match userRef (svc w5) with
      | Some _ => setPresenceState online None KSetup w5
      | None => setupPresence_finally w5
      end.

Definition uid_differs (u : string) (current : option string) : bool :=
  match current with
  | Some c => negb (String.eqb u c)
  | None => true
  end.

Definition handleAuthStateChange (user : option User) (w : World) : World :=
  match user with
  | Some u =>
      if uid_differs (uid u) (currentSetupUid (svc w)) then
        let w1 := upd (set_currentUser (Some u)) w in
        let w2 := upd (set_currentSetupUid (Some (uid u))) w1 in
        setupPresence (uid u) w2
      else w
  | None =>
      let w1 := upd (set_currentSetupUid None) w in
      match currentUser (svc w1) with
      | Some _ => upd (set_currentUser None) (cleanup w1)
      | None => w1
      end
  end.

(** [AppStateStatus] of React Native *)
Inductive AppStateStatus : Type :=
| active
| background
| inactive
| unknown
| extension.

Definition handleAppStateChange (appState : AppStateStatus) (w : World) : World :=
  let w1 := match awayTimeout (svc w) with
            | Some h => upd (set_awayTimeout None) (clearTimeout h w)
            | None => w
            end in
  match appState with
  | active => setupAwayTimer (setPresenceState online None KDetached w1)
  | background | inactive => setPresenceState offline None KDetached w1
  | unknown | extension => w1
  end.

(** The listener installed by [setupAppStateListener]. *)
Definition appStateListener (nextAppState : AppStateStatus) (w : World) : World :=
  if isSome (currentUser (svc w)) && isSome (userRef (svc w))
  then handleAppStateChange nextAppState w
  else w.

(** The callback armed by [setupAwayTimer]. *)
Definition awayTimerFired (w : World) : World :=
  if PState_eqb (currentPresenceState (svc w)) online
  then setPresenceState away None KDetached w
  else w.

(** The callback armed by [scheduleRetry]. *)
Definition retryTimerFired (w : World) : World :=
  let w1 := upd (set_retryTimeout None) w in
  match currentUser (svc w1) with
  | Some u =>
      if negb (isConnected (connectionStatus (svc w1)))
      then setupPresence (uid u) w1
      else w1
  | None => w1
  end.

(** [this.currentPresenceState || 'online'] *)
Definition currentOrOnline (s : PState) : PState :=
  if (state_name s =? "")%string then online else s.

Definition handleConnectionChange (connected : bool) (now : Z) (w : World) : World :=
  let wasConnected := isConnected (connectionStatus (svc w)) in
  let w1 := upd (set_isConnected connected) w in
  let w2 :=
    if connected then
      let w1a := upd (set_retryCount 0) (upd (set_lastConnected (Some now)) w1) in
      if negb wasConnected && isSome (userRef (svc w1a))
      then setPresenceState (currentOrOnline (currentPresenceState (svc w1a)))
                            None KDetached w1a
      else w1a
    else w1 in
  let w3 := notifyConnectionListeners w2 in
  if negb connected then scheduleRetry w3 else w3.

(** An [async] function turns the completion of its body into a promise;
    the call itself never throws. *)
Definition async (c : Completion unit) : Promise :=
  match c with
  | Normal _ => Resolved
  | Throw e => Rejected e
  end.

Definition _initialize_catch (e : Error) (w : World) : World * Completion unit :=
  let w1 := upd (set_initPromise None) (upd (set_initialized false) w) in
  (w1, Throw (match e with
              | PresenceError _ _ _ => e
              | ForeignError m =>
                  PresenceError "Failed to initialize presence service" "INIT_FAILED"
                                (Some m)
              end)).

(** The body of [_initialize]; it contains no [await]. *)
Definition _initialize (w : World) : World * Completion unit :=
  if initialized (svc w) then (w, Normal tt)
  else
    match FirebaseValidator.validateConfig (config (svc w)) with
    | Throw e => _initialize_catch e w
    | Normal _ =>
        if negb (truthy (auth (config (svc w))))
           || negb (truthy (database (config (svc w))))
        then _initialize_catch
               (PresenceError "Firebase services not ready" "SERVICES_NOT_READY" None) w
        else
          let w1 := upd (set_initialized true) w in
          let w2 := upd (set_authUnsubscribe true) (emit AuthSubscribed w1) in
          let w3 := upd (set_appStateUnsubscribe true) (emit AppStateSubscribed w2) in
          (w3, Normal tt)
    end.

Definition initialize (w : World) : World * Promise :=
  match initPromise (svc w) with
  | Some p => (w, p)
  | None =>
      let (w1, c) := _initialize w in
      let p := async c in
      (upd (set_initPromise (Some p)) w1, p)
  end.

(** [new PresenceService(config)]: merge the defaults, then call
    [this.initialize()] and drop the promise it returns. *)
Definition constructor (p : PresenceConfig) : Completion World :=
  let w0 := newWorld (merge defaults p) in
  let (w1, promise) := initialize w0 in
  Normal (match promise with
          | Resolved => w1
          | Rejected e => emit (UnhandledRejection e) w1
          end).

Fixpoint set_add (cb : Callback) (l : list Callback) : list Callback :=
  match l with
  | [] => [cb]
  | x :: l' => if Nat.eqb x cb then l else x :: set_add cb l'
  end.

Definition set_delete (cb : Callback) (l : list Callback) : list Callback :=
  filter (fun x => negb (Nat.eqb x cb)) l.

(** [this.initialize().catch(this.logError)]: [logError] is passed unbound,
    so when the promise is rejected the handler reads [this.config] of
    [undefined] and the promise made by [catch] is rejected in turn. *)
Definition initialize_logged (w : World) : World :=
  let (w1, p) := initialize w in
  match p with
  | Resolved => w1
  | Rejected _ =>
      emit (UnhandledRejection
              (ForeignError "TypeError: Cannot read properties of undefined")) w1
  end.

Definition subscribeToConnectionStatus (cb : Callback) (w : World) : World :=
  let w1 := initialize_logged w in
  let w2 := upd (set_listeners (set_add cb (listeners (svc w1)))) w1 in
  emit (Notify cb (connectionStatus (svc w2))) w2.

(** The function returned by [subscribeToConnectionStatus]. *)
Definition unsubscribeFromConnectionStatus (cb : Callback) (w : World) : World :=
  upd (set_listeners (set_delete cb (listeners (svc w)))) w.

(** ** [subscribeToUserPresence]

    [presenceListeners] is a [Map<string, Set<callback>>]; the entries are
    kept in insertion order. *)

Definition PresenceListeners := list (string * list Callback).

Fixpoint map_get (k : string) (m : PresenceListeners) : option (list Callback) :=
  match m with
  | [] => None
  | (k', v) :: m' => if String.eqb k' k then Some v else map_get k m'
  end.

Definition map_has (k : string) (m : PresenceListeners) : bool := isSome (map_get k m).

(** [Map.set] keeps the place of a key that is there already. *)
Fixpoint map_set (k : string) (v : list Callback) (m : PresenceListeners) :
  PresenceListeners :=
  match m with
  | [] => [(k, v)]
  | (k', v') :: m' =>
      if String.eqb k' k then (k, v) :: m' else (k', v') :: map_set k v m'
  end.

Definition map_delete (k : string) (m : PresenceListeners) : PresenceListeners :=
  filter (fun kv => negb (String.eqb (fst kv) k)) m.

(** The function returned by [subscribeToUserPresence]: [() => {}], or the
    closure over the store subscription, the uid and the callback. *)
Inductive Unsubscribe : Type :=
| NoOp
| UserPresenceUnsubscribe (r : Ref) (uid : string) (cb : Callback).

Definition subscribeToUserPresence (uid : string) (cb : Callback) (w : World) :
  World * Unsubscribe :=
  let w1 := initialize_logged w in
  if negb (truthy (database (config (svc w1)))) then (w1, NoOp)
  else
    let userPresenceRef := (databasePath (config (svc w1)) ++ "/" ++ uid)%string in
    let m := presenceListeners (svc w1) in
    let m1 := if negb (map_has uid m) then map_set uid [] m else m in
    match map_get uid m1 with
    | None => (upd (set_presenceListeners m1) w1, NoOp)
    | Some s =>
        let m2 := map_set uid (set_add cb s) m1 in
        let w2 := upd (set_presenceListeners m2) w1 in
        (emit (OnValue userPresenceRef) w2, UserPresenceUnsubscribe userPresenceRef uid cb)
    end.

Definition runUnsubscribe (u : Unsubscribe) (w : World) : World :=
  match u with
  | NoOp => w
  | UserPresenceUnsubscribe r uid cb =>
      let w1 := emit (OffValue r) w in
      match map_get uid (presenceListeners (svc w1)) with
      | Some userListeners =>
          let s := set_delete cb userListeners in
          let m1 := map_set uid s (presenceListeners (svc w1)) in
          let m2 := if Nat.eqb (List.length s) 0 then map_delete uid m1 else m1 in
          upd (set_presenceListeners m2) w1
      | None => w1
      end
  end.

Definition updateConfig (newConfig : PresenceConfig) (w : World) : World :=
  upd (set_config (merge (config (svc w)) newConfig)) w.

(** [destroy]: [this.authUnsubscribe] is a function and is called;
    [this.appStateUnsubscribe] is the subscription object, so calling it
    throws a [TypeError] and the rest of the method does not run. *)
Definition notAFunction : Error :=
  ForeignError "TypeError: this.appStateUnsubscribe is not a function".

Definition destroy (w : World) : World * Completion unit :=
  let w1 := if authUnsubscribe (svc w)
            then upd (set_authUnsubscribe false) (emit AuthUnsubscribed w)
            else w in
  if appStateUnsubscribe (svc w1) then (w1, Throw notAFunction)
  else
    let w3 := cleanup w1 in
    let w4 := upd (set_presenceListeners []) (upd (set_listeners []) w3) in
    (upd (set_initPromise None) (upd (set_initialized false) w4), Normal tt).

(** ** The event loop

    One callback or one call of a public method per step.  A collaborator
    only calls back while the service is subscribed to it, a timer only
    fires while it is live, and the store only settles a call that is
    suspended on it.  What a public method returns or throws goes to its
    caller; the step keeps the state it leaves. *)

Inductive Event : Type :=
| EvAuth (user : option User)
| EvAppState (s : AppStateStatus)
| EvConnected (connected : bool) (now : Z)
| EvConnectionError
| EvTimer (h : TimerHandle)
| EvReply (id : nat) (r : Reply)
| EvSetPresenceState (c : nat) (state : PState) (customData : option CustomData)
| EvSubscribe (cb : Callback)
| EvUnsubscribe (cb : Callback)
| EvSubscribeToUserPresence (userId : string) (cb : Callback)
| EvRunUnsubscribe (u : Unsubscribe)
| EvUpdateConfig (p : PresenceConfig)
| EvDestroy.

Definition fire (h : TimerHandle) (w : World) : option World :=
  match lookup h (timers w) with
  | None => None
  | Some k =>
      let w1 := mkWorld (svc w) (drop h (timers w)) (suspended w) (fresh w) (trace w) in
      Some (match k with
            | RetryTimer => retryTimerFired w1
            | AwayTimer => awayTimerFired w1
            end)
  end.

Definition reply (id : nat) (r : Reply) (w : World) : option World :=
  match lookup id (suspended w) with
  | None => None
  | Some p =>
      Some (resume p r
              (mkWorld (svc w) (timers w) (drop id (suspended w)) (fresh w) (trace w)))
  end.

Definition step (w : World) (e : Event) : option World :=
  match e with
  | EvAuth user =>
      if authUnsubscribe (svc w) then Some (handleAuthStateChange user w) else None
  | EvAppState s =>
      if appStateUnsubscribe (svc w) then Some (appStateListener s w) else None
  | EvConnected connected now =>
      if isSome (connectedListener (svc w))
      then Some (handleConnectionChange connected now w) else None
  | EvConnectionError =>
      if isSome (connectedListener (svc w))
      then Some (handleConnectionError w) else None
  | EvTimer h => fire h w
  | EvReply id r => reply id r w
  | EvSetPresenceState c state customData =>
      Some (setPresenceState state customData (KCaller c) w)
  | EvSubscribe cb => Some (subscribeToConnectionStatus cb w)
  | EvUnsubscribe cb => Some (unsubscribeFromConnectionStatus cb w)
  | EvSubscribeToUserPresence userId cb =>
      Some (fst (subscribeToUserPresence userId cb w))
  | EvRunUnsubscribe u => Some (runUnsubscribe u w)
  | EvUpdateConfig p => Some (updateConfig p w)
  | EvDestroy => Some (fst (destroy w))
  end.

Fixpoint run (w : World) (es : list Event) : option World :=
  match es with
  | [] => Some w
  | e :: es' =>
      match step w e with
      | Some w' => run w' es'
      | None => None
      end
  end.

(** The worlds a service can be in: built by the constructor, then driven
    by events. *)
Inductive reachable : World -> Prop :=
| reach_new : forall p w, constructor p = Normal w -> reachable w
| reach_step : forall w e w', reachable w -> step w e = Some w' -> reachable w'.

(** A binding exists: the per-identity reference [r] and the identity [u]. *)
Definition bound (w : World) (r : Ref) (u : User) : Prop :=
  userRef (svc w) = Some r /\ currentUser (svc w) = Some u.

Definition allowed (w : World) (s : PState) : Prop :=
  includes (customStates (config (svc w))) (state_name s) = true.

(** ** Auxiliary definitions for the statements *)

Definition validCfg : PresenceConfig :=
  mkPresenceConfig (Some (JObj 1)) (Some (JObj 2)) (Some (JObj 3))
                   None None None None None None None None.

Definition emptyCfg : PresenceConfig :=
  mkPresenceConfig None None None None None None None None None None None.

Definition alice : User := mkUser "A".

(** The world right after [new PresenceService(p)]. *)
Definition started (p : PresenceConfig) : World :=
  match constructor p with
  | Normal w => w
  | Throw _ => newWorld (merge defaults p)
  end.

(** A required handle is absent (or falsy) in [p]. *)
Definition missingRequired (p : PresenceConfig) : Prop :=
  truthy (pick (p_firebaseApp p) JUndefined) = false \/
  truthy (pick (p_database p) JUndefined) = false \/
  truthy (pick (p_auth p) JUndefined) = false.

(** The errors raised by [validateConfig]. *)
Definition configurationError (e : Error) : Prop :=
  In (code_of e) ["MISSING_FIREBASE_APP"; "MISSING_DATABASE"; "MISSING_AUTH"].

(** The records written with [set], the deferred writes registered with
    [onDisconnect(..).set], and the statuses handed to listeners, in order. *)
Fixpoint writes (t : list Effect) : list (Ref * PresenceData) :=
  match t with
  | [] => []
  | StoreSet _ r d :: t' => (r, d) :: writes t'
  | _ :: t' => writes t'
  end.

Fixpoint registrations (t : list Effect) : list (Ref * PresenceData) :=
  match t with
  | [] => []
  | OnDisconnectSet _ r d :: t' => (r, d) :: registrations t'
  | _ :: t' => registrations t'
  end.

Fixpoint notifications (t : list Effect) : list (Callback * ConnectionStatus) :=
  match t with
  | [] => []
  | Notify cb st :: t' => (cb, st) :: notifications t'
  | _ :: t' => notifications t'
  end.

(** The store accepts every call that [setPresenceState state], suspended
    under [id], makes. *)
Definition acks (state : PState) (id : nat) : list Event :=
  if PState_eqb state online then [EvReply id Ok; EvReply (S id) Ok]
  else [EvReply id Ok].

Definition boundWorld : World :=
  Eval vm_compute in
  match run (started validCfg)
            [EvAuth (Some alice); EvReply 1 Ok; EvReply 2 Ok] with
  | Some w => w
  | None => newWorld defaults
  end.

Definition twoStates : PresenceConfig :=
  mkPresenceConfig (Some (JObj 1)) (Some (JObj 2)) (Some (JObj 3))
                   None None None None None
                   (Some ["online"; "offline"]%string) None None.

(** A bound session configured with [customStates: ['online', 'offline']],
    after the first write has been accepted and the idle timer armed. *)
Definition twoStateWorld : World :=
  Eval vm_compute in
  match run (started twoStates)
            [EvAuth (Some alice); EvReply 1 Ok; EvReply 2 Ok] with
  | Some w => w
  | None => newWorld defaults
  end.

Definition unboundWorld : World := Eval vm_compute in started validCfg.

(** The status left by [cleanup]. *)
Definition resetStatus (w : World) : ConnectionStatus :=
  mkStatus false (lastConnected (connectionStatus (svc w))) 0.

(** What the registered listeners of [w] hear when [cleanup] runs. *)
Definition resetHeard (w : World) : list (Callback * ConnectionStatus) :=
  map (fun cb => (cb, resetStatus w)) (listeners (svc w)).

(** The calls [cleanup] makes before it notifies. *)
Definition cleanupCalls (w : World) : list Effect :=
  match connectedListener (svc w) with Some r => [OffValue r] | None => [] end ++
  match userRef (svc w) with Some r => [OnDisconnectCancel r] | None => [] end ++
  match retryTimeout (svc w) with Some h => [ClearTimeout h] | None => [] end ++
  match awayTimeout (svc w) with Some h => [ClearTimeout h] | None => [] end.

Definition bob : User := mkUser "B".

(** A bound session of a service configured with [autoSetAway: false]. *)
Definition manualAway : PresenceConfig :=
  mkPresenceConfig (Some (JObj 1)) (Some (JObj 2)) (Some (JObj 3))
                   None None None None None None (Some false) None.

Definition manualWorld : World :=
  Eval vm_compute in
  match run (started manualAway)
            [EvAuth (Some alice); EvReply 1 Ok; EvReply 2 Ok] with
  | Some w => w
  | None => newWorld defaults
  end.

(** A bound, connected session with two status listeners. *)
Definition listeningWorld : World :=
  Eval vm_compute in
  match run boundWorld [EvSubscribe 11%nat; EvSubscribe 12%nat; EvConnected true 100;
                        EvReply 4 Ok; EvReply 5 Ok] with
  | Some w => w
  | None => newWorld defaults
  end.

Definition onlyBusy : PresenceConfig :=
  mkPresenceConfig None None None None None None None None
                   (Some ["busy"]%string) None None.

(** A bound session that has seen the store connect and disconnect, and
    whose allowed set was then replaced by [['busy']] with [updateConfig]. *)
Definition narrowedWorld : World :=
  Eval vm_compute in
  match run boundWorld [EvConnected true 10; EvReply 4 Ok; EvReply 5 Ok;
                        EvConnected false 20; EvUpdateConfig onlyBusy] with
  | Some w => w
  | None => newWorld defaults
  end.

Definition oneRetry : PresenceConfig :=
  mkPresenceConfig (Some (JObj 1)) (Some (JObj 2)) (Some (JObj 3))
                   None None None (Some 1) None None None None.

(** The retry timers armed so far: handle and delay. *)
Fixpoint retryArms (t : list Effect) : list (TimerHandle * JsNumber) :=
  match t with
  | [] => []
  | SetTimeout h RetryTimer d :: t' => (h, d) :: retryArms t'
  | _ :: t' => retryArms t'
  end.

Definition belowCeiling (w : World) : Prop :=
  retryCount (connectionStatus (svc w)) < maxRetries (config (svc w)).

(** Going from [w] to [w'] armed no retry timer, or [w'] is below the
    ceiling. *)
Definition arms_below (w w' : World) : Prop :=
  retryArms (trace w') = retryArms (trace w) \/ belowCeiling w'.

(** A service with [maxRetries: 1] after a failed first write and an error of
    the connectivity subscription. *)
Definition ceilingWorld : World :=
  Eval vm_compute in
  match run (started oneRetry)
            [EvAuth (Some alice); EvReply 1 (Failed "PERMISSION_DENIED"%string);
             EvConnectionError] with
  | Some w => w
  | None => newWorld defaults
  end.


(** From [w] to [w'] the identity is kept and the binding reference is kept
    or dropped. *)
Definition keeps_identity (w w' : World) : Prop :=
  currentUser (svc w') = currentUser (svc w) /\
  (userRef (svc w') = userRef (svc w) \/ userRef (svc w') = None).

(** A binding reference is only held for a current identity. *)
Definition binding_has_identity (w : World) : Prop :=
  userRef (svc w) <> None -> currentUser (svc w) <> None.

(** ** Further definitions for the statements *)

(** [{ ...p, ...q }] on partial configurations. *)
Definition orElse {A : Type} (q p : option A) : option A :=
  match q with Some a => Some a | None => p end.

Definition overlay (p q : PresenceConfig) : PresenceConfig :=
  mkPresenceConfig (orElse (p_firebaseApp q) (p_firebaseApp p))
                   (orElse (p_database q) (p_database p))
                   (orElse (p_auth q) (p_auth p))
                   (orElse (p_databasePath q) (p_databasePath p))
                   (orElse (p_offlineTimeout q) (p_offlineTimeout p))
                   (orElse (p_retryInterval q) (p_retryInterval p))
                   (orElse (p_maxRetries q) (p_maxRetries p))
                   (orElse (p_debug q) (p_debug p))
                   (orElse (p_customStates q) (p_customStates p))
                   (orElse (p_autoSetAway q) (p_autoSetAway p))
                   (orElse (p_awayTimeout q) (p_awayTimeout p)).

(** The timers left live by [cleanup]. *)
Definition cleanupTimers (w : World) : list (TimerHandle * TimerKind) :=
  let t1 := match retryTimeout (svc w) with
            | Some h => drop h (timers w)
            | None => timers w
            end in
  match awayTimeout (svc w) with
  | Some h => drop h t1
  | None => t1
  end.

(** The service record left by [cleanup]. *)
Definition cleanupService (w : World) : Service :=
  let s := svc w in
  mkService (config s) None None None (resetStatus w) (currentUser s) (listeners s)
            (presenceListeners s) (authUnsubscribe s) (appStateUnsubscribe s)
            (initialized s) (initPromise s) (setupInProgress s) (currentSetupUid s)
            None None (currentPresenceState s).

(** What [handleAppStateChange] does to a pending idle timer. *)
Definition cancelAway (w : World) : list Effect :=
  match awayTimeout (svc w) with Some h => [ClearTimeout h] | None => [] end.

Definition timersAfterCancelAway (w : World) : list (TimerHandle * TimerKind) :=
  match awayTimeout (svc w) with Some h => drop h (timers w) | None => timers w end.

(** The reference [setupPresence] binds for [id]. *)
Definition userPath (w : World) (id : string) : Ref :=
  (databasePath (config (svc w)) ++ "/" ++ id)%string.

Definition threeStates : PresenceConfig :=
  mkPresenceConfig (Some (JObj 1)) None (Some (JStr ""%string))
                   None None None None None None None None.

(** The service record left by a [destroy] that returns. *)
Definition destroyedService (w : World) : Service :=
  let s := svc w in
  mkService (config s) None None None (resetStatus w) (currentUser s) [] [] false false
            false None (setupInProgress s) (currentSetupUid s) None None
            (currentPresenceState s).

(** The subscription [destroy] ends first. *)
Definition destroyCalls (w : World) : list Effect :=
  if authUnsubscribe (svc w) then [AuthUnsubscribed] else [].

(** The world [destroy] leaves when it returns, and when it throws. *)
Definition destroyedWorld (w : World) : World :=
  mkWorld (destroyedService w) (cleanupTimers w) (suspended w) (fresh w)
          (trace w ++ destroyCalls w ++ cleanupCalls w
                   ++ map (fun cb => Notify cb (resetStatus w)) (listeners (svc w))).

Definition halfDestroyedWorld (w : World) : World :=
  mkWorld (set_authUnsubscribe false (svc w)) (timers w) (suspended w) (fresh w)
          (trace w ++ destroyCalls w).

(** A service constructed without its handles and given them afterwards. *)
Definition repairedWorld : World :=
  Eval vm_compute in
  match run (started emptyCfg) [EvUpdateConfig validCfg] with
  | Some w => w
  | None => newWorld defaults
  end.

(** Kinds of collaborator calls. *)
Definition isStoreCall (e : Effect) : bool :=
  match e with
  | StoreSet _ _ _ | OnDisconnectSet _ _ _ => true
  | _ => false
  end.

Definition isSubscription (e : Effect) : bool :=
  match e with
  | AuthSubscribed | AuthUnsubscribed | AppStateSubscribed
  | OnValue _ | OffValue _ => true
  | _ => false
  end.

Definition isNotify (e : Effect) : bool :=
  match e with Notify _ _ => true | _ => false end.

(** Timer calls and promise settlements. *)
Definition isLocal (e : Effect) : bool :=
  match e with
  | SetTimeout _ _ _ | ClearTimeout _ | Settled _ _ | UnhandledRejection _ => true
  | _ => false
  end.

Definition isLocalOrStore (e : Effect) : bool := isLocal e || isStoreCall e.

(** From [w] to [w'] the trace grew by calls of kind [P] only. *)
Definition adds (P : Effect -> bool) (w w' : World) : Prop :=
  exists l, trace w' = trace w ++ l /\ forallb P l = true.

(** The fields that only the lifecycle and binding code assigns. *)
Definition lifecycle (s : Service) :=
  (config s, listeners s, presenceListeners s, authUnsubscribe s,
   appStateUnsubscribe s, initialized s, initPromise s, connectedRef s,
   connectedListener s, currentUser s, currentSetupUid s).

Definition count (P : Effect -> bool) (t : list Effect) : nat :=
  List.length (filter P t).

Definition isAuthSub (e : Effect) : bool :=
  match e with AuthSubscribed => true | _ => false end.
Definition isAuthUnsub (e : Effect) : bool :=
  match e with AuthUnsubscribed => true | _ => false end.
Definition isAppSub (e : Effect) : bool :=
  match e with AppStateSubscribed => true | _ => false end.
Definition isOnValue (e : Effect) : bool :=
  match e with OnValue _ => true | _ => false end.
Definition isOffValue (e : Effect) : bool :=
  match e with OffValue _ => true | _ => false end.

Definition b2n (b : bool) : nat := if b then 1%nat else 0%nat.

(** The service has subscribed to the identity provider and to the app
    lifecycle once if it is initialised and never otherwise; it still holds
    the app-lifecycle subscription, and it holds the identity subscription
    or has ended it once. *)
Definition subscriptions_match (w : World) : Prop :=
  count isAuthSub (trace w) = b2n (initialized (svc w)) /\
  count isAppSub (trace w) = b2n (initialized (svc w)) /\
  (count isAuthUnsub (trace w) + b2n (authUnsubscribe (svc w)))%nat
    = b2n (initialized (svc w)) /\
  appStateUnsubscribe (svc w) = initialized (svc w) /\
  (initialized (svc w) = true -> initPromise (svc w) = Some Resolved).

(** No identity and no binding. *)
Definition noIdentity (w : World) : Prop :=
  currentUser (svc w) = None /\ userRef (svc w) = None.

Definition isSignIn (e : Event) : bool :=
  match e with EvAuth (Some _) => true | _ => false end.

Definition isDestroy (e : Event) : bool :=
  match e with EvDestroy => true | _ => false end.

Definition isSubscribeOf (cb : Callback) (e : Event) : bool :=
  match e with EvSubscribe cb' => Nat.eqb cb' cb | _ => false end.

(** The statuses handed to [cb]. *)
Definition heardBy (cb : Callback) (t : list Effect) : list ConnectionStatus :=
  map snd (filter (fun x => Nat.eqb (fst x) cb) (notifications t)).

(** Subscriptions to the identity provider and the app lifecycle. *)
Definition isLifecycleSub (e : Effect) : bool := isAuthSub e || isAppSub e.

(** The initialisation failed and was memoised; the service holds no
    subscription, binding, timer or pending write, and has written nothing
    and never subscribed to the identity provider or the app lifecycle. *)
Definition initFailed (w : World) : Prop :=
  (exists e, configurationError e /\ initPromise (svc w) = Some (Rejected e)) /\
  initialized (svc w) = false /\
  authUnsubscribe (svc w) = false /\
  appStateUnsubscribe (svc w) = false /\
  connectedListener (svc w) = None /\
  userRef (svc w) = None /\
  timers w = [] /\
  suspended w = [] /\
  forallb (fun e => negb (isStoreCall e || isLifecycleSub e)) (trace w) = true.

(** A step that makes or ends no subscription and assigns no lifecycle
    field. *)
Definition quiet (w w' : World) : Prop :=
  adds (fun e => negb (isSubscription e)) w w' /\
  lifecycle (svc w') = lifecycle (svc w).

Definition noStore (e : Effect) : bool := negb (isStoreCall e).

(** A session whose first write is still in flight. *)
Definition pendingWorld : World :=
  Eval vm_compute in
  match run (started validCfg) [EvAuth (Some alice)] with
  | Some w => w
  | None => newWorld defaults
  end.

(** From [w] to [w'] only listeners registered in [w] were notified, and
    the registrations are the same. *)
Definition tells (w w' : World) : Prop :=
  (exists l, notifications (trace w') = notifications (trace w) ++ l /\
             forall x, In x l -> In (fst x) (listeners (svc w))) /\
  listeners (svc w') = listeners (svc w).

(** The listener registrations after a step from [w]. *)
Definition listenersAfter (w : World) (e : Event) : list Callback :=
  match e with
  | EvSubscribe cb => set_add cb (listeners (svc w))
  | EvUnsubscribe cb => set_delete cb (listeners (svc w))
  | EvDestroy => if appStateUnsubscribe (svc w) then listeners (svc w) else []
  | _ => listeners (svc w)
  end.

(** The uid recorded for the setup is the uid of the current user. *)
Definition tracksUser (w : World) : Prop :=
  currentSetupUid (svc w) = option_map uid (currentUser (svc w)).

(** The sign-in and the lifecycle subscriptions. *)
Definition session (s : Service) :=
  (currentUser s, currentSetupUid s, authUnsubscribe s, appStateUnsubscribe s,
   initialized s, initPromise s).

Definition sameSignIn (w w' : World) : Prop := session (svc w') = session (svc w).

Definition sameUser (w w' : World) : Prop :=
  currentUser (svc w') = currentUser (svc w) /\
  currentSetupUid (svc w') = currentSetupUid (svc w).

(** An initialised service that has ended its identity subscription. *)
Definition deaf (w : World) : Prop :=
  initialized (svc w) = true /\ authUnsubscribe (svc w) = false /\
  appStateUnsubscribe (svc w) = true /\ initPromise (svc w) = Some Resolved.

Definition isAuthEvent (e : Event) : bool :=
  match e with EvAuth _ => true | _ => false end.

(** Every live retry timer is the one whose handle the service holds. *)
Definition retryHeld (w : World) : Prop :=
  forall h, In (h, RetryTimer) (timers w) -> retryTimeout (svc w) = Some h.

(** No retry timer was armed and the held handle is the same. *)
Definition retryFrame (w w' : World) : Prop :=
  (forall h, In (h, RetryTimer) (timers w') -> In (h, RetryTimer) (timers w)) /\
  retryTimeout (svc w') = retryTimeout (svc w).

(** A bound session that lost its connection and waits for a retry. *)
Definition retryingWorld : World :=
  Eval vm_compute in
  match run boundWorld [EvConnected false 50] with
  | Some w => w
  | None => newWorld defaults
  end.

(** ** Statements about [subscribeToUserPresence] *)

(** The callbacks registered for [uid]. *)
Definition userListeners (uid : string) (w : World) : list Callback :=
  match map_get uid (presenceListeners (svc w)) with
  | Some s => s
  | None => []
  end.

(** No uid is kept with an empty set of callbacks. *)
Definition noEmptySet (m : PresenceListeners) : Prop :=
  forall k, map_get k m <> Some [].

(** A world in which one callback watches the presence of [B]. *)
Definition watchingWorld : World :=
  Eval vm_compute in fst (subscribeToUserPresence "B" 21%nat boundWorld).

(** ** [src/config/index.ts]

    The module holds [globalPresenceService].  Services are objects: the
    instances made so far are kept in a store and named by their place in
    it, so that the service [configurePresence] returns and the global one
    are the same object. *)

Definition ServiceRef := nat.

Record Globals : Type := mkGlobals {
  instances : list World;
  globalPresenceService : option ServiceRef
}.

(** A method call on the instance behind a reference. *)
Fixpoint onInstance (r : ServiceRef) (f : World -> World) (l : list World) : list World :=
  match l, r with
  | [], _ => []
  | w :: l', O => f w :: l'
  | w :: l', S r' => w :: onInstance r' f l'
  end.

Definition message_of (e : Error) : string :=
  match e with
  | PresenceError m _ _ => m
  | ForeignError m => m
  end.

(** [globalPresenceService.destroy()]: the instance after the call, and
    how the call completed. *)
Definition destroyInstance (r : ServiceRef) (l : list World) :
  list World * Completion unit :=
  match nth_error l r with
  | Some w => (onInstance r (fun w0 => fst (destroy w0)) l, snd (destroy w))
  | None => (l, Normal tt)
  end.

(** The call of [destroy] stands before the [try]: what it throws leaves
    [configurePresence] as it is, and no instance is constructed. *)
Definition configurePresence (config : PresenceConfig) (g : Globals) :
  Globals * Completion ServiceRef :=
  let (g1, destroyed) :=
    match globalPresenceService g with
    | Some r =>
        let (l, c) := destroyInstance r (instances g) in (mkGlobals l (Some r), c)
    | None => (g, Normal tt)
    end in
  match destroyed with
  | Throw e => (g1, Throw e)
  | Normal _ =>
      match constructor config with
      | Normal w =>
          let r := List.length (instances g1) in
          (mkGlobals (instances g1 ++ [w]) (Some r), Normal r)
      | Throw e =>
          (g1, Throw (PresenceError "Failed to configure global presence service"
                                    "CONFIG_FAILED" (Some (message_of e))))
      end
  end.

Definition getGlobalPresenceService (g : Globals) : Completion ServiceRef :=
  match globalPresenceService g with
  | None =>
      Throw (PresenceError
               "Global presence service not configured. Call configurePresence() first."
               "NOT_CONFIGURED" None)
  | Some r => Normal r
  end.

Definition createPresenceService (config : PresenceConfig) (g : Globals) :
  Globals * Completion ServiceRef :=
  match constructor config with
  | Normal w =>
      (mkGlobals (instances g ++ [w]) (globalPresenceService g),
       Normal (List.length (instances g)))
  | Throw e => (g, Throw e)
  end.

Definition destroyGlobalPresenceService (g : Globals) : Globals * Completion unit :=
  match globalPresenceService g with
  | Some r =>
      let (l, c) := destroyInstance r (instances g) in
      match c with
      | Normal _ => (mkGlobals l None, Normal tt)
      | Throw e => (mkGlobals l (Some r), Throw e)
      end
  | None => (g, Normal tt)
  end.

(** The global reference names an instance. *)
Definition globalsOk (g : Globals) : Prop :=
  match globalPresenceService g with
  | Some r => (r < List.length (instances g))%nat
  | None => True
  end.

(** A module whose global service is the bound session with two listeners. *)
Definition listeningGlobals : Globals := mkGlobals [listeningWorld] (Some 0%nat).

(** The instance that is global. *)
Definition globalInstance (g : Globals) : option World :=
  match globalPresenceService g with
  | Some r => nth_error (instances g) r
  | None => None
  end.

(** The global instance holds the app-lifecycle subscription. *)
Definition globalHoldsAppState (g : Globals) : bool :=
  match globalInstance g with
  | Some w => appStateUnsubscribe (svc w)
  | None => false
  end.

(** A module whose global service was constructed without its handles. *)
Definition repairedGlobals : Globals := mkGlobals [repairedWorld] (Some 0%nat).

(** ** Hooks and components

    The parts of the hooks that do not depend on React: what
    [useMultipleUsersPresence] derives from its state, what its effect
    does to the service, and [formatLastSeen] of [PresenceIndicator]. *)

(** A [PresenceState] as read from the store. *)
Record PresenceState : Type := mkPresenceState {
  ps_state : string;
  ps_lastChanged : JsVal;
  ps_customData : option CustomData;
  ps_uid : option string
}.

(** [MultipleUsersPresence], given by [Object.entries]: own keys, each
    once. *)
Definition MultipleUsersPresence := list (string * option PresenceState).

Fixpoint obj_get (k : string) (o : MultipleUsersPresence) :
  option (option PresenceState) :=
  match o with
  | [] => None
  | (k', v) :: o' => if String.eqb k' k then Some v else obj_get k o'
  end.

(** [presence?.state === st] *)
Definition stateIs (st : string) (presence : option PresenceState) : bool :=
  match presence with
  | Some p => String.eqb (ps_state p) st
  | None => false
  end.

Definition usersInState (st : string) (presences : MultipleUsersPresence) : list string :=
  map fst (filter (fun e => stateIs st (snd e)) presences).

Definition onlineUsers := usersInState "online".
Definition offlineUsers := usersInState "offline".
Definition awayUsers := usersInState "away".
Definition busyUsers := usersInState "busy".

(** [presences[userId]?.state === 'online'] *)
Definition isUserOnline (presences : MultipleUsersPresence) (userId : string) : bool :=
  match obj_get userId presences with
  | Some v => stateIs "online" v
  | None => false
  end.

Definition somePresences : MultipleUsersPresence :=
  [("A", Some (mkPresenceState "online" (JNum 1) None None));
   ("B", None);
   ("C", Some (mkPresenceState "busy" (JNum 2) None None));
   ("D", Some (mkPresenceState "online" (JNum 3) None None))]%string.

(** The effect of [useMultipleUsersPresence]: each user id comes with the
    closure made for it in its turn of [forEach]. *)
Fixpoint useMultipleUsersPresence_effect (userIds : list (string * Callback)) (w : World) :
  World * list Unsubscribe :=
  match userIds with
  | [] => (w, [])
  | (userId, cb) :: rest =>
      if String.eqb userId "" then useMultipleUsersPresence_effect rest w
      else
        let (w1, unsubscribe) := subscribeToUserPresence userId cb w in
        let (w2, unsubscribeFunctions) := useMultipleUsersPresence_effect rest w1 in
        (w2, unsubscribe :: unsubscribeFunctions)
  end.

(** The cleanup the effect returns. *)
Definition useMultipleUsersPresence_cleanup (unsubscribeFunctions : list Unsubscribe)
  (w : World) : World :=
  fold_left (fun w' unsubscribe => runUnsubscribe unsubscribe w') unsubscribeFunctions w.

(** The user ids the effect subscribes to. *)
Definition watched (userIds : list (string * Callback)) : list (string * Callback) :=
  filter (fun p => negb (String.eqb (fst p) "")) userIds.

Definition callbacksFor (k : string) (qs : list (string * Callback)) : list Callback :=
  map snd (filter (fun p => String.eqb (fst p) k) qs).

(** A [Date] holds a time value in milliseconds, or [NaN] when it is an
    Invalid Date. *)
Inductive JsDate : Type :=
| TimeValue (t : Z)
| InvalidDate.

Definition getTime (d : JsDate) : JsNumber :=
  match d with
  | TimeValue t => Finite t
  | InvalidDate => NotANumber
  end.

(** [a - b], [Math.floor(x / d)] for a positive [d], [x < n] and the text
    of a number in a template. *)
Definition minus (a b : JsNumber) : JsNumber :=
  match a, b with
  | Finite x, Finite y => Finite (x - y)
  | NotANumber, _ | _, NotANumber => NotANumber
  | PlusInfinity, PlusInfinity | MinusInfinity, MinusInfinity => NotANumber
  | PlusInfinity, _ | _, MinusInfinity => PlusInfinity
  | MinusInfinity, _ | _, PlusInfinity => MinusInfinity
  end.

Definition floorDiv (x : JsNumber) (d : Z) : JsNumber :=
  match x with
  | Finite z => Finite (z / d)
  | _ => x
  end.

Definition lessThan (x : JsNumber) (n : Z) : bool :=
  match x with
  | Finite z => z <? n
  | MinusInfinity => true
  | PlusInfinity | NotANumber => false
  end.

Definition show (n : Z) : string := DecimalString.NilZero.string_of_int (Z.to_int n).

Definition showNumber (x : JsNumber) : string :=
  match x with
  | Finite z => show z
  | PlusInfinity => "Infinity"
  | MinusInfinity => "-Infinity"
  | NotANumber => "NaN"
  end.

(** [formatLastSeen]; [now] is the time value of [new Date()]. *)
Definition formatLastSeen (now : Z) (date : option JsDate) : string :=
  match date with
  | None => "Never"
  | Some d =>
      let diff := minus (Finite now) (getTime d) in
      let minutes := floorDiv diff 60000 in
      let hours := floorDiv diff 3600000 in
      let days := floorDiv diff 86400000 in
      if lessThan minutes 1 then "Just now"
      else if lessThan minutes 60 then (showNumber minutes ++ "m ago")%string
      else if lessThan hours 24 then (showNumber hours ++ "h ago")%string
      else (showNumber days ++ "d ago")%string
  end.

(** Four user ids, one of them empty and one given twice. *)
Definition someUserIds : list (string * Callback) :=
  [("B", 21%nat); ("", 22%nat); ("B", 23%nat); ("C", 24%nat)]%string.

(** ** Basic facts *)

Lemma writes_app (a b : list Effect) : writes (a ++ b) = writes a ++ writes b.
Proof.
  induction a as [|e a IH]; [reflexivity|].
  destruct e; simpl; rewrite IH; reflexivity.
Qed.

Lemma registrations_app (a b : list Effect) :
  registrations (a ++ b) = registrations a ++ registrations b.
Proof.
  induction a as [|e a IH]; [reflexivity|].
  destruct e; simpl; rewrite IH; reflexivity.
Qed.

Lemma notifications_app (a b : list Effect) :
  notifications (a ++ b) = notifications a ++ notifications b.
Proof.
  induction a as [|e a IH]; [reflexivity|].
  destruct e; simpl; rewrite IH; reflexivity.
Qed.

Lemma notifications_notify (st : ConnectionStatus) (l : list Callback) :
  notifications (map (fun cb => Notify cb st) l) = map (fun cb => (cb, st)) l.
Proof. induction l as [|cb l IH]; simpl; [|rewrite IH]; reflexivity. Qed.

Lemma run_reachable (es : list Event) :
  forall w w', reachable w -> run w es = Some w' -> reachable w'.
Proof.
  induction es as [|e es IH]; intros w w' Hw Hrun; simpl in Hrun.
  - injection Hrun as <-. exact Hw.
  - destruct (step w e) as [w1|] eqn:Hstep; [|discriminate].
    apply (IH w1); [eapply reach_step; eassumption | exact Hrun].
Qed.

Lemma PState_eqb_eq (a b : PState) : PState_eqb a b = true <-> a = b.
Proof. destruct a, b; simpl; split; intro H; congruence. Qed.

Lemma currentOrOnline_id (s : PState) : currentOrOnline s = s.
Proof. destruct s; reflexivity. Qed.

(** [setPresenceState] on a bound session and an allowed state: the state
    is recorded, the write is issued and the call suspends. *)
Lemma setPresenceState_bound w r u s cd k :
  bound w r u -> allowed w s ->
  setPresenceState s cd k w =
  suspend (AwaitSet s cd k)
          (fun id => StoreSet id r (mkPresenceData s (uid u) cd))
          (upd (set_currentPresenceState s) w).
Proof.
  intros [Hr Hu] Ha. unfold setPresenceState, allowed in *.
  rewrite Hr, Hu, Ha. reflexivity.
Qed.

Lemma setPresenceState_invalid w r u s cd k :
  bound w r u -> ~ allowed w s ->
  setPresenceState s cd k w = settle k (Rejected (invalidState s)) w.
Proof.
  intros [Hr Hu] Ha. unfold setPresenceState, allowed in *.
  rewrite Hr, Hu.
  destruct (includes (customStates (config (svc w))) (state_name s));
    [exfalso; apply Ha; reflexivity | reflexivity].
Qed.

Lemma setPresenceState_unbound w s cd k :
  userRef (svc w) = None \/ currentUser (svc w) = None ->
  setPresenceState s cd k w = settle k Resolved w.
Proof.
  intros [H|H]; unfold setPresenceState; rewrite H;
    [|destruct (userRef (svc w))]; reflexivity.
Qed.

(** The store settles the call that has just been suspended. *)
Lemma reply_suspend p call r w id :
  id = fresh w ->
  reply id r (suspend p call w) =
  Some (resume p r (mkWorld (svc w) (timers w) (drop (fresh w) (suspended w))
                            (S (fresh w)) (trace w ++ [call (fresh w)]))).
Proof.
  intros ->. unfold reply, suspend, drop. simpl. rewrite Nat.eqb_refl. reflexivity.
Qed.

(** What the methods around [presenceListeners] do to the world: they
    assign that map and open or close at most one store subscription. *)
Lemma set_presenceListeners_id s : set_presenceListeners (presenceListeners s) s = s.
Proof. destruct s; reflexivity. Qed.

Lemma world_as_update w :
  w = mkWorld (set_presenceListeners (presenceListeners (svc w)) (svc w))
              (timers w) (suspended w) (fresh w) (trace w ++ []).
Proof.
  rewrite set_presenceListeners_id, app_nil_r. destruct w; reflexivity.
Qed.

Lemma subscribeToUserPresence_shape uid cb w :
  exists m l,
    fst (subscribeToUserPresence uid cb w)
    = mkWorld (set_presenceListeners m (svc (initialize_logged w)))
              (timers (initialize_logged w)) (suspended (initialize_logged w))
              (fresh (initialize_logged w)) (trace (initialize_logged w) ++ l) /\
    (l = [] \/ exists r, l = [OnValue r]).
Proof.
  unfold subscribeToUserPresence. generalize (initialize_logged w). intros w1.
  destruct (negb (truthy _)); cbn [fst].
  { exists (presenceListeners (svc w1)), []. split; [apply world_as_update | left; reflexivity]. }
  destruct (negb (map_has uid (presenceListeners (svc w1)))).
  - destruct (map_get uid (map_set uid [] (presenceListeners (svc w1)))); cbn [fst].
    + eexists _, _. split; [reflexivity | right; eexists; reflexivity].
    + eexists _, []. split; [cbn; rewrite app_nil_r; reflexivity | left; reflexivity].
  - destruct (map_get uid (presenceListeners (svc w1))); cbn [fst].
    + eexists _, _. split; [reflexivity | right; eexists; reflexivity].
    + eexists _, []. split; [cbn; rewrite app_nil_r; reflexivity | left; reflexivity].
Qed.

Lemma runUnsubscribe_shape u w :
  exists m l,
    runUnsubscribe u w
    = mkWorld (set_presenceListeners m (svc w)) (timers w) (suspended w) (fresh w)
              (trace w ++ l) /\
    (l = [] \/ exists r, l = [OffValue r]).
Proof.
  destruct u as [|r uid cb].
  { exists (presenceListeners (svc w)), []. split; [apply world_as_update | left; reflexivity]. }
  unfold runUnsubscribe. cbn [svc emit emits presenceListeners].
  destruct (map_get uid (presenceListeners (svc w))).
  - eexists _, _. split; [reflexivity | right; eexists; reflexivity].
  - exists (presenceListeners (svc w)), [OffValue r].
    split; [|right; eexists; reflexivity].
    rewrite set_presenceListeners_id. reflexivity.
Qed.

(** ** The binding and the identity *)

Arguments cleanup : simpl never.

Lemma keeps_identity_refl w : keeps_identity w w.
Proof. split; [reflexivity | left; reflexivity]. Qed.

Lemma keeps_identity_trans w1 w2 w3 :
  keeps_identity w1 w2 -> keeps_identity w2 w3 -> keeps_identity w1 w3.
Proof.
  intros [Hu1 Hr1] [Hu2 Hr2]. split; [congruence|].
  destruct Hr2 as [Hr2|Hr2]; [|right; exact Hr2].
  destruct Hr1 as [Hr1|Hr1]; [left | right]; congruence.
Qed.

Lemma keeps_identity_inv w w' :
  keeps_identity w w' -> binding_has_identity w -> binding_has_identity w'.
Proof.
  intros [Hu Hr] Hinv Hr'. rewrite Hu. apply Hinv.
  destruct Hr as [Hr|Hr]; congruence.
Qed.

Lemma scheduleRetry_keeps w : keeps_identity w (scheduleRetry w).
Proof.
  unfold scheduleRetry. destruct (_ || _); [apply keeps_identity_refl|].
  split; [reflexivity | left; reflexivity].
Qed.

Lemma handleSetupError_keeps w : keeps_identity w (handleSetupError w).
Proof.
  unfold handleSetupError.
  set (w1 := upd (set_retryCount (retryCount (connectionStatus (svc w)) + 1)) w).
  destruct (_ <? _).
  - apply (keeps_identity_trans w w1); [|apply scheduleRetry_keeps].
    split; [reflexivity | left; reflexivity].
  - split; [reflexivity | left; reflexivity].
Qed.

Lemma handleConnectionError_keeps w : keeps_identity w (handleConnectionError w).
Proof.
  unfold handleConnectionError.
  set (w1 := upd (set_retryCount (retryCount (connectionStatus (svc w)) + 1)) w).
  apply (keeps_identity_trans w w1); [|apply scheduleRetry_keeps].
  split; [reflexivity | left; reflexivity].
Qed.

Lemma setupAwayTimer_keeps w : keeps_identity w (setupAwayTimer w).
Proof.
  unfold setupAwayTimer. destruct (negb _); [apply keeps_identity_refl|].
  split; [reflexivity | left; reflexivity].
Qed.

Lemma setupPresence_resume_keeps o w : keeps_identity w (setupPresence_resume o w).
Proof.
  destruct o; cbn [setupPresence_resume].
  - apply (keeps_identity_trans w (setupAwayTimer w)); [apply setupAwayTimer_keeps|].
    split; [reflexivity | left; reflexivity].
  - unfold setupPresence_catch.
    set (w1 := upd (set_userRef None) w).
    apply (keeps_identity_trans w w1); [split; [reflexivity | right; reflexivity]|].
    apply (keeps_identity_trans w1 (handleSetupError w1));
      [apply handleSetupError_keeps|].
    split; [reflexivity | left; reflexivity].
Qed.

Lemma settle_keeps k o w : keeps_identity w (settle k o w).
Proof.
  destruct k; cbn [settle].
  - destruct o; [apply keeps_identity_refl|]. split; [reflexivity | left; reflexivity].
  - split; [reflexivity | left; reflexivity].
  - apply setupPresence_resume_keeps.
Qed.

Lemma setPresenceState_keeps s cd k w : keeps_identity w (setPresenceState s cd k w).
Proof.
  unfold setPresenceState.
  case_eq (userRef (svc w)); [intros r Hr | intros _; apply settle_keeps].
  case_eq (currentUser (svc w)); [intros u Hu | intros _; apply settle_keeps].
  destruct (negb _); [apply settle_keeps|].
  split; [reflexivity | left; reflexivity].
Qed.

Lemma resume_keeps p r w : keeps_identity w (resume p r w).
Proof.
  destruct p as [s cd k|k], r as [|cause]; cbn [resume]; try apply settle_keeps.
  destruct (PState_eqb s online); [|apply settle_keeps].
  case_eq (userRef (svc w)); [intros ref Hr | intros _; apply settle_keeps].
  case_eq (currentUser (svc w)); [intros u Hu | intros _; apply settle_keeps].
  split; [reflexivity | left; reflexivity].
Qed.

Lemma cleanup_unbinds w :
  currentUser (svc (cleanup w)) = currentUser (svc w) /\ userRef (svc (cleanup w)) = None.
Proof.
  unfold cleanup.
  destruct (connectedListener (svc w)) eqn:E1; cbn;
    destruct (userRef (svc w)) eqn:E2; cbn;
    destruct (connectedRef (svc w)) eqn:E3; cbn;
    destruct (retryTimeout (svc w)) eqn:E4; cbn;
    destruct (awayTimeout (svc w)) eqn:E5; cbn;
    split; first [reflexivity | assumption].
Qed.

Lemma setupPresence_identity id w :
  currentUser (svc (setupPresence id w)) = currentUser (svc w).
Proof.
  unfold setupPresence.
  destruct (setupInProgress (svc w)); [reflexivity|].
  set (w1 := upd (set_setupInProgress true) w).
  destruct (negb _).
  - unfold setupPresence_catch.
    destruct (handleSetupError_keeps (upd (set_userRef None) w1)) as [Hu _].
    cbn [setupPresence_finally svc upd currentUser set_setupInProgress].
    exact Hu.
  - cbv zeta.
    destruct (cleanup_unbinds w1) as [Hc _].
    change (currentUser (svc w1)) with (currentUser (svc w)) in Hc.
    set (w2 := cleanup w1) in *. clearbody w2.
    cbn [negb userRef svc upd emit emits set_connectedListener set_connectedRef
         set_userRef].
    match goal with
    | |- currentUser (svc (setPresenceState ?s ?cd ?k ?w5)) = _ =>
        destruct (setPresenceState_keeps s cd k w5) as [Hu _]; rewrite Hu
    end.
    exact Hc.
Qed.

Lemma initialize_keeps_identity w : keeps_identity w (fst (initialize w)).
Proof.
  unfold initialize. destruct (initPromise (svc w)); [apply keeps_identity_refl|].
  unfold _initialize. destruct (initialized (svc w));
    [split; [reflexivity | left; reflexivity]|].
  destruct (FirebaseValidator.validateConfig _);
    [|split; [reflexivity | left; reflexivity]].
  destruct (_ || _); split; first [reflexivity | left; reflexivity].
Qed.

Lemma initialize_logged_keeps w : keeps_identity w (initialize_logged w).
Proof.
  unfold initialize_logged. pose proof (initialize_keeps_identity w) as Hi.
  destruct (initialize w) as [w1 pr]. cbn [fst] in Hi.
  destruct pr; [exact Hi|].
  apply (keeps_identity_trans w w1 _ Hi). split; [reflexivity | left; reflexivity].
Qed.

Lemma subscribeToUserPresence_keeps uid cb w :
  keeps_identity w (fst (subscribeToUserPresence uid cb w)).
Proof.
  destruct (subscribeToUserPresence_shape uid cb w) as (m & l & -> & _).
  pose proof (initialize_logged_keeps w) as Hi.
  revert Hi. generalize (initialize_logged w). intros w1 Hi.
  apply (keeps_identity_trans w w1 _ Hi). split; [reflexivity | left; reflexivity].
Qed.

Lemma runUnsubscribe_keeps u w : keeps_identity w (runUnsubscribe u w).
Proof.
  destruct (runUnsubscribe_shape u w) as (m & l & -> & _).
  split; [reflexivity | left; reflexivity].
Qed.

Lemma destroy_keeps w : keeps_identity w (fst (destroy w)).
Proof.
  unfold destroy.
  set (w1 := if authUnsubscribe (svc w) then _ else w).
  assert (H1 : keeps_identity w w1).
  { subst w1. destruct (authUnsubscribe (svc w)); [|apply keeps_identity_refl].
    split; [reflexivity | left; reflexivity]. }
  clearbody w1. apply (keeps_identity_trans w w1 _ H1).
  destruct (appStateUnsubscribe (svc w1)); [apply keeps_identity_refl|].
  destruct (cleanup_unbinds w1) as [Hu Hr].
  revert Hu Hr. generalize (cleanup w1). intros w3 Hu Hr. cbn [fst].
  split; [exact Hu | right; exact Hr].
Qed.

Lemma step_binding_has_identity w e w' :
  binding_has_identity w -> step w e = Some w' -> binding_has_identity w'.
Proof.
  intros Hinv. destruct e; cbn [step]; intros H.
  - destruct (authUnsubscribe (svc w)); [|discriminate]. injection H as <-.
    unfold handleAuthStateChange. destruct user as [u|].
    + destruct (uid_differs _ _); [|exact Hinv].
      intros _. rewrite setupPresence_identity. discriminate.
    + change (currentUser (svc (upd (set_currentSetupUid None) w)))
        with (currentUser (svc w)).
      destruct (currentUser (svc w)) eqn:Hu.
      * destruct (cleanup_unbinds (upd (set_currentSetupUid None) w)) as [_ Hr].
        set (w2 := cleanup _) in *. clearbody w2.
        intros Hr'. cbn in Hr'. congruence.
      * intros Hr'. apply Hinv in Hr'. congruence.
  - destruct (appStateUnsubscribe (svc w)); [|discriminate]. injection H as <-.
    unfold appStateListener. destruct (_ && _); [|exact Hinv].
    unfold handleAppStateChange.
    set (w1 := match awayTimeout (svc w) with Some h => _ | None => w end).
    assert (H1 : keeps_identity w w1).
    { subst w1. destruct (awayTimeout (svc w)); [|apply keeps_identity_refl].
      split; [reflexivity | left; reflexivity]. }
    clearbody w1. apply (keeps_identity_inv w1); [|exact (keeps_identity_inv _ _ H1 Hinv)].
    destruct s.
    + eapply keeps_identity_trans;
        [apply setPresenceState_keeps | apply setupAwayTimer_keeps].
    + apply setPresenceState_keeps.
    + apply setPresenceState_keeps.
    + apply keeps_identity_refl.
    + apply keeps_identity_refl.
  - destruct (isSome _); [|discriminate]. injection H as <-.
    apply (keeps_identity_inv w); [|exact Hinv].
    unfold handleConnectionChange. destruct connected; cbn [negb].
    + set (w1a := upd (set_retryCount 0) _).
      assert (H1 : keeps_identity w w1a) by (split; [reflexivity | left; reflexivity]).
      destruct (_ && _).
      * apply (keeps_identity_trans w w1a _ H1).
        eapply keeps_identity_trans; [apply setPresenceState_keeps|].
        split; [reflexivity | left; reflexivity].
      * apply (keeps_identity_trans w w1a _ H1).
        split; [reflexivity | left; reflexivity].
    + set (w3 := notifyConnectionListeners _).
      apply (keeps_identity_trans w w3); [|apply scheduleRetry_keeps].
      split; [reflexivity | left; reflexivity].
  - destruct (isSome _); [|discriminate]. injection H as <-.
    exact (keeps_identity_inv _ _ (handleConnectionError_keeps w) Hinv).
  - unfold fire in H. destruct (lookup h (timers w)) as [k|]; [|discriminate].
    injection H as <-.
    set (w0 := mkWorld (svc w) (drop h (timers w)) (suspended w) (fresh w) (trace w)).
    destruct k.
    + unfold retryTimerFired. set (w1 := upd (set_retryTimeout None) w0).
      change (currentUser (svc w1)) with (currentUser (svc w)).
      destruct (currentUser (svc w)) eqn:Hu.
      * destruct (negb _).
        -- intros _. rewrite setupPresence_identity.
           change (currentUser (svc w1)) with (currentUser (svc w)).
           rewrite Hu. discriminate.
        -- exact Hinv.
      * exact Hinv.
    + unfold awayTimerFired. destruct (PState_eqb _ _); [|exact Hinv].
      apply (keeps_identity_inv w0); [apply setPresenceState_keeps | exact Hinv].
  - unfold reply in H. destruct (lookup id (suspended w)) as [p|]; [|discriminate].
    injection H as <-.
    set (w0 := mkWorld (svc w) (timers w) (drop id (suspended w)) (fresh w) (trace w)).
    apply (keeps_identity_inv w0); [apply resume_keeps | exact Hinv].
  - injection H as <-.
    exact (keeps_identity_inv _ _ (setPresenceState_keeps _ _ _ w) Hinv).
  - injection H as <-. unfold subscribeToConnectionStatus.
    pose proof (initialize_logged_keeps w) as Hi.
    revert Hi. generalize (initialize_logged w). intros w1 Hi.
    apply (keeps_identity_inv w1); [|exact (keeps_identity_inv _ _ Hi Hinv)].
    split; [reflexivity | left; reflexivity].
  - injection H as <-. exact Hinv.
  - injection H as <-.
    exact (keeps_identity_inv _ _ (subscribeToUserPresence_keeps _ _ w) Hinv).
  - injection H as <-. exact (keeps_identity_inv _ _ (runUnsubscribe_keeps u w) Hinv).
  - injection H as <-. exact Hinv.
  - injection H as <-. exact (keeps_identity_inv _ _ (destroy_keeps w) Hinv).
Qed.

(** In every reachable world a binding reference comes with a current
    identity. *)
Lemma reachable_binding_has_identity w : reachable w -> binding_has_identity w.
Proof.
  induction 1 as [p w Hc | w e w' Hw IH Hstep].
  - unfold constructor in Hc. destruct (initialize _) as [w1 pr] eqn:Hi.
    injection Hc as <-.
    assert (Hr : userRef (svc w1) = None).
    { unfold initialize in Hi. cbn in Hi.
      destruct (FirebaseValidator.validateConfig _); cbn in Hi.
      - destruct (_ || _); cbn in Hi; injection Hi as <- _; reflexivity.
      - injection Hi as <- _; reflexivity. }
    intros Hr'. exfalso. apply Hr'. destruct pr; exact Hr.
  - exact (step_binding_has_identity w e w' IH Hstep).
Qed.

(** ** C1: construction with a deficient configuration *)

(** C1 (the code departs from it): with a required handle missing, [new
    PresenceService(config)] does not throw.  The constructor completes
    normally; the [ConfigurationError] only rejects the promise of
    [initialize()], which the constructor drops, and the service stays
    uninitialised and unsubscribed. *)
Theorem constructor_returns_on_missing_field (p : PresenceConfig) :
  missingRequired p ->
  exists w e,
    constructor p = Normal w /\
    configurationError e /\
    initPromise (svc w) = Some (Rejected e) /\
    trace w = [UnhandledRejection e] /\
    initialized (svc w) = false /\
    authUnsubscribe (svc w) = false.
Proof.
  intros H. unfold missingRequired in H.
  unfold constructor, initialize, _initialize, FirebaseValidator.validateConfig,
    configurationError.
  cbn.
  destruct (truthy (pick (p_firebaseApp p) JUndefined)) eqn:Ha; cbn.
  2:{ eexists _, _. repeat split; try reflexivity. simpl; auto. }
  destruct (truthy (pick (p_database p) JUndefined)) eqn:Hd; cbn.
  2:{ eexists _, _. repeat split; try reflexivity. simpl; auto. }
  destruct (truthy (pick (p_auth p) JUndefined)) eqn:Hu; cbn.
  2:{ eexists _, _. repeat split; try reflexivity. simpl; auto. }
  destruct H as [H|[H|H]]; discriminate.
Qed.

Lemma constructor_returns_on_empty_config :
  missingRequired emptyCfg /\
  exists w e,
    constructor emptyCfg = Normal w /\
    configurationError e /\
    initPromise (svc w) = Some (Rejected e) /\
    trace w = [UnhandledRejection e] /\
    initialized (svc w) = false /\
    authUnsubscribe (svc w) = false.
Proof.
  split.
  - left. reflexivity.
  - apply (constructor_returns_on_missing_field emptyCfg). left. reflexivity.
Defined.

(** The constructor never throws, whatever the configuration. *)
Lemma constructor_never_throws (p : PresenceConfig) :
  exists w, constructor p = Normal w.
Proof.
  unfold constructor. destruct (initialize _) as [w1 pr]. eexists. reflexivity.
Qed.

(** ** C3: the retry delay *)

Lemma pow2_above_cap n : 15 <= n -> 30000 < 2 ^ n.
Proof.
  intros H. assert (H2 : 2 ^ 15 <= 2 ^ n) by (apply Z.pow_le_mono_r; lia).
  change (2 ^ 15) with 32768 in H2. lia.
Qed.

Lemma createRetryDelay_positive n b :
  0 <= n -> 1 <= b ->
  FirebaseValidator.createRetryDelay n b = Finite (Z.min (b * 2 ^ n) 30000).
Proof.
  intros Hn Hb.
  unfold FirebaseValidator.createRetryDelay, FirebaseValidator.pow2,
    FirebaseValidator.times.
  pose proof (pow2_above_cap 1024 ltac:(lia)) as Hcap.
  destruct (Z.leb_spec n 1023) as [Hle|Hgt].
  - cbv zeta. assert (Hp : 0 < 2 ^ n) by (apply Z.pow_pos_nonneg; lia).
    assert (Hm : 0 < b * 2 ^ n) by nia.
    destruct (Z.leb_spec (2 ^ 1024) (b * 2 ^ n)) as [Hov|Hin].
    + cbn [FirebaseValidator.min30000]. f_equal. lia.
    + destruct (Z.leb_spec (b * 2 ^ n) (- 2 ^ 1024)) as [Hun|_]; [lia | reflexivity].
  - destruct (Z.eqb_spec b 0) as [->|_]; [lia|].
    destruct (Z.ltb_spec 0 b) as [_|Hneg]; [|lia].
    cbn [FirebaseValidator.min30000]. f_equal.
    pose proof (pow2_above_cap n ltac:(lia)) as Hn'. nia.
Qed.

Lemma createRetryDelay_zero n :
  0 <= n ->
  FirebaseValidator.createRetryDelay n 0
  = if n <=? 1023 then Finite 0 else NotANumber.
Proof.
  intros Hn.
  unfold FirebaseValidator.createRetryDelay, FirebaseValidator.pow2,
    FirebaseValidator.times.
  pose proof (pow2_above_cap 1024 ltac:(lia)) as Hcap.
  destruct (Z.leb_spec n 1023) as [Hle|Hgt]; [|reflexivity].
  cbv zeta. rewrite Z.mul_0_l.
  destruct (Z.leb_spec (2 ^ 1024) 0) as [Hov|_]; [lia|].
  destruct (Z.leb_spec 0 (- 2 ^ 1024)) as [Hun|_]; [lia | reflexivity].
Qed.

Lemma createRetryDelay_negative n b :
  0 <= n -> b < 0 ->
  FirebaseValidator.createRetryDelay n b
  = if b * 2 ^ n <=? - 2 ^ 1024 then MinusInfinity else Finite (b * 2 ^ n).
Proof.
  intros Hn Hb.
  unfold FirebaseValidator.createRetryDelay, FirebaseValidator.pow2,
    FirebaseValidator.times.
  pose proof (pow2_above_cap 1024 ltac:(lia)) as Hcap.
  assert (Hp : 0 < 2 ^ n) by (apply Z.pow_pos_nonneg; lia).
  assert (Hm : b * 2 ^ n < 0) by nia.
  destruct (Z.leb_spec n 1023) as [Hle|Hgt].
  - cbv zeta.
    destruct (Z.leb_spec (2 ^ 1024) (b * 2 ^ n)) as [Hov|_]; [lia|].
    destruct (Z.leb_spec (b * 2 ^ n) (- 2 ^ 1024)) as [Hun|Hin]; [reflexivity|].
    cbn [FirebaseValidator.min30000]. f_equal. lia.
  - destruct (Z.eqb_spec b 0) as [->|_]; [lia|].
    destruct (Z.ltb_spec 0 b) as [Hpos|_]; [lia|].
    assert (H2 : 2 ^ 1024 <= 2 ^ n) by (apply Z.pow_le_mono_r; lia).
    destruct (Z.leb_spec (b * 2 ^ n) (- 2 ^ 1024)) as [_|Hin]; [reflexivity | nia].
Qed.

(** C3, as the code has it.  For an attempt number [n >= 0] and an integer
    base delay [b] with [1 <= b < 2^53] the retry delay is
    [min (b * 2^n) 30000], also where [b * 2^n] leaves the range of the
    doubles, and [scheduleRetry] arms its timer with this delay, taken at
    the current [retryCount] and the configured [retryInterval]; with
    [b = 1000] attempts 0..4 give 1000, 2000, 4000, 8000, 16000 and attempt
    5, whose raw value is 32000, gives 30000.  For the base delay 0 the
    delay is 0 up to attempt 1023 and NaN from attempt 1024 on; for a
    negative base delay it is [b * 2^n], and [-Infinity] once that is at or
    below [-2^1024]: the ceiling of 30000 bounds the delay from above
    only. *)
Theorem createRetryDelay_formula (n : Z) :
  0 <= n ->
  (forall b, 1 <= b < 2 ^ 53 ->
     FirebaseValidator.createRetryDelay n b = Finite (Z.min (b * 2 ^ n) 30000) /\
     (forall w,
         retryTimeout (svc w) = None ->
         retryCount (connectionStatus (svc w)) = n ->
         retryInterval (config (svc w)) = b ->
         n < maxRetries (config (svc w)) ->
         trace (scheduleRetry w) =
         trace w ++ [SetTimeout (fresh w) RetryTimer
                                (Finite (Z.min (b * 2 ^ n) 30000))])) /\
  map (fun k => FirebaseValidator.createRetryDelay k 1000) [0; 1; 2; 3; 4]
    = map Finite [1000; 2000; 4000; 8000; 16000] /\
  1000 * 2 ^ 5 = 32000 /\
  FirebaseValidator.createRetryDelay 5 1000 = Finite 30000 /\
  FirebaseValidator.createRetryDelay n 0
    = (if n <=? 1023 then Finite 0 else NotANumber) /\
  (forall c, - 2 ^ 53 < c < 0 ->
             FirebaseValidator.createRetryDelay n c
             = if c * 2 ^ n <=? - 2 ^ 1024 then MinusInfinity
               else Finite (c * 2 ^ n)).
Proof.
  intros Hn.
  split; [|split; [vm_compute; reflexivity|]].
  - intros b [Hb _].
    pose proof (createRetryDelay_positive n b Hn Hb) as Hd.
    split; [exact Hd|].
    intros w Ht Hc Hi Hlt. unfold scheduleRetry.
    rewrite Ht, Hc, Hi. cbn [isSome orb].
    destruct (n >=? maxRetries (config (svc w))) eqn:E.
    + apply Z.geb_le in E. lia.
    + cbn [setTimeout upd trace]. rewrite Hd. reflexivity.
  - split; [reflexivity|].
    split; [vm_compute; reflexivity|].
    split; [exact (createRetryDelay_zero n Hn)|].
    intros c [_ Hc]. exact (createRetryDelay_negative n c Hn Hc).
Qed.

Lemma createRetryDelay_formula_at_3 :
  0 <= 3 /\ 1 <= 1000 < 2 ^ 53 /\
  FirebaseValidator.createRetryDelay 3 1000 = Finite (Z.min (1000 * 2 ^ 3) 30000) /\
  FirebaseValidator.createRetryDelay 3 0 = Finite 0.
Proof.
  assert (H0 : 0 <= 3) by lia.
  assert (H1 : 1 <= 1000 < 2 ^ 53) by (split; [lia | reflexivity]).
  split; [exact H0|]. split; [exact H1|].
  destruct (createRetryDelay_formula 3 H0) as (Hb & _ & _ & _ & Hz & _).
  split; [exact (proj1 (Hb 1000 H1)) | exact Hz].
Defined.

(** C3, as stated, fails for the base delay 0: at attempt 1024 the power
    is [Infinity], the product is NaN and so is the delay, where the
    formula gives 0. *)
Lemma createRetryDelay_not_a_number :
  0 <= 1024 /\
  FirebaseValidator.createRetryDelay 1024 0 = NotANumber /\
  FirebaseValidator.createRetryDelay 1024 0 <> Finite (Z.min (0 * 2 ^ 1024) 30000).
Proof.
  split; [lia|]. split; [reflexivity|]. discriminate.
Qed.

(** ** C4, C5, C6, C9: the presence writer *)

(** Whatever happened to the service while the write was in flight, the
    failure of the write only rejects the caller's promise. *)
Lemma write_failure_keeps_service w id s cd c cause :
  lookup id (suspended w) = Some (AwaitSet s cd (KCaller c)) ->
  exists w',
    reply id (Failed cause) w = Some w' /\
    svc w' = svc w /\
    trace w' = trace w ++ [Settled c (Rejected (setStateFailed cause))].
Proof.
  intros H. unfold reply. rewrite H. eexists. split; [reflexivity|].
  split; reflexivity.
Qed.

(** C4: on a bound session and for an allowed state [s], [setState(s)]
    records [s] as the current state and issues the write; if the store
    fails that write with [cause], the call rejects with the
    [SET_STATE_FAILED] error wrapping [cause], and the current state is
    still [s]: the optimistic update is not rolled back. *)
Theorem setState_write_failure_not_rolled_back w r u s cd c cause :
  bound w r u -> allowed w s ->
  exists w',
    run w [EvSetPresenceState c s cd; EvReply (fresh w) (Failed cause)] = Some w' /\
    trace w' = trace w ++ [StoreSet (fresh w) r (mkPresenceData s (uid u) cd);
                           Settled c (Rejected (PresenceError
                             "Failed to set presence state" "SET_STATE_FAILED"
                             (Some cause)))] /\
    currentPresenceState (svc w') = s /\
    svc w' = set_currentPresenceState s (svc w).
Proof.
  intros Hb Ha. simpl run.
  rewrite (setPresenceState_bound w r u s cd (KCaller c) Hb Ha).
  rewrite reply_suspend by reflexivity.
  eexists. split; [reflexivity|]. simpl.
  rewrite <- app_assoc. repeat split.
Qed.

Lemma boundWorld_bound : bound boundWorld "presence/A"%string alice.
Proof. split; reflexivity. Qed.

(** The same holds when the write is accepted and it is the registration of
    the deferred write, made for [online], that the store fails. *)
Lemma setState_registration_failure_not_rolled_back w r u cd c cause :
  bound w r u -> allowed w online ->
  exists w',
    run w [EvSetPresenceState c online cd; EvReply (fresh w) Ok;
           EvReply (S (fresh w)) (Failed cause)] = Some w' /\
    trace w' = trace w ++ [StoreSet (fresh w) r (mkPresenceData online (uid u) cd);
                           OnDisconnectSet (S (fresh w)) r
                                           (mkPresenceData offline (uid u) cd);
                           Settled c (Rejected (setStateFailed cause))] /\
    currentPresenceState (svc w') = online.
Proof.
  intros Hb Ha. cbn [run step].
  rewrite (setPresenceState_bound w r u online cd (KCaller c) Hb Ha).
  destruct Hb as [Hr Hu].
  rewrite reply_suspend by reflexivity.
  cbn [resume PState_eqb svc upd].
  replace (userRef (set_currentPresenceState online (svc w))) with (userRef (svc w))
    by reflexivity.
  replace (currentUser (set_currentPresenceState online (svc w)))
    with (currentUser (svc w)) by reflexivity.
  rewrite Hr, Hu. rewrite reply_suspend by reflexivity.
  eexists. split; [reflexivity|].
  cbn [resume settle emit emits trace upd fresh svc].
  repeat rewrite <- app_assoc. split; reflexivity.
Qed.

Lemma setState_write_failure_not_rolled_back_busy :
  bound boundWorld "presence/A"%string alice /\ allowed boundWorld busy /\
  exists w',
    run boundWorld [EvSetPresenceState 7 busy None;
                    EvReply (fresh boundWorld) (Failed "PERMISSION_DENIED"%string)]
      = Some w' /\
    trace w' = trace boundWorld ++
               [StoreSet (fresh boundWorld) "presence/A"%string
                         (mkPresenceData busy (uid alice) None);
                Settled 7 (Rejected (PresenceError
                  "Failed to set presence state" "SET_STATE_FAILED"
                  (Some "PERMISSION_DENIED"%string)))] /\
    currentPresenceState (svc w') = busy /\
    svc w' = set_currentPresenceState busy (svc boundWorld).
Proof.
  split; [exact boundWorld_bound|]. split; [reflexivity|].
  apply (setState_write_failure_not_rolled_back boundWorld "presence/A"%string alice
           busy None 7%nat "PERMISSION_DENIED"%string boundWorld_bound).
  reflexivity.
Defined.

(** C5: on a bound session, a [setState(s)] that the store accepts
    registers one on-disconnect write of the [offline] record when [s] is
    [online], and registers nothing when [s] is any other allowed state. *)
Theorem onDisconnect_registered_only_for_online w r u s cd c :
  bound w r u -> allowed w s ->
  exists w' mid,
    run w (EvSetPresenceState c s cd :: acks s (fresh w)) = Some w' /\
    trace w' = trace w ++ mid ++ [Settled c Resolved] /\
    writes (trace w') = writes (trace w) ++ [(r, mkPresenceData s (uid u) cd)] /\
    registrations (trace w') =
    registrations (trace w) ++
    (if PState_eqb s online then [(r, mkPresenceData offline (uid u) cd)] else []).
Proof.
  intros Hb Ha. cbn [run step].
  rewrite (setPresenceState_bound w r u s cd (KCaller c) Hb Ha).
  destruct Hb as [Hr Hu].
  unfold acks. destruct (PState_eqb s online) eqn:E.
  - cbn [run step]. rewrite reply_suspend by reflexivity.
    cbn [resume]. rewrite E. cbn [svc upd].
    replace (userRef (set_currentPresenceState s (svc w))) with (userRef (svc w))
      by reflexivity.
    replace (currentUser (set_currentPresenceState s (svc w)))
      with (currentUser (svc w)) by reflexivity.
    rewrite Hr, Hu. rewrite reply_suspend by reflexivity.
    eexists. exists [StoreSet (fresh w) r (mkPresenceData s (uid u) cd);
                     OnDisconnectSet (S (fresh w)) r (mkPresenceData offline (uid u) cd)].
    split; [reflexivity|]. cbn [resume settle emit emits trace upd fresh].
    repeat rewrite <- app_assoc. split; [reflexivity|].
    rewrite !writes_app, !registrations_app. simpl.
    rewrite ?app_nil_r. split; reflexivity.
  - cbn [run step]. rewrite reply_suspend by reflexivity.
    cbn [resume]. rewrite E.
    eexists. exists [StoreSet (fresh w) r (mkPresenceData s (uid u) cd)].
    split; [reflexivity|]. cbn [resume settle emit emits trace upd fresh].
    repeat rewrite <- app_assoc. split; [reflexivity|].
    rewrite !writes_app, !registrations_app. simpl.
    rewrite !app_nil_r. split; reflexivity.
Qed.

Lemma onDisconnect_registered_only_for_online_busy :
  bound boundWorld "presence/A"%string alice /\ allowed boundWorld busy /\
  exists w' mid,
    run boundWorld (EvSetPresenceState 7 busy None :: acks busy (fresh boundWorld))
      = Some w' /\
    trace w' = trace boundWorld ++ mid ++ [Settled 7 Resolved] /\
    writes (trace w') =
    writes (trace boundWorld) ++
    [("presence/A"%string, mkPresenceData busy (uid alice) None)] /\
    registrations (trace w') = registrations (trace boundWorld) ++ [].
Proof.
  split; [exact boundWorld_bound|]. split; [reflexivity|].
  apply (onDisconnect_registered_only_for_online boundWorld "presence/A"%string alice
           busy None 7%nat boundWorld_bound).
  reflexivity.
Defined.

(** C6: on a bound session, [setState(s)] with [s] in the configured set
    is accepted: it never fails validation, and it resolves once the store
    has accepted what it wrote, with [s] as the current state.  With [s]
    outside the set it rejects with the [INVALID_STATE] error, writes
    nothing and leaves the service, and so the current state, as it was. *)
Theorem setState_validates_against_allowed_states w r u s cd c :
  bound w r u ->
  (allowed w s ->
   exists w' mid,
     run w (EvSetPresenceState c s cd :: acks s (fresh w)) = Some w' /\
     trace w' = trace w ++ mid ++ [Settled c Resolved] /\
     (forall e, ~ In (Settled c (Rejected e)) mid) /\
     currentPresenceState (svc w') = s) /\
  (~ allowed w s ->
   exists w',
     step w (EvSetPresenceState c s cd) = Some w' /\
     trace w' = trace w ++ [Settled c (Rejected (invalidState s))] /\
     code_of (invalidState s) = "INVALID_STATE"%string /\
     svc w' = svc w /\
     suspended w' = suspended w /\
     currentPresenceState (svc w') = currentPresenceState (svc w)).
Proof.
  intros Hb. split; intros Ha.
  - cbn [run step].
    rewrite (setPresenceState_bound w r u s cd (KCaller c) Hb Ha).
    destruct Hb as [Hr Hu].
    unfold acks. destruct (PState_eqb s online) eqn:E.
    + cbn [run step]. rewrite reply_suspend by reflexivity.
      cbn [resume]. rewrite E. cbn [svc upd].
      replace (userRef (set_currentPresenceState s (svc w))) with (userRef (svc w))
        by reflexivity.
      replace (currentUser (set_currentPresenceState s (svc w)))
        with (currentUser (svc w)) by reflexivity.
      rewrite Hr, Hu. rewrite reply_suspend by reflexivity.
      eexists. exists [StoreSet (fresh w) r (mkPresenceData s (uid u) cd);
                       OnDisconnectSet (S (fresh w)) r
                                       (mkPresenceData offline (uid u) cd)].
      split; [reflexivity|]. cbn [resume settle emit emits trace upd fresh svc].
      repeat rewrite <- app_assoc. split; [reflexivity|]. split; [|reflexivity].
      intros e [H|[H|[]]]; discriminate.
    + cbn [run step]. rewrite reply_suspend by reflexivity.
      cbn [resume]. rewrite E.
      eexists. exists [StoreSet (fresh w) r (mkPresenceData s (uid u) cd)].
      split; [reflexivity|]. cbn [resume settle emit emits trace upd fresh svc].
      repeat rewrite <- app_assoc. split; [reflexivity|]. split; [|reflexivity].
      intros e [H|[]]; discriminate.
  - cbn [step]. rewrite (setPresenceState_invalid w r u s cd (KCaller c) Hb Ha).
    eexists. split; [reflexivity|]. repeat split.
Qed.

Lemma twoStateWorld_bound : bound twoStateWorld "presence/A"%string alice.
Proof. split; reflexivity. Qed.

Lemma setState_validates_against_allowed_states_witness :
  bound twoStateWorld "presence/A"%string alice /\
  (allowed twoStateWorld offline /\
   exists w' mid,
     run twoStateWorld (EvSetPresenceState 7 offline None
                          :: acks offline (fresh twoStateWorld)) = Some w' /\
     trace w' = trace twoStateWorld ++ mid ++ [Settled 7 Resolved] /\
     (forall e, ~ In (Settled 7 (Rejected e)) mid) /\
     currentPresenceState (svc w') = offline) /\
  (~ allowed twoStateWorld busy /\
   exists w',
     step twoStateWorld (EvSetPresenceState 7 busy None) = Some w' /\
     trace w' = trace twoStateWorld ++ [Settled 7 (Rejected (invalidState busy))] /\
     code_of (invalidState busy) = "INVALID_STATE"%string /\
     svc w' = svc twoStateWorld /\
     suspended w' = suspended twoStateWorld /\
     currentPresenceState (svc w') = currentPresenceState (svc twoStateWorld)).
Proof.
  split; [exact twoStateWorld_bound|].
  split; (split;
    [| apply (setState_validates_against_allowed_states twoStateWorld
                "presence/A"%string alice _ None 7%nat twoStateWorld_bound)]).
  - reflexivity.
  - reflexivity.
  - intro H; discriminate H.
  - intro H; discriminate H.
Defined.

(** C9: the binding and identity checks come first.  With no binding or no
    current identity [setState(s)] resolves at once and does nothing, also
    for a state outside the allowed set; a call that is rejected at once
    was made with both a binding and an identity present, for a state
    outside the allowed set. *)
Theorem setState_without_binding_is_noop w s cd c :
  (userRef (svc w) = None \/ currentUser (svc w) = None ->
   exists w',
     step w (EvSetPresenceState c s cd) = Some w' /\
     trace w' = trace w ++ [Settled c Resolved] /\
     svc w' = svc w /\ suspended w' = suspended w /\ timers w' = timers w) /\
  (forall w' e,
     step w (EvSetPresenceState c s cd) = Some w' ->
     trace w' = trace w ++ [Settled c (Rejected e)] ->
     (exists r u, bound w r u) /\ ~ allowed w s /\ e = invalidState s).
Proof.
  split.
  - intros H. cbn [step]. rewrite (setPresenceState_unbound w s cd (KCaller c) H).
    eexists. repeat split.
  - intros w' e Hstep Htr. cbn [step] in Hstep. injection Hstep as <-.
    unfold setPresenceState in Htr.
    destruct (userRef (svc w)) as [r|] eqn:Hr.
    2:{ cbn in Htr. apply app_inv_head in Htr. discriminate. }
    destruct (currentUser (svc w)) as [u|] eqn:Hu.
    2:{ cbn in Htr. apply app_inv_head in Htr. discriminate. }
    destruct (includes (customStates (config (svc w))) (state_name s)) eqn:Hi.
    + cbn in Htr. apply app_inv_head in Htr. discriminate.
    + cbn in Htr. apply app_inv_head in Htr. injection Htr as <-.
      split; [exists r, u; split; assumption|].
      split; [unfold allowed; rewrite Hi; discriminate | reflexivity].
Qed.

Lemma setState_without_binding_is_noop_witness :
  (userRef (svc unboundWorld) = None \/ currentUser (svc unboundWorld) = None) /\
  exists w',
    step unboundWorld (EvSetPresenceState 7 busy None) = Some w' /\
    trace w' = trace unboundWorld ++ [Settled 7 Resolved] /\
    svc w' = svc unboundWorld /\ suspended w' = suspended unboundWorld /\
    timers w' = timers unboundWorld.
Proof.
  split; [left; reflexivity|].
  apply (proj1 (setState_without_binding_is_noop unboundWorld busy None 7%nat)).
  left; reflexivity.
Defined.

(** ** C10: teardown *)

Ltac split_options :=
  repeat match goal with
         | |- context [match ?x with Some _ => _ | None => _ end] =>
             destruct x eqn:?; cbn
         end.

Lemma cleanup_status w : connectionStatus (svc (cleanup w)) = resetStatus w.
Proof. unfold cleanup, resetStatus. split_options; reflexivity. Qed.

Lemma cleanup_listeners w : listeners (svc (cleanup w)) = listeners (svc w).
Proof. unfold cleanup. split_options; reflexivity. Qed.

Lemma cleanup_notifications w :
  notifications (trace (cleanup w)) = notifications (trace w) ++ resetHeard w.
Proof.
  unfold cleanup, resetHeard, resetStatus, notifyConnectionListeners.
  split_options;
    repeat rewrite notifications_app; rewrite notifications_notify; cbn;
    rewrite ?app_nil_r; reflexivity.
Qed.

(** The notifications are the last thing [cleanup] does. *)
Lemma cleanup_trace w :
  trace (cleanup w) =
  trace w ++ cleanupCalls w
          ++ map (fun cb => Notify cb (resetStatus w)) (listeners (svc w)).
Proof.
  unfold cleanup, cleanupCalls, resetStatus, notifyConnectionListeners.
  destruct (connectedListener (svc w)) eqn:E1; cbn;
    destruct (userRef (svc w)) eqn:E2; cbn;
    destruct (connectedRef (svc w)) eqn:E3; cbn;
    destruct (retryTimeout (svc w)) eqn:E4; cbn;
    destruct (awayTimeout (svc w)) eqn:E5; cbn;
    repeat rewrite <- app_assoc; reflexivity.
Qed.


Lemma scheduleRetry_notifications w :
  notifications (trace (scheduleRetry w)) = notifications (trace w).
Proof.
  unfold scheduleRetry.
  destruct (isSome (retryTimeout (svc w)) || _); [reflexivity|].
  cbn. rewrite notifications_app. cbn. apply app_nil_r.
Qed.

Lemma handleSetupError_notifications w :
  notifications (trace (handleSetupError w)) = notifications (trace w).
Proof.
  unfold handleSetupError.
  destruct (_ <? _); [rewrite scheduleRetry_notifications|]; reflexivity.
Qed.

Lemma setupAwayTimer_notifications w :
  notifications (trace (setupAwayTimer w)) = notifications (trace w).
Proof.
  unfold setupAwayTimer. destruct (negb _); [reflexivity|].
  cbn. rewrite notifications_app. cbn. apply app_nil_r.
Qed.

Lemma setupPresence_resume_notifications o w :
  notifications (trace (setupPresence_resume o w)) = notifications (trace w).
Proof.
  destruct o; cbn.
  - apply setupAwayTimer_notifications.
  - unfold setupPresence_catch. cbn. rewrite handleSetupError_notifications.
    reflexivity.
Qed.

Lemma setPresenceState_notifications s cd k w :
  notifications (trace (setPresenceState s cd k w)) = notifications (trace w).
Proof.
  assert (Hsettle : forall o, notifications (trace (settle k o w))
                              = notifications (trace w)).
  { intros o. destruct k; cbn.
    - destruct o; cbn; [reflexivity|].
      rewrite notifications_app. cbn. apply app_nil_r.
    - rewrite notifications_app. cbn. apply app_nil_r.
    - apply setupPresence_resume_notifications. }
  unfold setPresenceState.
  destruct (userRef (svc w)); [|apply Hsettle].
  destruct (currentUser (svc w)); [|apply Hsettle].
  destruct (negb _); [apply Hsettle|].
  cbn. rewrite notifications_app. cbn. apply app_nil_r.
Qed.


Lemma destroy_returns w :
  appStateUnsubscribe (svc w) = false ->
  snd (destroy w) = Normal tt /\
  notifications (trace (fst (destroy w))) = notifications (trace w) ++ resetHeard w /\
  connectionStatus (svc (fst (destroy w))) = resetStatus w /\
  listeners (svc (fst (destroy w))) = [].
Proof.
  intros Ha. unfold destroy.
  set (w1 := if authUnsubscribe (svc w) then _ else w).
  assert (H1 : notifications (trace w1) = notifications (trace w) /\
               resetHeard w1 = resetHeard w /\ resetStatus w1 = resetStatus w /\
               appStateUnsubscribe (svc w1) = false).
  { subst w1. destruct (authUnsubscribe (svc w)); cbn [trace upd emit emits].
    - rewrite notifications_app. cbn [notifications]. rewrite app_nil_r.
      repeat split. exact Ha.
    - repeat split. exact Ha. }
  clearbody w1. destruct H1 as (Hn1 & Hh1 & Hs1 & Ha1). rewrite Ha1.
  pose proof (cleanup_notifications w1) as Hc.
  pose proof (cleanup_status w1) as Hs.
  revert Hc Hs. generalize (cleanup w1). intros w3 Hc Hs.
  cbn [fst snd trace svc upd connectionStatus listeners set_initPromise set_initialized
       set_presenceListeners set_listeners].
  rewrite Hc, Hs, Hn1, Hh1, Hs1. repeat split.
Qed.

Lemma destroy_throws w :
  appStateUnsubscribe (svc w) = true ->
  snd (destroy w) = Throw notAFunction /\
  notifications (trace (fst (destroy w))) = notifications (trace w) /\
  connectionStatus (svc (fst (destroy w))) = connectionStatus (svc w) /\
  listeners (svc (fst (destroy w))) = listeners (svc w).
Proof.
  intros Ha. unfold destroy.
  destruct (authUnsubscribe (svc w)); cbn [svc upd emit emits appStateUnsubscribe
                                            set_authUnsubscribe];
    rewrite Ha; cbn [fst snd trace svc upd emit emits]; repeat split.
  rewrite notifications_app. cbn [notifications]. apply app_nil_r.
Qed.





(** ** C7: connectivity observations *)

Lemma setPresenceState_detached_status s cd w :
  connectionStatus (svc (setPresenceState s cd KDetached w)) = connectionStatus (svc w) /\
  listeners (svc (setPresenceState s cd KDetached w)) = listeners (svc w).
Proof.
  unfold setPresenceState.
  destruct (userRef (svc w)); [|split; reflexivity].
  destruct (currentUser (svc w)); [|split; reflexivity].
  destruct (negb _); split; reflexivity.
Qed.

Lemma scheduleRetry_status w :
  connectionStatus (svc (scheduleRetry w)) = connectionStatus (svc w) /\
  config (svc (scheduleRetry w)) = config (svc w) /\
  listeners (svc (scheduleRetry w)) = listeners (svc w).
Proof.
  unfold scheduleRetry.
  destruct (isSome (retryTimeout (svc w)) || _); repeat split.
Qed.

(** C7, as the code has it: an observation of [true] sets [isConnected],
    sets [lastConnected] to the current time and resets [retryCount] to 0;
    if a binding exists and the service was not connected, the current
    state is handed to the writer, which re-writes it when it is still in
    the allowed set; the write is issued before the listeners are notified.
    When that state is no longer in the allowed set the un-awaited call
    rejects with [INVALID_STATE]: nothing is written or suspended, and the
    listeners are notified all the same.  In a reachable world the binding
    reference alone suffices, since it comes with an identity.  Every
    observation, in either direction, ends by notifying each listener with
    the updated status. *)
Theorem connection_change_updates_status_and_notifies w now :
  (connectionStatus (svc (handleConnectionChange true now w))
     = mkStatus true (Some now) 0 /\
   notifications (trace (handleConnectionChange true now w))
     = notifications (trace w)
       ++ map (fun cb => (cb, mkStatus true (Some now) 0)) (listeners (svc w))) /\
  (forall r u,
     bound w r u ->
     isConnected (connectionStatus (svc w)) = false ->
     allowed w (currentPresenceState (svc w)) ->
     trace (handleConnectionChange true now w)
       = trace w
         ++ [StoreSet (fresh w) r
                      (mkPresenceData (currentPresenceState (svc w)) (uid u) None)]
         ++ map (fun cb => Notify cb (mkStatus true (Some now) 0)) (listeners (svc w))) /\
  (forall r u,
     bound w r u ->
     isConnected (connectionStatus (svc w)) = false ->
     ~ allowed w (currentPresenceState (svc w)) ->
     trace (handleConnectionChange true now w)
       = trace w
         ++ [UnhandledRejection (invalidState (currentPresenceState (svc w)))]
         ++ map (fun cb => Notify cb (mkStatus true (Some now) 0)) (listeners (svc w)) /\
     writes (trace (handleConnectionChange true now w)) = writes (trace w) /\
     suspended (handleConnectionChange true now w) = suspended w /\
     currentPresenceState (svc (handleConnectionChange true now w))
       = currentPresenceState (svc w)) /\
  (forall r,
     reachable w ->
     userRef (svc w) = Some r ->
     isConnected (connectionStatus (svc w)) = false ->
     allowed w (currentPresenceState (svc w)) ->
     exists u,
       currentUser (svc w) = Some u /\
       writes (trace (handleConnectionChange true now w))
         = writes (trace w)
           ++ [(r, mkPresenceData (currentPresenceState (svc w)) (uid u) None)]) /\
  (connectionStatus (svc (handleConnectionChange false now w))
     = mkStatus false (lastConnected (connectionStatus (svc w)))
                (retryCount (connectionStatus (svc w))) /\
   notifications (trace (handleConnectionChange false now w))
     = notifications (trace w)
       ++ map (fun cb => (cb, mkStatus false (lastConnected (connectionStatus (svc w)))
                                       (retryCount (connectionStatus (svc w)))))
              (listeners (svc w))).
Proof.
  assert (Hrewrite : forall r u,
     bound w r u ->
     isConnected (connectionStatus (svc w)) = false ->
     allowed w (currentPresenceState (svc w)) ->
     trace (handleConnectionChange true now w)
       = trace w
         ++ [StoreSet (fresh w) r
                      (mkPresenceData (currentPresenceState (svc w)) (uid u) None)]
         ++ map (fun cb => Notify cb (mkStatus true (Some now) 0)) (listeners (svc w))).
  { intros r u [Hr Hu] Hc Ha. unfold handleConnectionChange. cbn [negb].
    rewrite Hc. cbn [negb svc upd].
    replace (userRef (set_retryCount 0
               (set_lastConnected (Some now) (set_isConnected true (svc w)))))
      with (userRef (svc w)) by reflexivity.
    rewrite Hr. cbn [isSome andb].
    replace (currentPresenceState (set_retryCount 0
               (set_lastConnected (Some now) (set_isConnected true (svc w)))))
      with (currentPresenceState (svc w)) by reflexivity.
    rewrite currentOrOnline_id.
    rewrite (setPresenceState_bound _ r u (currentPresenceState (svc w)) None KDetached).
    - unfold notifyConnectionListeners. cbn. rewrite <- app_assoc. reflexivity.
    - split; assumption.
    - exact Ha. }
  assert (Hn : forall st l, writes (map (fun cb => Notify cb st) l) = []).
  { intros st l. induction l as [|cb l IH]; [reflexivity | exact IH]. }
  split; [|split; [exact Hrewrite|split; [|split]]].
  - unfold handleConnectionChange. cbn [negb].
    set (w1a := upd (set_retryCount 0) _).
    assert (Hst : connectionStatus (svc w1a) = mkStatus true (Some now) 0)
      by reflexivity.
    assert (Hl : listeners (svc w1a) = listeners (svc w)) by reflexivity.
    assert (Ht : trace w1a = trace w) by reflexivity.
    destruct (negb (isConnected (connectionStatus (svc w))) && isSome (userRef (svc w1a))).
    + destruct (setPresenceState_detached_status
                  (currentOrOnline (currentPresenceState (svc w1a))) None w1a)
        as [Hs' Hl'].
      unfold notifyConnectionListeners. cbn [emits svc trace].
      rewrite notifications_app, notifications_notify,
        setPresenceState_notifications, Hs', Hl', Hst, Hl, Ht.
      split; reflexivity.
    + unfold notifyConnectionListeners. cbn [emits svc trace].
      rewrite notifications_app, notifications_notify, Hst, Hl, Ht.
      split; reflexivity.
  - intros r u [Hr Hu] Hc Ha.
    assert (Ht : trace (handleConnectionChange true now w)
                 = trace w
                   ++ [UnhandledRejection (invalidState (currentPresenceState (svc w)))]
                   ++ map (fun cb => Notify cb (mkStatus true (Some now) 0))
                          (listeners (svc w)) /\
                 suspended (handleConnectionChange true now w) = suspended w /\
                 currentPresenceState (svc (handleConnectionChange true now w))
                 = currentPresenceState (svc w)).
    { unfold handleConnectionChange. cbn [negb].
      rewrite Hc. cbn [negb svc upd].
      replace (userRef (set_retryCount 0
                 (set_lastConnected (Some now) (set_isConnected true (svc w)))))
        with (userRef (svc w)) by reflexivity.
      rewrite Hr. cbn [isSome andb].
      replace (currentPresenceState (set_retryCount 0
                 (set_lastConnected (Some now) (set_isConnected true (svc w)))))
        with (currentPresenceState (svc w)) by reflexivity.
      rewrite currentOrOnline_id.
      rewrite (setPresenceState_invalid _ r u (currentPresenceState (svc w)) None
                 KDetached).
      - unfold notifyConnectionListeners. cbn. rewrite <- app_assoc. repeat split.
      - split; assumption.
      - exact Ha. }
    destruct Ht as (Ht & Hs & Hp). split; [exact Ht|].
    split; [|split; assumption].
    rewrite Ht, !writes_app, Hn. cbn [writes]. rewrite !app_nil_r. reflexivity.
  - intros r Hreach Hr Hc Ha.
    destruct (currentUser (svc w)) as [u|] eqn:Hu.
    + exists u. split; [reflexivity|].
      rewrite (Hrewrite r u (conj Hr Hu) Hc Ha).
      rewrite !writes_app. cbn [writes].
      rewrite Hn, app_nil_r. reflexivity.
    + exfalso. apply (reachable_binding_has_identity w Hreach); congruence.
  - unfold handleConnectionChange. cbn [negb].
    destruct (scheduleRetry_status
                (notifyConnectionListeners (upd (set_isConnected false) w)))
      as [Hs _].
    rewrite Hs, scheduleRetry_notifications.
    unfold notifyConnectionListeners. cbn [emits svc trace upd].
    rewrite notifications_app, notifications_notify.
    split; reflexivity.
Qed.

Lemma connection_change_updates_status_and_notifies_witness :
  bound twoStateWorld "presence/A"%string alice /\
  isConnected (connectionStatus (svc twoStateWorld)) = false /\
  allowed twoStateWorld (currentPresenceState (svc twoStateWorld)) /\
  trace (handleConnectionChange true 30 twoStateWorld)
    = trace twoStateWorld
      ++ [StoreSet (fresh twoStateWorld) "presence/A"%string
                   (mkPresenceData online (uid alice) None)]
      ++ map (fun cb => Notify cb (mkStatus true (Some 30) 0))
             (listeners (svc twoStateWorld)).
Proof.
  split; [exact twoStateWorld_bound|]. split; [reflexivity|]. split; [reflexivity|].
  apply (proj1 (proj2 (connection_change_updates_status_and_notifies twoStateWorld 30))
           "presence/A"%string alice twoStateWorld_bound); reflexivity.
Defined.

Lemma started_reachable p : reachable (started p).
Proof.
  apply (reach_new p). unfold started, constructor.
  destruct (initialize _) as [w1 pr]. reflexivity.
Qed.

Lemma boundWorld_reachable : reachable boundWorld.
Proof.
  apply (run_reachable [EvAuth (Some alice); EvReply 1 Ok; EvReply 2 Ok]
           (started validCfg));
    [apply started_reachable | vm_compute; reflexivity].
Qed.


(** C7, as stated, fails: a binding exists, the last observation was
    [false], the store is observed connected, and nothing is written,
    because the current state [online] is no longer in the allowed set. *)
Lemma reconnect_without_rewrite :
  reachable narrowedWorld /\
  bound narrowedWorld "presence/A"%string alice /\
  isConnected (connectionStatus (svc narrowedWorld)) = false /\
  currentPresenceState (svc narrowedWorld) = online /\
  exists w',
    step narrowedWorld (EvConnected true 30) = Some w' /\
    writes (trace w') = writes (trace narrowedWorld) /\
    suspended w' = suspended narrowedWorld /\
    In (UnhandledRejection (invalidState online)) (trace w').
Proof.
  split.
  { apply (run_reachable [EvConnected true 10; EvReply 4 Ok; EvReply 5 Ok;
                          EvConnected false 20; EvUpdateConfig onlyBusy] boundWorld);
      [exact boundWorld_reachable | reflexivity]. }
  split; [split; reflexivity|]. split; [reflexivity|]. split; [reflexivity|].
  eexists. split; [reflexivity|]. split; [reflexivity|]. split; [reflexivity|].
  vm_compute. auto 20.
Qed.

(** ** C8: the idle timer *)

Lemma lookup_drop {A : Type} (n : nat) (l : list (nat * A)) : lookup n (drop n l) = None.
Proof.
  induction l as [|[m a] l IH]; [reflexivity|].
  unfold drop in *. simpl. destruct (Nat.eqb m n) eqn:E; simpl.
  - exact IH.
  - rewrite E. exact IH.
Qed.

Lemma setPresenceState_timers s cd k w :
  k <> KSetup -> timers (setPresenceState s cd k w) = timers w.
Proof.
  intros Hk. unfold setPresenceState.
  assert (Hsettle : forall o, timers (settle k o w) = timers w).
  { intros o. destruct k; [destruct o| |congruence]; reflexivity. }
  destruct (userRef (svc w)); [|apply Hsettle].
  destruct (currentUser (svc w)); [|apply Hsettle].
  destruct (negb _); [apply Hsettle | reflexivity].
Qed.

(** C8, as the code has it.  When an armed idle timer fires: if the
    current state is not [online] nothing happens; if it is [online] the
    writer is asked for [away], and the state becomes [away], with the
    [away] record written, exactly when the writer accepts the request
    (a binding and an identity exist and [away] is in the allowed set);
    otherwise the state stays [online] and nothing is written.  The timer
    is gone after it fired.  With [autoSetAway] false, arming does
    nothing, in whatever state the service is. *)
Theorem away_timer_fires_with_guard w :
  (forall h w',
     lookup h (timers w) = Some AwayTimer ->
     step w (EvTimer h) = Some w' ->
     lookup h (timers w') = None /\
     (currentPresenceState (svc w) <> online ->
      svc w' = svc w /\ trace w' = trace w) /\
     (currentPresenceState (svc w) = online ->
      forall r u, bound w r u -> allowed w away ->
      currentPresenceState (svc w') = away /\
      trace w' = trace w ++ [StoreSet (fresh w) r (mkPresenceData away (uid u) None)]) /\
     (currentPresenceState (svc w) = online ->
      userRef (svc w) = None \/ currentUser (svc w) = None \/ ~ allowed w away ->
      svc w' = svc w /\ writes (trace w') = writes (trace w))) /\
  (autoSetAway (config (svc w)) = false -> setupAwayTimer w = w).
Proof.
  split.
  2:{ intros Hoff. unfold setupAwayTimer. rewrite Hoff. reflexivity. }
  intros h w' Hl Hstep. cbn [step] in Hstep. unfold fire in Hstep. rewrite Hl in Hstep.
  injection Hstep as <-.
  set (w0 := mkWorld (svc w) (drop h (timers w)) (suspended w) (fresh w) (trace w)).
  split; [|split; [|split]].
  - unfold awayTimerFired. destruct (PState_eqb _ online).
    + rewrite setPresenceState_timers by discriminate. apply lookup_drop.
    + apply lookup_drop.
  - intros Hne. unfold awayTimerFired.
    destruct (PState_eqb (currentPresenceState (svc w0)) online) eqn:E.
    + apply PState_eqb_eq in E. contradiction.
    + split; reflexivity.
  - intros Hon r u Hb Ha. unfold awayTimerFired.
    change (currentPresenceState (svc w0)) with (currentPresenceState (svc w)).
    rewrite Hon. cbn [PState_eqb].
    rewrite (setPresenceState_bound w0 r u away None KDetached Hb Ha).
    split; reflexivity.
  - intros Hon Hno. unfold awayTimerFired.
    change (currentPresenceState (svc w0)) with (currentPresenceState (svc w)).
    rewrite Hon. cbn [PState_eqb].
    destruct Hno as [Hno|[Hno|Hno]].
    + rewrite setPresenceState_unbound by (left; exact Hno). split; reflexivity.
    + rewrite setPresenceState_unbound by (right; exact Hno). split; reflexivity.
    + destruct (userRef (svc w)) as [r|] eqn:Hr.
      2:{ rewrite setPresenceState_unbound by (left; exact Hr). split; reflexivity. }
      destruct (currentUser (svc w)) as [u|] eqn:Hu.
      2:{ rewrite setPresenceState_unbound by (right; exact Hu). split; reflexivity. }
      rewrite (setPresenceState_invalid w0 r u away None KDetached);
        [| split; assumption | exact Hno].
      cbn. rewrite writes_app. cbn. rewrite app_nil_r. split; reflexivity.
Qed.

Lemma away_timer_fires_with_guard_witness :
  lookup 3%nat (timers boundWorld) = Some AwayTimer /\
  currentPresenceState (svc boundWorld) = online /\
  allowed boundWorld away /\
  (exists w',
     step boundWorld (EvTimer 3%nat) = Some w' /\
     currentPresenceState (svc w') = away /\
     trace w' = trace boundWorld
                ++ [StoreSet (fresh boundWorld) "presence/A"%string
                             (mkPresenceData away (uid alice) None)]) /\
  autoSetAway (config (svc manualWorld)) = false /\
  timers manualWorld = [] /\
  setupAwayTimer manualWorld = manualWorld.
Proof.
  split; [reflexivity|]. split; [reflexivity|]. split; [reflexivity|].
  split.
  - eexists. split; [reflexivity|].
    apply (proj1 (proj2 (proj2
             (proj1 (away_timer_fires_with_guard boundWorld) 3%nat _ eq_refl eq_refl)))
             eq_refl "presence/A"%string alice boundWorld_bound).
    reflexivity.
  - split; [reflexivity|]. split; [reflexivity|].
    exact (proj2 (away_timer_fires_with_guard manualWorld) eq_refl).
Defined.

Lemma twoStateWorld_reachable : reachable twoStateWorld.
Proof.
  apply (run_reachable [EvAuth (Some alice); EvReply 1 Ok; EvReply 2 Ok]
           (started twoStates));
    [apply started_reachable | vm_compute; reflexivity].
Qed.

(** C8, as stated, fails: the idle timer fires while the current state is
    still [online], and there is no transition to [away], because [away] is
    not in the configured allowed set. *)
Lemma idle_timer_fires_without_transition :
  reachable twoStateWorld /\
  bound twoStateWorld "presence/A"%string alice /\
  autoSetAway (config (svc twoStateWorld)) = true /\
  lookup 3%nat (timers twoStateWorld) = Some AwayTimer /\
  currentPresenceState (svc twoStateWorld) = online /\
  exists w',
    step twoStateWorld (EvTimer 3%nat) = Some w' /\
    currentPresenceState (svc w') = online /\
    writes (trace w') = writes (trace twoStateWorld) /\
    suspended w' = suspended twoStateWorld.
Proof.
  split; [exact twoStateWorld_reachable|].
  split; [exact twoStateWorld_bound|].
  repeat (split; [reflexivity|]).
  eexists. repeat split.
Qed.

(** ** C2: the retry ceiling *)

(** C2, as stated, fails: with [maxRetries: 1], the first write of a new
    binding fails and then the connectivity subscription reports an error;
    [retryCount] is then 2. *)
Lemma retryCount_exceeds_maxRetries :
  exists w,
    reachable w /\
    run (started oneRetry)
        [EvAuth (Some alice); EvReply 1 (Failed "PERMISSION_DENIED"%string);
         EvConnectionError] = Some w /\
    maxRetries (config (svc w)) = 1 /\
    retryCount (connectionStatus (svc w)) = 2 /\
    ~ retryCount (connectionStatus (svc w)) <= maxRetries (config (svc w)).
Proof.
  eexists. split; [|split; [vm_compute; reflexivity|]].
  - apply (run_reachable
             [EvAuth (Some alice); EvReply 1 (Failed "PERMISSION_DENIED"%string);
              EvConnectionError] (started oneRetry));
      [apply started_reachable | vm_compute; reflexivity].
  - split; [reflexivity|]. split; [reflexivity|]. cbn. lia.
Qed.

Lemma retryArms_app (a b : list Effect) : retryArms (a ++ b) = retryArms a ++ retryArms b.
Proof.
  induction a as [|e a IH]; [reflexivity|].
  destruct e as [| | | | | | | |h k d| | | |]; simpl; try exact IH.
  destruct k; simpl; rewrite IH; reflexivity.
Qed.

Lemma retryArms_notify (st : ConnectionStatus) (l : list Callback) :
  retryArms (map (fun cb => Notify cb st) l) = [].
Proof. induction l as [|cb l IH]; simpl; [reflexivity | exact IH]. Qed.

Lemma arms_below_refl w : arms_below w w.
Proof. left. reflexivity. Qed.

Lemma arms_below_after w w1 w2 :
  retryArms (trace w1) = retryArms (trace w) -> arms_below w1 w2 -> arms_below w w2.
Proof. intros H [H2|H2]; [left; congruence | right; exact H2]. Qed.

Lemma arms_below_then w w1 w2 :
  arms_below w w1 ->
  retryArms (trace w2) = retryArms (trace w1) ->
  connectionStatus (svc w2) = connectionStatus (svc w1) ->
  config (svc w2) = config (svc w1) ->
  arms_below w w2.
Proof.
  intros [H|H] Ht Hs Hc; [left; congruence|].
  right. unfold belowCeiling in *. rewrite Hs, Hc. exact H.
Qed.

Lemma scheduleRetry_arms w : arms_below w (scheduleRetry w).
Proof.
  unfold scheduleRetry.
  destruct (isSome (retryTimeout (svc w))); [left; reflexivity|]. cbn [orb].
  destruct (retryCount (connectionStatus (svc w)) >=? maxRetries (config (svc w))) eqn:E.
  - left; reflexivity.
  - right. unfold belowCeiling. cbn.
    destruct (Z.geb_spec (retryCount (connectionStatus (svc w)))
                         (maxRetries (config (svc w)))); [discriminate | lia].
Qed.

Lemma handleSetupError_arms w : arms_below w (handleSetupError w).
Proof.
  unfold handleSetupError.
  set (w1 := upd (set_retryCount (retryCount (connectionStatus (svc w)) + 1)) w).
  destruct (_ <? _).
  - apply (arms_below_after w w1); [reflexivity | apply scheduleRetry_arms].
  - left; reflexivity.
Qed.

Lemma handleConnectionError_arms w : arms_below w (handleConnectionError w).
Proof.
  unfold handleConnectionError.
  set (w1 := upd (set_retryCount (retryCount (connectionStatus (svc w)) + 1)) w).
  apply (arms_below_after w w1); [reflexivity | apply scheduleRetry_arms].
Qed.

Lemma setupAwayTimer_quiet w :
  retryArms (trace (setupAwayTimer w)) = retryArms (trace w) /\
  connectionStatus (svc (setupAwayTimer w)) = connectionStatus (svc w) /\
  config (svc (setupAwayTimer w)) = config (svc w).
Proof.
  unfold setupAwayTimer. destruct (negb _); [repeat split|].
  cbn. rewrite retryArms_app. cbn. rewrite app_nil_r. repeat split.
Qed.

Lemma setupPresence_resume_arms o w : arms_below w (setupPresence_resume o w).
Proof.
  destruct o; cbn [setupPresence_resume].
  - left. unfold setupPresence_finally. cbn [trace upd].
    apply setupAwayTimer_quiet.
  - unfold setupPresence_catch, setupPresence_finally.
    apply (arms_below_then w (handleSetupError (upd (set_userRef None) w)));
      [|reflexivity..].
    apply (arms_below_after w (upd (set_userRef None) w));
      [reflexivity | apply handleSetupError_arms].
Qed.

Lemma settle_arms k o w : arms_below w (settle k o w).
Proof.
  destruct k; cbn [settle].
  - destruct o; [apply arms_below_refl|].
    left. cbn. rewrite retryArms_app. cbn. apply app_nil_r.
  - left. cbn. rewrite retryArms_app. cbn. apply app_nil_r.
  - apply setupPresence_resume_arms.
Qed.

Lemma setPresenceState_arms s cd k w : arms_below w (setPresenceState s cd k w).
Proof.
  unfold setPresenceState.
  destruct (userRef (svc w)); [|apply settle_arms].
  destruct (currentUser (svc w)); [|apply settle_arms].
  destruct (negb _); [apply settle_arms|].
  left. cbn. rewrite retryArms_app. cbn. apply app_nil_r.
Qed.

(** A call that [setupPresence] does not await arms no retry timer and
    leaves status and configuration alone. *)
Lemma setPresenceState_quiet s cd k w :
  k <> KSetup ->
  retryArms (trace (setPresenceState s cd k w)) = retryArms (trace w) /\
  connectionStatus (svc (setPresenceState s cd k w)) = connectionStatus (svc w) /\
  config (svc (setPresenceState s cd k w)) = config (svc w).
Proof.
  intros Hk.
  assert (Hsettle : forall o,
             retryArms (trace (settle k o w)) = retryArms (trace w) /\
             connectionStatus (svc (settle k o w)) = connectionStatus (svc w) /\
             config (svc (settle k o w)) = config (svc w)).
  { intros o. destruct k; [destruct o| |congruence]; cbn;
      rewrite ?retryArms_app; cbn; rewrite ?app_nil_r; repeat split. }
  unfold setPresenceState.
  destruct (userRef (svc w)); [|apply Hsettle].
  destruct (currentUser (svc w)); [|apply Hsettle].
  destruct (negb _); [apply Hsettle|].
  cbn. rewrite retryArms_app. cbn. rewrite app_nil_r. repeat split.
Qed.

Lemma resume_arms p r w : arms_below w (resume p r w).
Proof.
  destruct p as [s cd k|k], r as [|cause]; cbn [resume]; try apply settle_arms.
  destruct (PState_eqb s online); [|apply settle_arms].
  destruct (userRef (svc w)); [|apply settle_arms].
  destruct (currentUser (svc w)); [|apply settle_arms].
  left. cbn. rewrite retryArms_app. cbn. apply app_nil_r.
Qed.

Lemma cleanup_quiet w : retryArms (trace (cleanup w)) = retryArms (trace w).
Proof.
  rewrite cleanup_trace, !retryArms_app, retryArms_notify.
  unfold cleanupCalls.
  destruct (connectedListener (svc w)), (userRef (svc w)),
    (retryTimeout (svc w)), (awayTimeout (svc w)); cbn; apply app_nil_r.
Qed.

Lemma setupPresence_arms id w : arms_below w (setupPresence id w).
Proof.
  unfold setupPresence.
  destruct (setupInProgress (svc w)); [apply arms_below_refl|].
  destruct (negb _).
  - unfold setupPresence_catch, setupPresence_finally.
    set (w1 := upd (set_setupInProgress true) w).
    apply (arms_below_then w (handleSetupError (upd (set_userRef None) w1)));
      [|reflexivity..].
    apply (arms_below_after w (upd (set_userRef None) w1));
      [reflexivity | apply handleSetupError_arms].
  - cbv zeta.
    pose proof (cleanup_quiet (upd (set_setupInProgress true) w)) as Hc.
    change (trace (upd (set_setupInProgress true) w)) with (trace w) in Hc.
    set (w2 := cleanup (upd (set_setupInProgress true) w)) in *. clearbody w2.
    cbn [negb userRef svc upd emit emits set_connectedListener set_connectedRef
         set_userRef].
    eapply arms_below_after; [|apply setPresenceState_arms].
    cbn [trace upd emit emits]. rewrite retryArms_app, Hc. cbn. apply app_nil_r.
Qed.

Lemma handleAuthStateChange_arms user w : arms_below w (handleAuthStateChange user w).
Proof.
  unfold handleAuthStateChange. destruct user as [u|].
  - destruct (uid_differs _ _); [|apply arms_below_refl].
    set (w2 := upd (set_currentSetupUid (Some (uid u))) _).
    apply (arms_below_after w w2); [reflexivity | apply setupPresence_arms].
  - left.
    change (currentUser (svc (upd (set_currentSetupUid None) w)))
      with (currentUser (svc w)).
    destruct (currentUser (svc w)); [|reflexivity].
    pose proof (cleanup_quiet (upd (set_currentSetupUid None) w)) as Hc.
    set (w2 := cleanup _) in *. clearbody w2. exact Hc.
Qed.

Lemma appStateListener_arms s w : arms_below w (appStateListener s w).
Proof.
  unfold appStateListener. destruct (_ && _); [|apply arms_below_refl].
  unfold handleAppStateChange.
  set (w1 := match awayTimeout (svc w) with Some h => _ | None => w end).
  assert (H1 : retryArms (trace w1) = retryArms (trace w)).
  { subst w1. destruct (awayTimeout (svc w)); [|reflexivity].
    cbn. rewrite retryArms_app. cbn. apply app_nil_r. }
  clearbody w1. left. rewrite <- H1.
  destruct s.
  - destruct (setupAwayTimer_quiet (setPresenceState online None KDetached w1))
      as [Ht _].
    rewrite Ht. apply setPresenceState_quiet. discriminate.
  - apply setPresenceState_quiet. discriminate.
  - apply setPresenceState_quiet. discriminate.
  - reflexivity.
  - reflexivity.
Qed.

Lemma fire_arms h w w' : fire h w = Some w' -> arms_below w w'.
Proof.
  unfold fire. destruct (lookup h (timers w)) as [k|]; [|discriminate].
  intros H. injection H as <-.
  set (w0 := mkWorld (svc w) (drop h (timers w)) (suspended w) (fresh w) (trace w)).
  destruct k.
  - unfold retryTimerFired.
    set (w1 := upd (set_retryTimeout None) w0).
    destruct (currentUser (svc w1)); [|left; reflexivity].
    destruct (negb _); [|left; reflexivity].
    apply (arms_below_after w w1); [reflexivity | apply setupPresence_arms].
  - unfold awayTimerFired. destruct (PState_eqb _ _); [|left; reflexivity].
    left. apply (setPresenceState_quiet away None KDetached w0). discriminate.
Qed.

Lemma reply_arms id r w w' : reply id r w = Some w' -> arms_below w w'.
Proof.
  unfold reply. destruct (lookup id (suspended w)) as [p|]; [|discriminate].
  intros H. injection H as <-.
  set (w0 := mkWorld (svc w) (timers w) (drop id (suspended w)) (fresh w) (trace w)).
  apply (arms_below_after w w0); [reflexivity | apply resume_arms].
Qed.

Lemma handleConnectionChange_arms connected now w :
  arms_below w (handleConnectionChange connected now w).
Proof.
  unfold handleConnectionChange. destruct connected; cbn [negb].
  - left. unfold notifyConnectionListeners. cbn [trace emits].
    rewrite retryArms_app, retryArms_notify, app_nil_r.
    set (w1a := upd (set_retryCount 0) _).
    destruct (_ && _); [|reflexivity].
    apply (setPresenceState_quiet _ None KDetached w1a). discriminate.
  - set (w3 := notifyConnectionListeners _).
    apply (arms_below_after w w3); [|apply scheduleRetry_arms].
    subst w3. unfold notifyConnectionListeners. cbn [trace emits upd].
    rewrite retryArms_app, retryArms_notify. apply app_nil_r.
Qed.

Lemma initialize_quiet w : retryArms (trace (fst (initialize w))) = retryArms (trace w).
Proof.
  unfold initialize. destruct (initPromise (svc w)); [reflexivity|].
  unfold _initialize. destruct (initialized (svc w)); [reflexivity|].
  destruct (FirebaseValidator.validateConfig _); [|reflexivity].
  destruct (_ || _); [reflexivity|].
  cbn. rewrite !retryArms_app. cbn. rewrite !app_nil_r. reflexivity.
Qed.

Lemma initialize_logged_quiet w :
  retryArms (trace (initialize_logged w)) = retryArms (trace w).
Proof.
  unfold initialize_logged. pose proof (initialize_quiet w) as Hi.
  destruct (initialize w) as [w1 pr]. cbn [fst] in Hi.
  destruct pr; [exact Hi|].
  cbn. rewrite retryArms_app. cbn. rewrite app_nil_r. exact Hi.
Qed.

Lemma subscribeToUserPresence_quiet uid cb w :
  retryArms (trace (fst (subscribeToUserPresence uid cb w))) = retryArms (trace w).
Proof.
  destruct (subscribeToUserPresence_shape uid cb w) as (m & l & -> & Hl).
  cbn [trace]. rewrite retryArms_app, initialize_logged_quiet.
  destruct Hl as [->|[r ->]]; cbn; apply app_nil_r.
Qed.

Lemma runUnsubscribe_quiet u w :
  retryArms (trace (runUnsubscribe u w)) = retryArms (trace w).
Proof.
  destruct (runUnsubscribe_shape u w) as (m & l & -> & Hl).
  cbn [trace]. rewrite retryArms_app.
  destruct Hl as [->|[r ->]]; cbn; apply app_nil_r.
Qed.

Lemma destroy_quiet w : retryArms (trace (fst (destroy w))) = retryArms (trace w).
Proof.
  unfold destroy.
  set (w1 := if authUnsubscribe (svc w) then _ else w).
  assert (H1 : retryArms (trace w1) = retryArms (trace w)).
  { subst w1. destruct (authUnsubscribe (svc w)); [|reflexivity].
    cbn. rewrite retryArms_app. cbn. apply app_nil_r. }
  clearbody w1.
  destruct (appStateUnsubscribe (svc w1)); [exact H1|].
  pose proof (cleanup_quiet w1) as Hc.
  revert Hc. generalize (cleanup w1). intros w3 Hc.
  cbn [fst trace upd]. congruence.
Qed.

(** Whatever the callback, a step that arms a retry timer ends below the
    ceiling. *)
Lemma step_arms w e w' : step w e = Some w' -> arms_below w w'.
Proof.
  destruct e; cbn [step]; intros H.
  - destruct (authUnsubscribe (svc w)); [|discriminate].
    injection H as <-. apply handleAuthStateChange_arms.
  - destruct (appStateUnsubscribe (svc w)); [|discriminate].
    injection H as <-. apply appStateListener_arms.
  - destruct (isSome _); [|discriminate].
    injection H as <-. apply handleConnectionChange_arms.
  - destruct (isSome _); [|discriminate].
    injection H as <-. apply handleConnectionError_arms.
  - exact (fire_arms _ _ _ H).
  - exact (reply_arms _ _ _ _ H).
  - injection H as <-. left. apply setPresenceState_quiet. discriminate.
  - injection H as <-. left. unfold subscribeToConnectionStatus.
    pose proof (initialize_logged_quiet w) as Hi.
    revert Hi. generalize (initialize_logged w). intros w1 Hi.
    cbn. rewrite retryArms_app. cbn. rewrite app_nil_r. exact Hi.
  - injection H as <-. left. reflexivity.
  - injection H as <-. left. apply subscribeToUserPresence_quiet.
  - injection H as <-. left. apply runUnsubscribe_quiet.
  - injection H as <-. left. reflexivity.
  - injection H as <-. left. apply destroy_quiet.
Qed.

(** C2, as the code has it.  At the ceiling the schedule path does nothing:
    [scheduleRetry] returns the world unchanged, so an unset retry-timer
    handle stays unset, and the two error handlers then only count the
    failure.  In every step of the service, whatever the callback, a retry
    timer is armed only if [retryCount] is below [maxRetries] when the step
    ends.  ([retryCount] itself is not bounded: each error increments it.) *)
Theorem retry_timer_armed_only_below_ceiling w :
  (retryCount (connectionStatus (svc w)) >= maxRetries (config (svc w)) ->
   scheduleRetry w = w /\
   (retryTimeout (svc w) = None -> retryTimeout (svc (scheduleRetry w)) = None)) /\
  (retryCount (connectionStatus (svc w)) + 1 >= maxRetries (config (svc w)) ->
   handleSetupError w
     = upd (set_retryCount (retryCount (connectionStatus (svc w)) + 1)) w /\
   handleConnectionError w
     = upd (set_retryCount (retryCount (connectionStatus (svc w)) + 1)) w) /\
  (forall e w',
     step w e = Some w' ->
     retryArms (trace w') <> retryArms (trace w) ->
     retryCount (connectionStatus (svc w')) < maxRetries (config (svc w'))).
Proof.
  split; [|split].
  - intros Hge.
    assert (Hs : scheduleRetry w = w).
    { unfold scheduleRetry.
      destruct (Z.geb_spec (retryCount (connectionStatus (svc w)))
                           (maxRetries (config (svc w)))); [|lia].
      rewrite orb_true_r. reflexivity. }
    split; [exact Hs|]. rewrite Hs. auto.
  - intros Hge. unfold handleSetupError, handleConnectionError, scheduleRetry.
    cbn [svc upd connectionStatus config retryCount set_retryCount
         set_connectionStatus].
    destruct (Z.ltb_spec (retryCount (connectionStatus (svc w)) + 1)
                         (maxRetries (config (svc w)))); [lia|].
    destruct (Z.geb_spec (retryCount (connectionStatus (svc w)) + 1)
                         (maxRetries (config (svc w)))); [|lia].
    rewrite orb_true_r. split; reflexivity.
  - intros e w' Hstep Hne.
    destruct (step_arms w e w' Hstep) as [H|H]; [contradiction | exact H].
Qed.

Lemma retry_timer_armed_only_below_ceiling_witness :
  retryCount (connectionStatus (svc ceilingWorld))
    >= maxRetries (config (svc ceilingWorld)) /\
  retryTimeout (svc ceilingWorld) = None /\
  scheduleRetry ceilingWorld = ceilingWorld /\
  retryTimeout (svc (scheduleRetry ceilingWorld)) = None.
Proof.
  assert (Hge : retryCount (connectionStatus (svc ceilingWorld))
                >= maxRetries (config (svc ceilingWorld))) by (vm_compute; discriminate).
  destruct (proj1 (retry_timer_armed_only_below_ceiling ceilingWorld) Hge) as [Hs Hn].
  split; [exact Hge|]. split; [reflexivity|]. split; [exact Hs|].
  apply Hn. reflexivity.
Defined.

(** * Further properties of the code *)

(** ** [FirebaseValidator] *)

Lemma validateConfig_accepts (c : Config) :
  FirebaseValidator.validateConfig c = Normal tt ->
  truthy (firebaseApp c) = true /\ truthy (database c) = true /\
  truthy (auth c) = true.
Proof.
  unfold FirebaseValidator.validateConfig.
  destruct (truthy (firebaseApp c)), (truthy (database c)), (truthy (auth c));
    cbn; intros H; try discriminate; repeat split.
Qed.

(** X1: [validateConfig] accepts exactly the configurations whose three
    handles are all truthy, and otherwise reports the first missing one in
    the order app, database, auth. *)
Theorem validateConfig_reports_first_missing (c : Config) :
  (FirebaseValidator.validateConfig c = Normal tt <->
   truthy (firebaseApp c) = true /\ truthy (database c) = true /\
   truthy (auth c) = true) /\
  (truthy (firebaseApp c) = false ->
   exists m, FirebaseValidator.validateConfig c
             = Throw (PresenceError m "MISSING_FIREBASE_APP" None)) /\
  (truthy (firebaseApp c) = true -> truthy (database c) = false ->
   exists m, FirebaseValidator.validateConfig c
             = Throw (PresenceError m "MISSING_DATABASE" None)) /\
  (truthy (firebaseApp c) = true -> truthy (database c) = true ->
   truthy (auth c) = false ->
   exists m, FirebaseValidator.validateConfig c
             = Throw (PresenceError m "MISSING_AUTH" None)).
Proof.
  unfold FirebaseValidator.validateConfig.
  destruct (truthy (firebaseApp c)), (truthy (database c)), (truthy (auth c));
    cbn; repeat split; intros;
    try discriminate; try reflexivity; try (eexists; reflexivity);
    try (destruct H as (? & ? & ?); discriminate).
Qed.

Lemma validateConfig_reports_first_missing_witness :
  truthy (firebaseApp (merge defaults threeStates)) = true /\
  truthy (database (merge defaults threeStates)) = false /\
  exists m, FirebaseValidator.validateConfig (merge defaults threeStates)
            = Throw (PresenceError m "MISSING_DATABASE" None).
Proof.
  split; [reflexivity|]. split; [reflexivity|].
  apply (proj1 (proj2 (proj2
           (validateConfig_reports_first_missing (merge defaults threeStates))))
           eq_refl eq_refl).
Defined.

(** X2: for an integer base delay [b] with [1 <= b < 2^53] the retry
    delay is a finite number between 1 and 30000 that never decreases with
    the attempt number, and from the 15th attempt on it is exactly
    30000. *)
Theorem createRetryDelay_monotone_capped (n m b : Z) :
  1 <= b < 2 ^ 53 -> 0 <= n <= m ->
  exists dn dm,
    FirebaseValidator.createRetryDelay n b = Finite dn /\
    FirebaseValidator.createRetryDelay m b = Finite dm /\
    1 <= dn <= dm /\ dm <= 30000 /\
    (15 <= n -> dn = 30000).
Proof.
  intros [Hb _] [Hn Hm].
  exists (Z.min (b * 2 ^ n) 30000), (Z.min (b * 2 ^ m) 30000).
  split; [apply createRetryDelay_positive; lia|].
  split; [apply createRetryDelay_positive; lia|].
  assert (Hpn : 0 < 2 ^ n) by (apply Z.pow_pos_nonneg; lia).
  assert (Hle : 2 ^ n <= 2 ^ m) by (apply Z.pow_le_mono_r; lia).
  assert (Hbn : 1 <= b * 2 ^ n) by nia.
  assert (Hbm : b * 2 ^ n <= b * 2 ^ m) by nia.
  split; [lia|]. split; [lia|].
  intros H15. pose proof (pow2_above_cap n H15) as Hc.
  assert (30000 <= b * 2 ^ n) by nia. lia.
Qed.

Lemma createRetryDelay_monotone_capped_witness :
  1 <= 1000 < 2 ^ 53 /\ 0 <= 2 <= 20 /\
  exists dn dm,
    FirebaseValidator.createRetryDelay 2 1000 = Finite dn /\
    FirebaseValidator.createRetryDelay 20 1000 = Finite dm /\
    1 <= dn <= dm /\ dm <= 30000 /\
    (15 <= 2 -> dn = 30000).
Proof.
  assert (H1 : 1 <= 1000 < 2 ^ 53) by (split; [lia | reflexivity]).
  assert (H2 : 0 <= 2 <= 20) by lia.
  split; [exact H1|]. split; [exact H2|].
  exact (createRetryDelay_monotone_capped 2 20 1000 H1 H2).
Defined.

(** ** [updateConfig] *)

(** X3: [updateConfig] is a plain merge: an empty update changes nothing,
    two updates in a row equal one update in which the later keys win, and
    repeating an update changes nothing more.  It never touches anything
    but the configuration, so it can remove a required handle without the
    service noticing. *)
Theorem updateConfig_merges (p q : PresenceConfig) (w : World) :
  merge (config (svc w)) emptyCfg = config (svc w) /\
  updateConfig q (updateConfig p w) = updateConfig (overlay p q) w /\
  updateConfig p (updateConfig p w) = updateConfig p w /\
  set_config (config (svc w)) (svc (updateConfig p w)) = svc w /\
  trace (updateConfig p w) = trace w.
Proof.
  assert (Hpick : forall (A : Type) (x y : option A) (d : A),
             pick y (pick x d) = pick (orElse y x) d)
    by (intros A x [y|] d; reflexivity).
  assert (Hidem : forall (A : Type) (x : option A) (d : A),
             pick x (pick x d) = pick x d)
    by (intros A [x|] d; reflexivity).
  destruct w as [s t su f tr]. destruct s. destruct config0.
  unfold updateConfig, upd, merge, overlay, set_config. cbn.
  split; [reflexivity|]. split; [|split; [|split; reflexivity]].
  - rewrite !Hpick. reflexivity.
  - rewrite !Hidem. reflexivity.
Qed.

(** ** [cleanup], in one equation *)

Lemma service_eq (a b : Service) :
  config a = config b -> userRef a = userRef b -> connectedRef a = connectedRef b ->
  connectedListener a = connectedListener b ->
  connectionStatus a = connectionStatus b -> currentUser a = currentUser b ->
  listeners a = listeners b -> presenceListeners a = presenceListeners b ->
  authUnsubscribe a = authUnsubscribe b ->
  appStateUnsubscribe a = appStateUnsubscribe b ->
  initialized a = initialized b -> initPromise a = initPromise b ->
  setupInProgress a = setupInProgress b -> currentSetupUid a = currentSetupUid b ->
  retryTimeout a = retryTimeout b -> awayTimeout a = awayTimeout b ->
  currentPresenceState a = currentPresenceState b ->
  a = b.
Proof. destruct a, b; cbn; intros; subst; reflexivity. Qed.

Lemma world_eq (a b : World) :
  svc a = svc b -> timers a = timers b -> suspended a = suspended b ->
  fresh a = fresh b -> trace a = trace b -> a = b.
Proof. destruct a, b; cbn; intros; subst; reflexivity. Qed.

Lemma cleanup_kept w :
  config (svc (cleanup w)) = config (svc w) /\
  currentUser (svc (cleanup w)) = currentUser (svc w) /\
  listeners (svc (cleanup w)) = listeners (svc w) /\
  presenceListeners (svc (cleanup w)) = presenceListeners (svc w) /\
  authUnsubscribe (svc (cleanup w)) = authUnsubscribe (svc w) /\
  appStateUnsubscribe (svc (cleanup w)) = appStateUnsubscribe (svc w) /\
  initialized (svc (cleanup w)) = initialized (svc w) /\
  initPromise (svc (cleanup w)) = initPromise (svc w) /\
  setupInProgress (svc (cleanup w)) = setupInProgress (svc w) /\
  currentSetupUid (svc (cleanup w)) = currentSetupUid (svc w) /\
  currentPresenceState (svc (cleanup w)) = currentPresenceState (svc w) /\
  suspended (cleanup w) = suspended w /\
  fresh (cleanup w) = fresh w.
Proof.
  unfold cleanup.
  destruct (connectedListener (svc w)) eqn:E1; cbn;
    destruct (userRef (svc w)) eqn:E2; cbn;
    destruct (connectedRef (svc w)) eqn:E3; cbn;
    destruct (retryTimeout (svc w)) eqn:E4; cbn;
    destruct (awayTimeout (svc w)) eqn:E5; cbn;
    repeat split.
Qed.

Lemma cleanup_released w :
  userRef (svc (cleanup w)) = None /\
  connectedRef (svc (cleanup w)) = None /\
  connectedListener (svc (cleanup w)) = None /\
  retryTimeout (svc (cleanup w)) = None /\
  awayTimeout (svc (cleanup w)) = None /\
  timers (cleanup w) = cleanupTimers w.
Proof.
  unfold cleanup, cleanupTimers.
  destruct (connectedListener (svc w)) eqn:E1; cbn;
    destruct (userRef (svc w)) eqn:E2; cbn;
    destruct (connectedRef (svc w)) eqn:E3; cbn;
    destruct (retryTimeout (svc w)) eqn:E4; cbn;
    destruct (awayTimeout (svc w)) eqn:E5; cbn;
    repeat split; assumption.
Qed.

Lemma cleanup_world w :
  cleanup w =
  mkWorld (cleanupService w) (cleanupTimers w) (suspended w) (fresh w)
          (trace w ++ cleanupCalls w
                   ++ map (fun cb => Notify cb (resetStatus w)) (listeners (svc w))).
Proof.
  pose proof (cleanup_kept w) as (K1 & K2 & K3 & K4 & K5 & K6 & K7 & K8 & K9 & K10
                                  & K11 & K12 & K13).
  pose proof (cleanup_released w) as (R1 & R2 & R3 & R4 & R5 & R6).
  pose proof (cleanup_status w) as Hs. pose proof (cleanup_trace w) as Ht.
  set (c := cleanup w) in *. clearbody c.
  apply world_eq; cbn [svc timers suspended fresh trace]; try assumption.
  apply service_eq; unfold cleanupService; cbn; assumption.
Qed.

Lemma lookup_drop_other {A : Type} (n m : nat) (l : list (nat * A)) :
  n <> m -> lookup n (drop m l) = lookup n l.
Proof.
  intros Hne. induction l as [|[k a] l IH]; [reflexivity|].
  unfold drop in *. simpl. destruct (Nat.eqb k m) eqn:E; simpl.
  - apply Nat.eqb_eq in E. subst k.
    destruct (Nat.eqb m n) eqn:E'; [apply Nat.eqb_eq in E'; congruence | exact IH].
  - destruct (Nat.eqb k n); [reflexivity | exact IH].
Qed.

Lemma lookup_drop_none {A : Type} (n m : nat) (l : list (nat * A)) :
  lookup n l = None -> lookup n (drop m l) = None.
Proof.
  intros H. destruct (Nat.eq_dec n m) as [->|Hne];
    [apply lookup_drop | rewrite lookup_drop_other; assumption].
Qed.

(** The timers whose handles the service held are not live after [cleanup]. *)
Lemma cleanupTimers_held w h :
  retryTimeout (svc w) = Some h \/ awayTimeout (svc w) = Some h ->
  lookup h (cleanupTimers w) = None.
Proof.
  unfold cleanupTimers. intros [H|H]; rewrite H.
  - destruct (awayTimeout (svc w)); [apply lookup_drop_none|]; apply lookup_drop.
  - apply lookup_drop.
Qed.

(** ** App lifecycle changes *)

(** X4: when the app comes to the foreground on a bound session (with
    [online] allowed and [autoSetAway] on), the pending idle timer is
    cancelled first, the [online] record is written, and one new idle timer
    is armed with the configured [awayTimeout]; its handle replaces the old
    one. *)
Theorem foreground_writes_online_and_rearms w r u :
  bound w r u -> allowed w online -> autoSetAway (config (svc w)) = true ->
  currentPresenceState (svc (appStateListener active w)) = online /\
  awayTimeout (svc (appStateListener active w)) = Some (S (fresh w)) /\
  timers (appStateListener active w)
    = (S (fresh w), AwayTimer) :: timersAfterCancelAway w /\
  trace (appStateListener active w)
    = trace w ++ cancelAway w
      ++ [StoreSet (fresh w) r (mkPresenceData online (uid u) None);
          SetTimeout (S (fresh w)) AwayTimer
                     (Finite (awayTimeout_ms (config (svc w))))].
Proof.
  intros [Hr Hu] Ha Haway. unfold appStateListener, handleAppStateChange.
  rewrite Hr, Hu. cbn [isSome andb].
  unfold cancelAway, timersAfterCancelAway.
  destruct (awayTimeout (svc w)) as [h|] eqn:Hh.
  - rewrite (setPresenceState_bound _ r u online None KDetached);
      [| split; assumption | exact Ha].
    unfold setupAwayTimer.
    cbn [svc upd suspend config clearTimeout set_currentPresenceState set_awayTimeout].
    rewrite Haway. cbn. repeat rewrite <- app_assoc. repeat split.
  - rewrite (setPresenceState_bound _ r u online None KDetached);
      [| split; assumption | exact Ha].
    unfold setupAwayTimer.
    cbn [svc upd suspend config clearTimeout set_currentPresenceState set_awayTimeout].
    rewrite Haway. cbn. repeat rewrite <- app_assoc. repeat split.
Qed.

Lemma foreground_writes_online_and_rearms_witness :
  bound boundWorld "presence/A"%string alice /\
  allowed boundWorld online /\
  autoSetAway (config (svc boundWorld)) = true /\
  trace (appStateListener active boundWorld)
    = trace boundWorld ++ [ClearTimeout 3%nat]
      ++ [StoreSet 4 "presence/A"%string (mkPresenceData online "A"%string None);
          SetTimeout 5%nat AwayTimer (Finite 300000)].
Proof.
  split; [exact boundWorld_bound|]. split; [reflexivity|]. split; [reflexivity|].
  apply (foreground_writes_online_and_rearms boundWorld "presence/A"%string alice
           boundWorld_bound eq_refl eq_refl).
Defined.

(** X5: when the app goes to the background or becomes inactive on a
    bound session (with [offline] allowed), the pending idle timer is
    cancelled and not re-armed, and the [offline] record is written; no
    deferred write is registered or cancelled.  With no binding or no
    identity a lifecycle change does nothing at all. *)
Theorem background_writes_offline w r u s :
  s = background \/ s = inactive ->
  (bound w r u -> allowed w offline ->
   currentPresenceState (svc (appStateListener s w)) = offline /\
   awayTimeout (svc (appStateListener s w)) = None /\
   timers (appStateListener s w) = timersAfterCancelAway w /\
   trace (appStateListener s w)
     = trace w ++ cancelAway w
       ++ [StoreSet (fresh w) r (mkPresenceData offline (uid u) None)]) /\
  (userRef (svc w) = None \/ currentUser (svc w) = None ->
   forall s', appStateListener s' w = w).
Proof.
  intros Hs. split.
  - intros [Hr Hu] Ha. unfold appStateListener, handleAppStateChange.
    rewrite Hr, Hu. cbn [isSome andb].
    unfold cancelAway, timersAfterCancelAway.
    destruct (awayTimeout (svc w)) as [h|] eqn:Hh;
      destruct Hs as [-> | ->];
      (rewrite (setPresenceState_bound _ r u offline None KDetached);
       [| split; assumption | exact Ha]);
      cbn; repeat rewrite <- app_assoc; repeat split; assumption.
  - intros Hno s'. unfold appStateListener.
    destruct Hno as [H|H]; rewrite H; [rewrite andb_false_r|]; reflexivity.
Qed.

Lemma background_writes_offline_witness :
  bound boundWorld "presence/A"%string alice /\
  allowed boundWorld offline /\
  trace (appStateListener background boundWorld)
    = trace boundWorld ++ [ClearTimeout 3%nat]
      ++ [StoreSet 4 "presence/A"%string (mkPresenceData offline "A"%string None)] /\
  appStateListener background unboundWorld = unboundWorld.
Proof.
  destruct (background_writes_offline boundWorld "presence/A"%string alice background
              (or_introl eq_refl)) as [Hb _].
  destruct (background_writes_offline unboundWorld "presence/A"%string alice background
              (or_introl eq_refl)) as [_ Hn].
  split; [exact boundWorld_bound|]. split; [reflexivity|].
  split.
  - apply (Hb boundWorld_bound eq_refl).
  - apply Hn. left. reflexivity.
Defined.

(** ** Identity changes *)

(** X6: a sign-in of an identity other than the one being set up, with no
    binding in progress, the store handle present and [online] among the
    allowed states, first tears the old binding down (unsubscribe, cancel
    of the deferred write, cancel of the held timers, reset status to the
    listeners) and only then subscribes to the connectivity signal and
    writes [online] at the new identity's path [databasePath/uid]. *)
Theorem sign_in_rebinds w b :
  uid_differs (uid b) (currentSetupUid (svc w)) = true ->
  setupInProgress (svc w) = false ->
  truthy (database (config (svc w))) = true ->
  allowed w online ->
  userRef (svc (handleAuthStateChange (Some b) w)) = Some (userPath w (uid b)) /\
  currentUser (svc (handleAuthStateChange (Some b) w)) = Some b /\
  currentSetupUid (svc (handleAuthStateChange (Some b) w)) = Some (uid b) /\
  connectedListener (svc (handleAuthStateChange (Some b) w)) = Some connectedPath /\
  currentPresenceState (svc (handleAuthStateChange (Some b) w)) = online /\
  setupInProgress (svc (handleAuthStateChange (Some b) w)) = true /\
  timers (handleAuthStateChange (Some b) w) = cleanupTimers w /\
  trace (handleAuthStateChange (Some b) w)
    = trace w ++ cleanupCalls w
      ++ map (fun cb => Notify cb (resetStatus w)) (listeners (svc w))
      ++ [OnValue connectedPath;
          StoreSet (fresh w) (userPath w (uid b))
                   (mkPresenceData online (uid b) None)].
Proof.
  intros Hdiff Hp Hd Ha. unfold handleAuthStateChange. rewrite Hdiff.
  unfold setupPresence.
  set (w2 := upd (set_currentSetupUid (Some (uid b))) (upd (set_currentUser (Some b)) w)).
  change (setupInProgress (svc w2)) with (setupInProgress (svc w)). rewrite Hp.
  change (database (config (svc (upd (set_setupInProgress true) w2))))
    with (database (config (svc w))).
  rewrite Hd. cbv zeta. cbn [negb]. rewrite cleanup_world.
  cbn [svc upd emit emits userRef set_connectedListener set_connectedRef set_userRef
       cleanupService].
  rewrite (setPresenceState_bound _ (userPath w (uid b)) b online None KSetup);
    [| split; reflexivity | exact Ha].
  cbn. unfold cleanupTimers, cleanupCalls, userPath. cbn.
  repeat rewrite <- app_assoc. repeat split.
Qed.

Lemma sign_in_rebinds_witness :
  uid_differs (uid bob) (currentSetupUid (svc boundWorld)) = true /\
  setupInProgress (svc boundWorld) = false /\
  truthy (database (config (svc boundWorld))) = true /\
  allowed boundWorld online /\
  userRef (svc (handleAuthStateChange (Some bob) boundWorld))
    = Some "presence/B"%string /\
  trace (handleAuthStateChange (Some bob) boundWorld)
    = trace boundWorld
      ++ [OffValue connectedPath; OnDisconnectCancel "presence/A"%string;
          ClearTimeout 3%nat]
      ++ []
      ++ [OnValue connectedPath;
          StoreSet 4 "presence/B"%string (mkPresenceData online "B"%string None)].
Proof.
  destruct (sign_in_rebinds boundWorld bob eq_refl eq_refl eq_refl eq_refl)
    as (Hr & _ & _ & _ & _ & _ & _ & Ht).
  split; [reflexivity|]. split; [reflexivity|]. split; [reflexivity|].
  split; [reflexivity|]. split; [exact Hr | exact Ht].
Defined.

(** X7: while a binding is in progress the re-entrancy guard drops the
    binding of any other identity too: the sign-in only replaces the
    recorded identity, and the binding reference stays the previous
    identity's.  A state set afterwards is written at the previous
    identity's path with the new identity's id. *)
Theorem sign_in_during_setup_keeps_old_binding w r a b s cd c :
  setupInProgress (svc w) = true ->
  bound w r a ->
  uid_differs (uid b) (currentSetupUid (svc w)) = true ->
  allowed w s ->
  handleAuthStateChange (Some b) w
    = upd (set_currentSetupUid (Some (uid b))) (upd (set_currentUser (Some b)) w) /\
  userRef (svc (handleAuthStateChange (Some b) w)) = Some r /\
  trace (setPresenceState s cd (KCaller c) (handleAuthStateChange (Some b) w))
    = trace w ++ [StoreSet (fresh w) r (mkPresenceData s (uid b) cd)].
Proof.
  intros Hp [Hr Ha] Hdiff Hs.
  assert (E : handleAuthStateChange (Some b) w
              = upd (set_currentSetupUid (Some (uid b)))
                    (upd (set_currentUser (Some b)) w)).
  { unfold handleAuthStateChange. rewrite Hdiff. unfold setupPresence.
    change (setupInProgress
              (svc (upd (set_currentSetupUid (Some (uid b)))
                        (upd (set_currentUser (Some b)) w))))
      with (setupInProgress (svc w)).
    rewrite Hp. reflexivity. }
  rewrite E. split; [reflexivity|]. split; [exact Hr|].
  rewrite (setPresenceState_bound _ r b s cd (KCaller c));
    [reflexivity | split; [exact Hr | reflexivity] | exact Hs].
Qed.

(** A session whose first write is still in flight. *)
Lemma sign_in_during_setup_keeps_old_binding_witness :
  exists w,
    run (started validCfg) [EvAuth (Some alice)] = Some w /\
    setupInProgress (svc w) = true /\
    bound w "presence/A"%string alice /\
    userRef (svc (handleAuthStateChange (Some bob) w)) = Some "presence/A"%string /\
    trace (setPresenceState busy None (KCaller 7) (handleAuthStateChange (Some bob) w))
      = trace w ++ [StoreSet (fresh w) "presence/A"%string
                             (mkPresenceData busy "B"%string None)].
Proof.
  eexists. split; [vm_compute; reflexivity|].
  split; [reflexivity|]. split; [split; reflexivity|].
  match goal with
  | |- userRef (svc (handleAuthStateChange _ ?w)) = _ /\ _ =>
      destruct (sign_in_during_setup_keeps_old_binding w "presence/A"%string alice bob
                  busy None 7%nat eq_refl (conj eq_refl eq_refl) eq_refl eq_refl)
        as (_ & Hr & Ht)
  end.
  split; [exact Hr | exact Ht].
Defined.

(** ** [destroy] *)

Lemma destroy_throws_world w :
  appStateUnsubscribe (svc w) = true ->
  destroy w = (halfDestroyedWorld w, Throw notAFunction).
Proof.
  intros Ha. unfold destroy, halfDestroyedWorld, destroyCalls.
  destruct (authUnsubscribe (svc w)) eqn:Ea;
    cbn [svc upd emit emits appStateUnsubscribe set_authUnsubscribe];
    rewrite Ha; [reflexivity|].
  f_equal. apply world_eq; cbn [svc timers suspended fresh trace];
    try reflexivity; [|symmetry; apply app_nil_r].
  apply service_eq; cbn; first [reflexivity | exact Ea].
Qed.

Lemma destroy_returns_world w :
  appStateUnsubscribe (svc w) = false ->
  destroy w = (destroyedWorld w, Normal tt).
Proof.
  intros Ha. unfold destroy, destroyedWorld.
  set (w1 := if authUnsubscribe (svc w) then _ else w).
  assert (H1 : set_authUnsubscribe (authUnsubscribe (svc w)) (svc w1)
               = set_authUnsubscribe (authUnsubscribe (svc w)) (svc w) /\
               timers w1 = timers w /\ suspended w1 = suspended w /\
               fresh w1 = fresh w /\ trace w1 = trace w ++ destroyCalls w /\
               authUnsubscribe (svc w1) = false /\
               appStateUnsubscribe (svc w1) = false).
  { subst w1. unfold destroyCalls.
    destruct (authUnsubscribe (svc w)) eqn:Ea;
      cbn [svc upd emit emits appStateUnsubscribe set_authUnsubscribe timers suspended
           fresh trace authUnsubscribe];
      rewrite ?app_nil_r; repeat split; assumption. }
  clearbody w1. destruct H1 as (Hs & Hti & Hsu & Hf & Htr & Hau & Hap).
  rewrite Hap.
  assert (Hc : cleanupCalls w1 = cleanupCalls w /\ cleanupTimers w1 = cleanupTimers w /\
               resetStatus w1 = resetStatus w /\ listeners (svc w1) = listeners (svc w) /\
               config (svc w1) = config (svc w) /\
               currentUser (svc w1) = currentUser (svc w) /\
               setupInProgress (svc w1) = setupInProgress (svc w) /\
               currentSetupUid (svc w1) = currentSetupUid (svc w) /\
               currentPresenceState (svc w1) = currentPresenceState (svc w)).
  { unfold cleanupCalls, cleanupTimers, resetStatus. rewrite Hti.
    pose proof (f_equal connectedListener Hs) as E1.
    pose proof (f_equal userRef Hs) as E2.
    pose proof (f_equal retryTimeout Hs) as E3.
    pose proof (f_equal awayTimeout Hs) as E4.
    pose proof (f_equal connectionStatus Hs) as E5.
    pose proof (f_equal listeners Hs) as E6.
    pose proof (f_equal config Hs) as E7.
    pose proof (f_equal currentUser Hs) as E8.
    pose proof (f_equal setupInProgress Hs) as E9.
    pose proof (f_equal currentSetupUid Hs) as E10.
    pose proof (f_equal currentPresenceState Hs) as E11.
    cbn in E1, E2, E3, E4, E5, E6, E7, E8, E9, E10, E11.
    rewrite E1, E2, E3, E4, E5. repeat split; assumption. }
  destruct Hc as (C1 & C2 & C3 & C4 & C5 & C6 & C7 & C8 & C9).
  rewrite cleanup_world. f_equal.
  apply world_eq; cbn [svc upd timers suspended fresh trace].
  - apply service_eq; unfold destroyedService, cleanupService; cbn;
      first [reflexivity | assumption].
  - exact C2.
  - exact Hsu.
  - exact Hf.
  - rewrite Htr, C1, C3, C4. rewrite <- !app_assoc. reflexivity.
Qed.

Lemma destroy_stopped w :
  appStateUnsubscribe (svc w) = false ->
  initPromise (svc (fst (destroy w))) = None /\
  initialized (svc (fst (destroy w))) = false /\
  userRef (svc (fst (destroy w))) = None /\
  connectedListener (svc (fst (destroy w))) = None /\
  authUnsubscribe (svc (fst (destroy w))) = false.
Proof. intros Ha. rewrite (destroy_returns_world w Ha). repeat split. Qed.

(** X8: what [destroy] does depends on the app-lifecycle subscription.  On
    a service that holds it, [destroy] ends the identity subscription and
    then throws a [TypeError]: the binding, the connectivity subscription,
    the timers, the listeners and the memoised initialisation are all
    kept.  On a service that does not hold it, [destroy] returns and
    releases everything: the binding reference, the connectivity
    subscription, both timer handles (the timers behind them are no longer
    live), every listener registration, the memoised initialisation; the
    status is reset, the recorded identity and the current presence state
    are kept. *)
Theorem destroy_releases w :
  (appStateUnsubscribe (svc w) = true ->
   destroy w = (halfDestroyedWorld w, Throw notAFunction) /\
   svc (fst (destroy w)) = set_authUnsubscribe false (svc w) /\
   timers (fst (destroy w)) = timers w /\
   suspended (fst (destroy w)) = suspended w /\
   trace (fst (destroy w))
     = trace w ++ (if authUnsubscribe (svc w) then [AuthUnsubscribed] else [])) /\
  (appStateUnsubscribe (svc w) = false ->
   snd (destroy w) = Normal tt /\
   userRef (svc (fst (destroy w))) = None /\
   connectedListener (svc (fst (destroy w))) = None /\
   retryTimeout (svc (fst (destroy w))) = None /\
   awayTimeout (svc (fst (destroy w))) = None /\
   listeners (svc (fst (destroy w))) = [] /\
   presenceListeners (svc (fst (destroy w))) = [] /\
   initialized (svc (fst (destroy w))) = false /\
   initPromise (svc (fst (destroy w))) = None /\
   authUnsubscribe (svc (fst (destroy w))) = false /\
   connectionStatus (svc (fst (destroy w))) = resetStatus w /\
   (forall h, retryTimeout (svc w) = Some h \/ awayTimeout (svc w) = Some h ->
              lookup h (timers (fst (destroy w))) = None) /\
   currentUser (svc (fst (destroy w))) = currentUser (svc w) /\
   currentSetupUid (svc (fst (destroy w))) = currentSetupUid (svc w) /\
   currentPresenceState (svc (fst (destroy w))) = currentPresenceState (svc w)).
Proof.
  split; intros Ha.
  - rewrite (destroy_throws_world w Ha). repeat split.
  - rewrite (destroy_returns_world w Ha).
    cbn [fst snd svc timers trace destroyedWorld destroyedService userRef
      connectedListener retryTimeout awayTimeout listeners presenceListeners
      initialized initPromise authUnsubscribe appStateUnsubscribe connectionStatus
      currentUser currentSetupUid currentPresenceState].
    repeat (split; [reflexivity|]).
    split; [intros h Hh; apply cleanupTimers_held; exact Hh|].
    repeat split.
Qed.

(** X9: a second [destroy] changes nothing more: it leaves the world as the
    first call left it, calls no collaborator, and returns or throws as
    the first call did. *)
Theorem destroy_idempotent w : destroy (fst (destroy w)) = destroy w.
Proof.
  destruct (appStateUnsubscribe (svc w)) eqn:Ha.
  - rewrite (destroy_throws_world w Ha). cbn [fst].
    rewrite (destroy_throws_world (halfDestroyedWorld w)) by exact Ha.
    f_equal. unfold halfDestroyedWorld, destroyCalls.
    cbn. rewrite app_nil_r. reflexivity.
  - rewrite (destroy_returns_world w Ha). cbn [fst].
    rewrite (destroy_returns_world (destroyedWorld w)) by reflexivity.
    f_equal. unfold destroyedWorld, destroyedService, cleanupTimers, destroyCalls,
      cleanupCalls, resetStatus.
    cbn. rewrite !app_nil_r. reflexivity.
Qed.

(** X10: on a service that was never initialised, [destroy] clears the
    memoised rejection of the initialisation, so the next subscription to
    the connection status initialises again: with a configuration that is
    valid by then, it subscribes to the identity provider and the app
    lifecycle, and the new listener, the only one left, is handed the reset
    status. *)
Theorem subscribe_after_destroy_restarts w cb :
  appStateUnsubscribe (svc w) = false ->
  FirebaseValidator.validateConfig (config (svc w)) = Normal tt ->
  initialized (svc (subscribeToConnectionStatus cb (fst (destroy w)))) = true /\
  authUnsubscribe (svc (subscribeToConnectionStatus cb (fst (destroy w)))) = true /\
  appStateUnsubscribe (svc (subscribeToConnectionStatus cb (fst (destroy w)))) = true /\
  initPromise (svc (subscribeToConnectionStatus cb (fst (destroy w)))) = Some Resolved /\
  listeners (svc (subscribeToConnectionStatus cb (fst (destroy w)))) = [cb] /\
  trace (subscribeToConnectionStatus cb (fst (destroy w)))
    = trace (fst (destroy w))
      ++ [AuthSubscribed; AppStateSubscribed; Notify cb (resetStatus w)].
Proof.
  intros Ha Hv.
  destruct (validateConfig_accepts (config (svc w)) Hv) as (Hf & Hd & Hu).
  rewrite (destroy_returns_world w Ha). cbn [fst].
  unfold subscribeToConnectionStatus, initialize_logged, initialize, _initialize,
    destroyedWorld. cbn.
  rewrite Hv. rewrite Hu, Hd. cbn. repeat rewrite <- app_assoc. repeat split.
Qed.

(** ** What the inner handlers leave alone *)

Lemma adds_refl P w : adds P w w.
Proof. exists []. split; [symmetry; apply app_nil_r | reflexivity]. Qed.

Lemma adds_trans P w1 w2 w3 : adds P w1 w2 -> adds P w2 w3 -> adds P w1 w3.
Proof.
  intros (l1 & H1 & F1) (l2 & H2 & F2). exists (l1 ++ l2). split.
  - rewrite H2, H1. symmetry. apply app_assoc.
  - rewrite forallb_app, F1, F2. reflexivity.
Qed.

Lemma adds_weaken (P Q : Effect -> bool) w w' :
  (forall e, P e = true -> Q e = true) -> adds P w w' -> adds Q w w'.
Proof.
  intros HPQ (l & H & F). exists l. split; [exact H|].
  apply forallb_forall. intros e He. apply HPQ.
  exact (proj1 (forallb_forall P l) F e He).
Qed.

Lemma adds_same P w w' : trace w' = trace w -> adds P w w'.
Proof. intros H. exists []. rewrite H, app_nil_r. split; reflexivity. Qed.

Lemma adds_one P e w w' : trace w' = trace w ++ [e] -> P e = true -> adds P w w'.
Proof. intros H He. exists [e]. split; [exact H | cbn; rewrite He; reflexivity]. Qed.

Lemma scheduleRetry_inner w :
  adds isLocal w (scheduleRetry w) /\
  lifecycle (svc (scheduleRetry w)) = lifecycle (svc w).
Proof.
  unfold scheduleRetry. destruct (_ || _).
  - split; [apply adds_refl | reflexivity].
  - split; [|reflexivity]. eapply adds_one; reflexivity.
Qed.

Lemma handleSetupError_inner w :
  adds isLocal w (handleSetupError w) /\
  lifecycle (svc (handleSetupError w)) = lifecycle (svc w).
Proof.
  unfold handleSetupError.
  set (w1 := upd (set_retryCount (retryCount (connectionStatus (svc w)) + 1)) w).
  destruct (_ <? _).
  - destruct (scheduleRetry_inner w1) as [Ha Hl]. split; [exact Ha | exact Hl].
  - split; [apply adds_same; reflexivity | reflexivity].
Qed.

Lemma handleConnectionError_inner w :
  adds isLocal w (handleConnectionError w) /\
  lifecycle (svc (handleConnectionError w)) = lifecycle (svc w).
Proof.
  unfold handleConnectionError.
  set (w1 := upd (set_retryCount (retryCount (connectionStatus (svc w)) + 1)) w).
  destruct (scheduleRetry_inner w1) as [Ha Hl]. split; [exact Ha | exact Hl].
Qed.

Lemma setupAwayTimer_inner w :
  adds isLocal w (setupAwayTimer w) /\
  lifecycle (svc (setupAwayTimer w)) = lifecycle (svc w).
Proof.
  unfold setupAwayTimer. destruct (negb _).
  - split; [apply adds_refl | reflexivity].
  - split; [|reflexivity]. eapply adds_one; reflexivity.
Qed.

Lemma setupPresence_resume_inner o w :
  adds isLocal w (setupPresence_resume o w) /\
  lifecycle (svc (setupPresence_resume o w)) = lifecycle (svc w).
Proof.
  destruct o; cbn [setupPresence_resume].
  - destruct (setupAwayTimer_inner w) as [Ha Hl]. split; [exact Ha | exact Hl].
  - unfold setupPresence_catch.
    destruct (handleSetupError_inner (upd (set_userRef None) w)) as [Ha Hl].
    split; [exact Ha | exact Hl].
Qed.

Lemma settle_inner k o w :
  adds isLocal w (settle k o w) /\
  lifecycle (svc (settle k o w)) = lifecycle (svc w).
Proof.
  destruct k; cbn [settle].
  - destruct o; (split; [|reflexivity]);
      [apply adds_refl | eapply adds_one; reflexivity].
  - split; [|reflexivity]. eapply adds_one; reflexivity.
  - apply setupPresence_resume_inner.
Qed.

Lemma setPresenceState_inner s cd k w :
  adds isLocalOrStore w (setPresenceState s cd k w) /\
  lifecycle (svc (setPresenceState s cd k w)) = lifecycle (svc w).
Proof.
  assert (Hs : forall o, adds isLocalOrStore w (settle k o w) /\
                         lifecycle (svc (settle k o w)) = lifecycle (svc w)).
  { intros o. destruct (settle_inner k o w) as [Ha Hl]. split; [|exact Hl].
    apply (adds_weaken isLocal); [|exact Ha].
    intros e He. unfold isLocalOrStore. rewrite He. reflexivity. }
  unfold setPresenceState.
  destruct (userRef (svc w)); [|apply Hs].
  destruct (currentUser (svc w)); [|apply Hs].
  destruct (negb _); [apply Hs|].
  split; [|reflexivity]. eapply adds_one; reflexivity.
Qed.

Lemma resume_inner p r w :
  adds isLocalOrStore w (resume p r w) /\
  lifecycle (svc (resume p r w)) = lifecycle (svc w).
Proof.
  assert (Hs : forall k o, adds isLocalOrStore w (settle k o w) /\
                           lifecycle (svc (settle k o w)) = lifecycle (svc w)).
  { intros k o. destruct (settle_inner k o w) as [Ha Hl]. split; [|exact Hl].
    apply (adds_weaken isLocal); [|exact Ha].
    intros e He. unfold isLocalOrStore. rewrite He. reflexivity. }
  destruct p as [s cd k|k], r as [|cause]; cbn [resume]; try apply Hs.
  destruct (PState_eqb s online); [|apply Hs].
  destruct (userRef (svc w)); [|apply Hs].
  destruct (currentUser (svc w)); [|apply Hs].
  split; [|reflexivity]. eapply adds_one; reflexivity.
Qed.

(** Without a binding or an identity the writer and its continuations call
    the store no more. *)
Lemma setPresenceState_unbound_local s cd k w :
  userRef (svc w) = None \/ currentUser (svc w) = None ->
  adds isLocal w (setPresenceState s cd k w).
Proof.
  intros H. rewrite setPresenceState_unbound by exact H. apply settle_inner.
Qed.

Lemma resume_unbound_local p r w :
  userRef (svc w) = None -> adds isLocal w (resume p r w).
Proof.
  intros Hr. destruct p as [s cd k|k], r as [|cause]; cbn [resume];
    try apply settle_inner.
  destruct (PState_eqb s online); [|apply settle_inner].
  rewrite Hr. apply settle_inner.
Qed.

(** ** Reconnecting before the retry timer fires *)

Lemma setPresenceState_detached_svc s cd k w :
  k <> KSetup ->
  (svc (setPresenceState s cd k w) = svc w \/
   svc (setPresenceState s cd k w) = set_currentPresenceState s (svc w)) /\
  timers (setPresenceState s cd k w) = timers w.
Proof.
  intros Hk.
  assert (Hs : forall o, svc (settle k o w) = svc w /\ timers (settle k o w) = timers w).
  { intros o. destruct k; [destruct o| |congruence]; split; reflexivity. }
  unfold setPresenceState.
  destruct (userRef (svc w));
    [|destruct (Hs Resolved) as [H1 H2]; split; [left; exact H1 | exact H2]].
  destruct (currentUser (svc w));
    [|destruct (Hs Resolved) as [H1 H2]; split; [left; exact H1 | exact H2]].
  destruct (negb _).
  - destruct (Hs (Rejected (invalidState s))) as [H1 H2].
    split; [left; exact H1 | exact H2].
  - split; [right; reflexivity | reflexivity].
Qed.

Lemma handleConnectionChange_true_fields now w :
  timers (handleConnectionChange true now w) = timers w /\
  connectionStatus (svc (handleConnectionChange true now w))
    = mkStatus true (Some now) 0 /\
  retryTimeout (svc (handleConnectionChange true now w)) = retryTimeout (svc w) /\
  currentUser (svc (handleConnectionChange true now w)) = currentUser (svc w).
Proof.
  unfold handleConnectionChange. cbn [negb].
  set (w1a := upd (set_retryCount 0) _).
  unfold notifyConnectionListeners. cbn [emits svc timers].
  destruct (_ && _); [|repeat split].
  destruct (setPresenceState_detached_svc
              (currentOrOnline (currentPresenceState (svc w1a))) None KDetached w1a)
    as [[Hs|Hs] Ht]; try discriminate; rewrite Hs, Ht; repeat split.
Qed.

(** X11: if the store is observed connected again before a pending retry
    timer fires, the timer, when it fires, only clears its handle: no
    binding is torn down or set up, nothing is subscribed or written. *)
Theorem reconnect_makes_retry_a_noop w h now :
  lookup h (timers w) = Some RetryTimer ->
  connectedListener (svc w) <> None ->
  exists w1 w2,
    step w (EvConnected true now) = Some w1 /\
    step w1 (EvTimer h) = Some w2 /\
    trace w2 = trace w1 /\
    svc w2 = set_retryTimeout None (svc w1) /\
    lookup h (timers w2) = None /\
    connectionStatus (svc w2) = mkStatus true (Some now) 0.
Proof.
  intros Hl Hc.
  destruct (handleConnectionChange_true_fields now w) as (Ht & Hs & _ & _).
  exists (handleConnectionChange true now w).
  set (w1 := handleConnectionChange true now w) in *.
  exists (mkWorld (set_retryTimeout None (svc w1)) (drop h (timers w1)) (suspended w1)
                  (fresh w1) (trace w1)).
  split.
  { cbn [step]. destruct (connectedListener (svc w)); [reflexivity | congruence]. }
  clearbody w1. cbn [step]. unfold fire. rewrite Ht, Hl. unfold retryTimerFired.
  cbn [svc upd currentUser set_retryTimeout connectionStatus].
  rewrite Hs. cbn [isConnected negb].
  split; [destruct (currentUser (svc w1)); reflexivity|].
  cbn. repeat split. apply lookup_drop.
Qed.

(** ** A failed initialisation is memoised *)

Lemma started_initFailed p : missingRequired p -> initFailed (started p).
Proof.
  intros H. unfold missingRequired in H.
  unfold initFailed, started, constructor, initialize, _initialize,
    FirebaseValidator.validateConfig, configurationError.
  cbn.
  destruct (truthy (pick (p_firebaseApp p) JUndefined)) eqn:Ha; cbn.
  2:{ split; [eexists; split; [|reflexivity]; simpl; auto | repeat split]. }
  destruct (truthy (pick (p_database p) JUndefined)) eqn:Hd; cbn.
  2:{ split; [eexists; split; [|reflexivity]; simpl; auto | repeat split]. }
  destruct (truthy (pick (p_auth p) JUndefined)) eqn:Hu; cbn.
  2:{ split; [eexists; split; [|reflexivity]; simpl; auto | repeat split]. }
  destruct H as [H|[H|H]]; discriminate.
Qed.

Lemma initialize_logged_failed w err :
  initPromise (svc w) = Some (Rejected err) ->
  exists e, initialize_logged w = emit (UnhandledRejection e) w.
Proof.
  intros Hp. unfold initialize_logged, initialize. rewrite Hp.
  eexists. reflexivity.
Qed.

Lemma initFailed_frame w m l :
  initFailed w ->
  forallb (fun e => negb (isStoreCall e || isLifecycleSub e)) l = true ->
  initFailed (mkWorld (set_presenceListeners m (svc w)) (timers w) (suspended w)
                      (fresh w) (trace w ++ l)).
Proof.
  intros (He & Hi & Hau & Hap & Hc & Hr & Hti & Hsu & Htr) Hl.
  unfold initFailed. cbn [svc timers suspended trace].
  repeat (split; [assumption|]). rewrite forallb_app, Htr, Hl. reflexivity.
Qed.

Lemma step_initFailed w e w' :
  initFailed w -> isDestroy e = false -> step w e = Some w' -> initFailed w'.
Proof.
  intros (He & Hi & Hau & Hap & Hc & Hr & Hti & Hsu & Htr) Hd Hstep.
  destruct e; cbn [step] in Hstep; try discriminate Hd.
  - rewrite Hau in Hstep. discriminate.
  - rewrite Hap in Hstep. discriminate.
  - rewrite Hc in Hstep. discriminate.
  - rewrite Hc in Hstep. discriminate.
  - unfold fire in Hstep. rewrite Hti in Hstep. discriminate.
  - unfold reply in Hstep. rewrite Hsu in Hstep. discriminate.
  - injection Hstep as <-.
    rewrite setPresenceState_unbound by (left; exact Hr).
    cbn [settle]. unfold initFailed, emit, emits. cbn [svc timers suspended trace].
    repeat (split; [assumption|]).
    rewrite forallb_app, Htr. reflexivity.
  - injection Hstep as <-. unfold subscribeToConnectionStatus.
    destruct He as (err & Hce & Hp).
    destruct (initialize_logged_failed w err Hp) as (e' & ->).
    unfold initFailed, emit, emits, upd. cbn.
    split; [exists err; split; assumption|].
    repeat (split; [assumption|]).
    rewrite !forallb_app, Htr. reflexivity.
  - injection Hstep as <-. unfold unsubscribeFromConnectionStatus, initFailed, upd.
    cbn. repeat split; assumption.
  - injection Hstep as <-.
    destruct (subscribeToUserPresence_shape userId cb w) as (m & l & -> & Hl).
    destruct He as (err & Hce & Hp).
    destruct (initialize_logged_failed w err Hp) as (e' & ->).
    apply (initFailed_frame (emit (UnhandledRejection e') w)).
    + unfold initFailed, emit, emits. cbn [svc timers suspended trace].
      split; [exists err; split; assumption|].
      repeat (split; [assumption|]).
      rewrite forallb_app, Htr. reflexivity.
    + destruct Hl as [->|[r ->]]; reflexivity.
  - injection Hstep as <-.
    destruct (runUnsubscribe_shape u w) as (m & l & -> & Hl).
    apply initFailed_frame.
    + repeat split; assumption.
    + destruct Hl as [->|[r ->]]; reflexivity.
  - injection Hstep as <-. unfold updateConfig, initFailed, upd.
    cbn. repeat split; assumption.
Qed.

(** X12: when construction found a required handle missing, the rejected
    initialisation stays memoised: whatever is called afterwards, short of
    [destroy], the service stays uninitialised, holds no identity,
    app-lifecycle or connectivity subscription, no binding, no timer and no
    pending write, writes nothing to the store and never subscribes to the
    identity provider or the app lifecycle, even after [updateConfig] has
    supplied the missing handles.  (With a store handle
    [subscribeToUserPresence] still opens its store subscriptions.) *)
Theorem failed_initialisation_is_never_retried p es w :
  missingRequired p ->
  forallb (fun e => negb (isDestroy e)) es = true ->
  run (started p) es = Some w ->
  initFailed w.
Proof.
  intros Hm. pose proof (started_initFailed p Hm) as H0.
  generalize dependent (started p). clear Hm.
  induction es as [|e es IH]; intros w0 H0 Hall Hrun; cbn in Hrun.
  - injection Hrun as <-. exact H0.
  - cbn in Hall. apply andb_true_iff in Hall. destruct Hall as [He Hall].
    destruct (step w0 e) as [w1|] eqn:Hstep; [|discriminate].
    apply (IH w1); [|exact Hall | exact Hrun].
    apply (step_initFailed w0 e w1 H0); [|exact Hstep].
    destruct (isDestroy e); [discriminate | reflexivity].
Qed.

Lemma failed_initialisation_is_never_retried_witness :
  missingRequired emptyCfg /\
  exists w,
    run (started emptyCfg) [EvUpdateConfig validCfg; EvSubscribe 1%nat;
                            EvSubscribeToUserPresence "B" 5%nat;
                            EvSetPresenceState 2 online None] = Some w /\
    FirebaseValidator.validateConfig (config (svc w)) = Normal tt /\
    initFailed w.
Proof.
  split; [left; reflexivity|].
  eexists. split; [vm_compute; reflexivity|]. split; [reflexivity|].
  apply (failed_initialisation_is_never_retried emptyCfg
           [EvUpdateConfig validCfg; EvSubscribe 1%nat;
            EvSubscribeToUserPresence "B" 5%nat;
            EvSetPresenceState 2 online None]);
    [left; reflexivity | reflexivity | vm_compute; reflexivity].
Defined.

Lemma destroy_releases_witness :
  appStateUnsubscribe (svc boundWorld) = true /\
  userRef (svc boundWorld) = Some "presence/A"%string /\
  destroy boundWorld = (halfDestroyedWorld boundWorld, Throw notAFunction) /\
  userRef (svc (fst (destroy boundWorld))) = Some "presence/A"%string /\
  appStateUnsubscribe (svc repairedWorld) = false /\
  initPromise (svc repairedWorld) <> None /\
  snd (destroy repairedWorld) = Normal tt /\
  initPromise (svc (fst (destroy repairedWorld))) = None.
Proof.
  destruct (destroy_releases boundWorld) as [Ht _].
  destruct (destroy_releases repairedWorld) as [_ Hr].
  destruct (Ht eq_refl) as (H1 & H2 & _).
  destruct (Hr eq_refl) as (R1 & _ & _ & _ & _ & _ & _ & _ & R9 & _).
  split; [reflexivity|]. split; [reflexivity|]. split; [exact H1|].
  split; [rewrite H2; reflexivity|]. split; [reflexivity|].
  split; [discriminate|]. split; [exact R1 | exact R9].
Defined.

Lemma subscribe_after_destroy_restarts_witness :
  appStateUnsubscribe (svc repairedWorld) = false /\
  FirebaseValidator.validateConfig (config (svc repairedWorld)) = Normal tt /\
  initialized (svc repairedWorld) = false /\
  initialized (svc (subscribeToConnectionStatus 9%nat (fst (destroy repairedWorld))))
    = true.
Proof.
  split; [reflexivity|]. split; [reflexivity|]. split; [reflexivity|].
  exact (proj1 (subscribe_after_destroy_restarts repairedWorld 9%nat eq_refl eq_refl)).
Defined.

Lemma reconnect_makes_retry_a_noop_witness :
  exists w,
    run boundWorld [EvConnected false 20] = Some w /\
    lookup 4%nat (timers w) = Some RetryTimer /\
    connectedListener (svc w) <> None /\
    exists w1 w2,
      step w (EvConnected true 30) = Some w1 /\
      step w1 (EvTimer 4%nat) = Some w2 /\
      trace w2 = trace w1.
Proof.
  eexists. split; [vm_compute; reflexivity|].
  split; [reflexivity|]. split; [discriminate|].
  match goal with
  | |- exists w1 w2, step ?w _ = _ /\ _ =>
      destruct (reconnect_makes_retry_a_noop w 4%nat 30 eq_refl)
        as (w1 & w2 & H1 & H2 & H3 & _); [discriminate|]
  end.
  exists w1, w2. repeat split; assumption.
Defined.

(** ** Subscriptions made and ended *)

Lemma count_app P (a b : list Effect) : count P (a ++ b) = (count P a + count P b)%nat.
Proof.
  unfold count. induction a as [|e a IH]; [reflexivity|].
  cbn. destruct (P e); cbn; rewrite IH; reflexivity.
Qed.

Lemma count_none P (l : list Effect) :
  (forall e, In e l -> P e = false) -> count P l = 0%nat.
Proof.
  unfold count. induction l as [|e l IH]; intros H; [reflexivity|].
  cbn. rewrite (H e (or_introl eq_refl)). apply IH.
  intros e' He'. apply H. right. exact He'.
Qed.

Lemma adds_count P Q w w' :
  adds Q w w' -> (forall e, Q e = true -> P e = false) ->
  count P (trace w') = count P (trace w).
Proof.
  intros (l & Ht & Hl) HQ. rewrite Ht, count_app.
  rewrite (count_none P l); [apply Nat.add_0_r|].
  intros e He. apply HQ. exact (proj1 (forallb_forall Q l) Hl e He).
Qed.

Lemma quiet_trans w1 w2 w3 : quiet w1 w2 -> quiet w2 w3 -> quiet w1 w3.
Proof.
  intros [A1 L1] [A2 L2]. split; [exact (adds_trans _ _ _ _ A1 A2) | congruence].
Qed.

Lemma quiet_of_local w w' :
  adds isLocalOrStore w w' -> lifecycle (svc w') = lifecycle (svc w) -> quiet w w'.
Proof.
  intros A L. split; [|exact L].
  apply (adds_weaken isLocalOrStore); [|exact A].
  intros e. destruct e; cbn; intros H; first [reflexivity | discriminate H].
Qed.

Lemma quiet_of_local' w w' :
  adds isLocal w w' -> lifecycle (svc w') = lifecycle (svc w) -> quiet w w'.
Proof.
  intros A L. apply quiet_of_local; [|exact L].
  apply (adds_weaken isLocal); [|exact A].
  intros e He. unfold isLocalOrStore. rewrite He. reflexivity.
Qed.

Lemma quiet_notify w : quiet w (notifyConnectionListeners w).
Proof.
  split; [|reflexivity]. unfold notifyConnectionListeners.
  eexists. split; [reflexivity|].
  induction (listeners (svc w)) as [|cb l IH]; [reflexivity | exact IH].
Qed.

Lemma quiet_subscriptions w w' :
  quiet w w' -> subscriptions_match w -> subscriptions_match w'.
Proof.
  intros [A L] (H1 & H2 & H3 & H4 & H5).
  unfold lifecycle in L. injection L as _ _ _ La Lp Li Lip _ _ _ _.
  unfold subscriptions_match.
  rewrite !(adds_count _ _ w w' A), La, Lp, Li, Lip;
    try (intros e; destruct e; cbn; intros H; first [reflexivity | discriminate H]).
  repeat split; assumption.
Qed.

Lemma cleanupCalls_counts w :
  count isAuthSub (cleanupCalls w) = 0%nat /\
  count isAuthUnsub (cleanupCalls w) = 0%nat /\
  count isAppSub (cleanupCalls w) = 0%nat.
Proof.
  unfold cleanupCalls.
  destruct (connectedListener (svc w)), (userRef (svc w)), (retryTimeout (svc w)),
    (awayTimeout (svc w)); cbn; repeat split.
Qed.

Lemma destroyCalls_counts w :
  count isAuthSub (destroyCalls w) = 0%nat /\
  count isAuthUnsub (destroyCalls w) = b2n (authUnsubscribe (svc w)) /\
  count isAppSub (destroyCalls w) = 0%nat.
Proof.
  unfold destroyCalls.
  destruct (authUnsubscribe (svc w)); cbn; repeat split.
Qed.

(** Registering or dropping user-presence callbacks and opening or closing
    their store subscriptions leaves the lifecycle subscriptions alone. *)
Lemma frame_subscriptions w m l :
  subscriptions_match w ->
  (l = [] \/ (exists r, l = [OnValue r]) \/ (exists r, l = [OffValue r])) ->
  subscriptions_match
    (mkWorld (set_presenceListeners m (svc w)) (timers w) (suspended w) (fresh w)
             (trace w ++ l)).
Proof.
  intros (H1 & H2 & H3 & H4 & H5) Hl.
  unfold subscriptions_match.
  cbn [svc trace set_presenceListeners authUnsubscribe appStateUnsubscribe
       initialized initPromise].
  rewrite !count_app.
  assert (Hc : count isAuthSub l = 0%nat /\ count isAppSub l = 0%nat /\
               count isAuthUnsub l = 0%nat).
  { destruct Hl as [->|[[r ->]|[r ->]]]; repeat split. }
  destruct Hc as (-> & -> & ->). rewrite !Nat.add_0_r.
  repeat split; assumption.
Qed.

Lemma notify_counts P st (l : list Callback) :
  (forall cb s, P (Notify cb s) = false) ->
  count P (map (fun cb => Notify cb st) l) = 0%nat.
Proof.
  intros HP. apply count_none. intros e He. apply in_map_iff in He.
  destruct He as (cb & <- & _). apply HP.
Qed.

Lemma cleanup_subscriptions w :
  subscriptions_match w -> subscriptions_match (cleanup w).
Proof.
  intros (H1 & H2 & H3 & H4 & H5). rewrite cleanup_world.
  unfold subscriptions_match. cbn [svc trace cleanupService authUnsubscribe
    appStateUnsubscribe initialized initPromise].
  destruct (cleanupCalls_counts w) as (C1 & C2 & C3).
  rewrite !count_app, !notify_counts by reflexivity.
  rewrite C1, C2, C3, !Nat.add_0_r.
  repeat split; assumption.
Qed.

Lemma setupPresence_subscriptions id w :
  subscriptions_match w -> subscriptions_match (setupPresence id w).
Proof.
  intros Hinv. unfold setupPresence.
  destruct (setupInProgress (svc w)); [exact Hinv|].
  set (w1 := upd (set_setupInProgress true) w).
  assert (H1 : subscriptions_match w1) by exact Hinv.
  destruct (negb _).
  - unfold setupPresence_catch.
    destruct (handleSetupError_inner (upd (set_userRef None) w1)) as [A L].
    apply (quiet_subscriptions (upd (set_userRef None) w1)); [|exact H1].
    apply quiet_of_local'; [exact A | exact L].
  - cbv zeta. pose proof (cleanup_subscriptions w1 H1) as H2.
    revert H2. generalize (cleanup w1). intros w2 H2.
    cbn [negb userRef svc upd emit emits set_connectedListener set_connectedRef
         set_userRef].
    match goal with
    | |- subscriptions_match (setPresenceState ?s ?cd ?k ?w5) =>
        destruct (setPresenceState_inner s cd k w5) as [A L];
        apply (quiet_subscriptions w5); [apply quiet_of_local; assumption|]
    end.
    destruct H2 as (G1 & G2 & G3 & G4 & G5).
    unfold subscriptions_match. cbn -[count].
    rewrite !count_app. cbn. rewrite !Nat.add_0_r. repeat split; assumption.
Qed.

Lemma handleAuthStateChange_subscriptions user w :
  subscriptions_match w -> subscriptions_match (handleAuthStateChange user w).
Proof.
  intros Hinv.     unfold handleAuthStateChange. destruct user as [u|].
  + destruct (uid_differs _ _); [|exact Hinv].
    apply setupPresence_subscriptions. exact Hinv.
  + pose proof (cleanup_subscriptions (upd (set_currentSetupUid None) w) Hinv)
      as H2.
    revert H2. generalize (cleanup (upd (set_currentSetupUid None) w)). intros w2 H2.
    destruct (currentUser (svc (upd (set_currentSetupUid None) w)));
      [exact H2 | exact Hinv].
Qed.

Lemma appStateListener_subscriptions s w :
  subscriptions_match w -> subscriptions_match (appStateListener s w).
Proof.
  intros Hinv.     apply (quiet_subscriptions w); [|exact Hinv].
  unfold appStateListener. destruct (_ && _); [|split; [apply adds_refl | reflexivity]].
  unfold handleAppStateChange.
  set (w1 := match awayTimeout (svc w) with Some h => _ | None => w end).
  assert (H1 : quiet w w1).
  { subst w1. destruct (awayTimeout (svc w));
      [|split; [apply adds_refl | reflexivity]].
    split; [eapply adds_one; reflexivity | reflexivity]. }
  clearbody w1. apply (quiet_trans w w1); [exact H1|].
  destruct s.
  + apply (quiet_trans _ (setPresenceState online None KDetached w1)).
    * destruct (setPresenceState_inner online None KDetached w1).
      apply quiet_of_local; assumption.
    * destruct (setupAwayTimer_inner (setPresenceState online None KDetached w1)).
      apply quiet_of_local'; assumption.
  + destruct (setPresenceState_inner offline None KDetached w1).
    apply quiet_of_local; assumption.
  + destruct (setPresenceState_inner offline None KDetached w1).
    apply quiet_of_local; assumption.
  + split; [apply adds_refl | reflexivity].
  + split; [apply adds_refl | reflexivity].
Qed.

Lemma handleConnectionChange_subscriptions connected now w :
  subscriptions_match w -> subscriptions_match (handleConnectionChange connected now w).
Proof.
  intros Hinv.     apply (quiet_subscriptions w); [|exact Hinv].
  unfold handleConnectionChange. destruct connected; cbn [negb].
  + set (w1a := upd (set_retryCount 0) _).
    assert (H1 : quiet w w1a) by (split; [apply adds_same|]; reflexivity).
    apply (quiet_trans w w1a _ H1).
    destruct (_ && _); [|apply quiet_notify].
    eapply quiet_trans; [|apply quiet_notify].
    destruct (setPresenceState_inner
                (currentOrOnline (currentPresenceState (svc w1a))) None KDetached w1a).
    apply quiet_of_local; assumption.
  + set (w1 := upd (set_isConnected false) w).
    assert (H1 : quiet w w1) by (split; [apply adds_same|]; reflexivity).
    apply (quiet_trans w w1 _ H1).
    eapply quiet_trans; [apply quiet_notify|].
    destruct (scheduleRetry_inner (notifyConnectionListeners w1)).
    apply quiet_of_local'; assumption.
Qed.

Lemma handleConnectionError_subscriptions w :
  subscriptions_match w -> subscriptions_match (handleConnectionError w).
Proof.
  intros Hinv.     apply (quiet_subscriptions w); [|exact Hinv].
  destruct (handleConnectionError_inner w). apply quiet_of_local'; assumption.
Qed.

Lemma fire_subscriptions h w w' :
  subscriptions_match w -> fire h w = Some w' -> subscriptions_match w'.
Proof.
  intros Hinv. intros H. unfold fire in H. destruct (lookup h (timers w)) as [k|]; [|discriminate].
  injection H as <-.
  set (w0 := mkWorld (svc w) (drop h (timers w)) (suspended w) (fresh w) (trace w)).
  assert (H0 : subscriptions_match w0) by exact Hinv.
  destruct k.
  + unfold retryTimerFired. set (w1 := upd (set_retryTimeout None) w0).
    assert (H1 : subscriptions_match w1) by exact Hinv.
    destruct (currentUser (svc w1)); [|exact H1].
    destruct (negb _); [|exact H1].
    apply setupPresence_subscriptions. exact H1.
  + unfold awayTimerFired. destruct (PState_eqb _ _); [|exact H0].
    apply (quiet_subscriptions w0); [|exact H0].
    destruct (setPresenceState_inner away None KDetached w0).
    apply quiet_of_local; assumption.
Qed.

Lemma reply_subscriptions id r w w' :
  subscriptions_match w -> reply id r w = Some w' -> subscriptions_match w'.
Proof.
  intros Hinv. intros H. unfold reply in H. destruct (lookup id (suspended w)) as [p|]; [|discriminate].
  injection H as <-.
  set (w0 := mkWorld (svc w) (timers w) (drop id (suspended w)) (fresh w) (trace w)).
  apply (quiet_subscriptions w0); [|exact Hinv].
  destruct (resume_inner p r w0). apply quiet_of_local; assumption.
Qed.

Lemma setPresenceState_subscriptions state customData c w :
  subscriptions_match w -> subscriptions_match (setPresenceState state customData (KCaller c) w).
Proof.
  intros Hinv. apply (quiet_subscriptions w); [|exact Hinv].
  destruct (setPresenceState_inner state customData (KCaller c) w).
  apply quiet_of_local; assumption.
Qed.

Lemma initialize_subscriptions w :
  subscriptions_match w -> subscriptions_match (fst (initialize w)).
Proof.
  intros Hinv. unfold initialize.
  destruct (initPromise (svc w)) eqn:Ep; [exact Hinv|].
  destruct Hinv as (H1 & H2 & H3 & H4 & H5).
  unfold _initialize. destruct (initialized (svc w)) eqn:Ei.
  { rewrite (H5 eq_refl) in Ep. discriminate. }
  destruct (FirebaseValidator.validateConfig _);
    [|unfold subscriptions_match; cbn -[count];
      repeat split; try assumption; discriminate].
  destruct (_ || _);
    [unfold subscriptions_match; cbn -[count];
     repeat split; try assumption; discriminate|].
  cbn [b2n] in H1, H2, H3.
  assert (Hau : authUnsubscribe (svc w) = false)
    by (destruct (authUnsubscribe (svc w)); [cbn in H3; lia | reflexivity]).
  unfold subscriptions_match. cbn -[count].
  rewrite !count_app. cbn. repeat split; try reflexivity; lia.
Qed.

Lemma initialize_logged_subscriptions w :
  subscriptions_match w -> subscriptions_match (initialize_logged w).
Proof.
  intros Hinv. pose proof (initialize_subscriptions w Hinv) as Hi.
  unfold initialize_logged. destruct (initialize w) as [w1 pr]. cbn [fst] in Hi.
  destruct pr; [exact Hi|].
  apply (quiet_subscriptions w1); [|exact Hi].
  split; [eapply adds_one; reflexivity | reflexivity].
Qed.

Lemma subscribe_subscriptions cb w :
  subscriptions_match w -> subscriptions_match (subscribeToConnectionStatus cb w).
Proof.
  intros Hinv. unfold subscribeToConnectionStatus.
  pose proof (initialize_logged_subscriptions w Hinv) as Hi.
  revert Hi. generalize (initialize_logged w). intros w1 (H1 & H2 & H3 & H4 & H5).
  unfold subscriptions_match, emit, emits, upd. cbn -[count].
  rewrite !count_app. cbn. rewrite !Nat.add_0_r. repeat split; assumption.
Qed.

Lemma subscribeToUserPresence_subscriptions userId cb w :
  subscriptions_match w ->
  subscriptions_match (fst (subscribeToUserPresence userId cb w)).
Proof.
  intros Hinv.
  destruct (subscribeToUserPresence_shape userId cb w) as (m & l & -> & Hl).
  apply frame_subscriptions; [apply initialize_logged_subscriptions; exact Hinv|].
  destruct Hl as [->|[r ->]]; [left; reflexivity | right; left; exists r; reflexivity].
Qed.

Lemma runUnsubscribe_subscriptions u w :
  subscriptions_match w -> subscriptions_match (runUnsubscribe u w).
Proof.
  intros Hinv.
  destruct (runUnsubscribe_shape u w) as (m & l & -> & Hl).
  apply frame_subscriptions; [exact Hinv|].
  destruct Hl as [->|[r ->]]; [left; reflexivity | right; right; exists r; reflexivity].
Qed.

Lemma destroy_subscriptions w :
  subscriptions_match w -> subscriptions_match (fst (destroy w)).
Proof.
  intros (H1 & H2 & H3 & H4 & H5).
  destruct (destroyCalls_counts w) as (D1 & D2 & D3).
  destruct (appStateUnsubscribe (svc w)) eqn:Ea.
  - rewrite (destroy_throws_world w Ea). cbn [fst].
    unfold subscriptions_match, halfDestroyedWorld.
    cbn [svc trace set_authUnsubscribe authUnsubscribe appStateUnsubscribe
         initialized initPromise b2n].
    rewrite !count_app, D1, D2, D3, ?Nat.add_0_r.
    repeat split; try assumption. rewrite Ea. exact H4.
  - rewrite (destroy_returns_world w Ea). cbn [fst].
    unfold subscriptions_match, destroyedWorld.
    cbn [svc trace destroyedService authUnsubscribe appStateUnsubscribe
         initialized initPromise b2n].
    destruct (cleanupCalls_counts w) as (C1 & C2 & C3).
    rewrite !count_app, !notify_counts by reflexivity.
    rewrite C1, C2, C3, D1, D2, D3, !Nat.add_0_r.
    rewrite <- H4 in H1, H2, H3. cbn [b2n] in H1, H2, H3.
    assert (Hau : authUnsubscribe (svc w) = false)
      by (destruct (authUnsubscribe (svc w)); [cbn in H3; lia | reflexivity]).
    rewrite Hau in *. cbn [b2n] in *. rewrite ?Nat.add_0_r in *.
    repeat split; try assumption; try discriminate.
Qed.

Lemma step_subscriptions w e w' :
  subscriptions_match w -> step w e = Some w' -> subscriptions_match w'.
Proof.
  intros Hinv. destruct e; cbn [step]; intros H.
  - destruct (authUnsubscribe (svc w)); [|discriminate]. injection H as <-.
    apply handleAuthStateChange_subscriptions. exact Hinv.
  - destruct (appStateUnsubscribe (svc w)); [|discriminate]. injection H as <-.
    apply appStateListener_subscriptions. exact Hinv.
  - destruct (isSome _); [|discriminate]. injection H as <-.
    apply handleConnectionChange_subscriptions. exact Hinv.
  - destruct (isSome _); [|discriminate]. injection H as <-.
    apply handleConnectionError_subscriptions. exact Hinv.
  - exact (fire_subscriptions h w w' Hinv H).
  - exact (reply_subscriptions id r w w' Hinv H).
  - injection H as <-. apply setPresenceState_subscriptions. exact Hinv.
  - injection H as <-. apply subscribe_subscriptions. exact Hinv.
  - injection H as <-. exact Hinv.
  - injection H as <-. apply subscribeToUserPresence_subscriptions. exact Hinv.
  - injection H as <-. apply runUnsubscribe_subscriptions. exact Hinv.
  - injection H as <-. exact Hinv.
  - injection H as <-. apply destroy_subscriptions. exact Hinv.
Qed.

Lemma subscriptions_reachable w : reachable w -> subscriptions_match w.
Proof.
  induction 1 as [p w Hc | w e w' Hw IH Hstep].
  - unfold constructor in Hc.
    assert (H0 : subscriptions_match (newWorld (merge defaults p)))
      by (repeat split; discriminate).
    assert (Hi : subscriptions_match (fst (initialize (newWorld (merge defaults p))))).
    { unfold initialize, _initialize. cbn.
      destruct (FirebaseValidator.validateConfig _);
        [|repeat split; discriminate].
      destruct (_ || _); repeat split; discriminate. }
    destruct (initialize _) as [w1 pr]. cbn [fst] in Hi. injection Hc as <-.
    destruct pr; [exact Hi|].
    apply (quiet_subscriptions w1); [|exact Hi].
    split; [eapply adds_one; reflexivity | reflexivity].
  - exact (step_subscriptions w e w' IH Hstep).
Qed.

(** X13: in every reachable world the service has subscribed to the
    identity provider and to the app lifecycle exactly once if it is
    initialised and never otherwise (nothing is subscribed twice); it holds
    the app-lifecycle subscription iff it is initialised, so that
    subscription is never ended; the identity subscription is either still
    held or was ended once, by [destroy]; and an initialised service has its
    initialisation memoised as resolved. *)
Theorem reachable_subscriptions_match w : reachable w -> subscriptions_match w.
Proof.
  exact (subscriptions_reachable w).
Qed.

Lemma reachable_subscriptions_match_witness :
  reachable boundWorld /\ subscriptions_match boundWorld.
Proof.
  split; [exact boundWorld_reachable|].
  apply reachable_subscriptions_match. exact boundWorld_reachable.
Defined.

(** ** After the sign-out *)

Lemma adds_writes w w' :
  adds noStore w w' ->
  writes (trace w') = writes (trace w) /\
  registrations (trace w') = registrations (trace w).
Proof.
  intros (l & Ht & Hl). rewrite Ht, writes_app, registrations_app.
  clear Ht. assert (H : writes l = [] /\ registrations l = []).
  { induction l as [|e l IH]; [split; reflexivity|].
    cbn in Hl. apply andb_true_iff in Hl. destruct Hl as [He Hl].
    destruct (IH Hl) as [IH1 IH2].
    destruct e; cbn in *; try discriminate; split; assumption. }
  destruct H as [-> ->]. rewrite !app_nil_r. split; reflexivity.
Qed.

Lemma local_noStore w w' : adds isLocal w w' -> adds noStore w w'.
Proof.
  apply adds_weaken. intros e. destruct e; cbn; intros H;
    first [reflexivity | discriminate H].
Qed.

Lemma notify_noStore w : adds noStore w (notifyConnectionListeners w).
Proof.
  unfold notifyConnectionListeners. eexists. split; [reflexivity|].
  induction (listeners (svc w)) as [|cb l IH]; [reflexivity | exact IH].
Qed.

Lemma keeps_noIdentity w w' : keeps_identity w w' -> noIdentity w -> noIdentity w'.
Proof.
  intros [Hu Hr] [Hnu Hnr]. split; [congruence|].
  destruct Hr as [Hr|Hr]; congruence.
Qed.

Lemma initialize_keeps w :
  keeps_identity w (fst (initialize w)) /\
  adds noStore w (fst (initialize w)).
Proof.
  unfold initialize. destruct (initPromise (svc w));
    [split; [apply keeps_identity_refl | apply adds_refl]|].
  unfold _initialize. destruct (initialized (svc w));
    [split; [split; [reflexivity | left; reflexivity] | apply adds_same; reflexivity]|].
  destruct (FirebaseValidator.validateConfig _);
    [|split; [split; [reflexivity | left; reflexivity] | apply adds_same; reflexivity]].
  destruct (_ || _);
    [split; [split; [reflexivity | left; reflexivity] | apply adds_same; reflexivity]|].
  split; [split; [reflexivity | left; reflexivity]|].
  exists [AuthSubscribed; AppStateSubscribed]. cbn. rewrite <- app_assoc.
  split; reflexivity.
Qed.

Lemma cleanup_noStore w : adds noStore w (cleanup w).
Proof.
  rewrite cleanup_world. eexists. split; [reflexivity|].
  rewrite !forallb_app. unfold cleanupCalls.
  assert (Hn : forallb noStore (map (fun cb => Notify cb (resetStatus w))
                                    (listeners (svc w))) = true)
    by (induction (listeners (svc w)) as [|cb l IH]; [reflexivity | exact IH]).
  rewrite Hn.
  destruct (connectedListener (svc w)), (userRef (svc w)), (retryTimeout (svc w)),
    (awayTimeout (svc w)); reflexivity.
Qed.

Lemma initialize_logged_noStore w : adds noStore w (initialize_logged w).
Proof.
  unfold initialize_logged. destruct (initialize_keeps w) as [_ Ha].
  destruct (initialize w) as [w1 pr]. cbn [fst] in Ha.
  destruct pr; [exact Ha|].
  apply (adds_trans _ w w1 _ Ha). eapply adds_one; reflexivity.
Qed.

Lemma frame_noStore w m l :
  (l = [] \/ (exists r, l = [OnValue r]) \/ (exists r, l = [OffValue r])) ->
  adds noStore w (mkWorld (set_presenceListeners m (svc w)) (timers w) (suspended w)
                          (fresh w) (trace w ++ l)).
Proof.
  intros Hl. exists l. split; [reflexivity|].
  destruct Hl as [->|[[r ->]|[r ->]]]; reflexivity.
Qed.

Lemma destroy_noStore w : adds noStore w (fst (destroy w)).
Proof.
  destruct (appStateUnsubscribe (svc w)) eqn:Ea.
  - rewrite (destroy_throws_world w Ea). eexists. split; [reflexivity|].
    unfold destroyCalls. destruct (authUnsubscribe (svc w)); reflexivity.
  - rewrite (destroy_returns_world w Ea). eexists. split; [reflexivity|].
    rewrite !forallb_app. unfold destroyCalls, cleanupCalls.
    assert (Hn : forallb noStore (map (fun cb => Notify cb (resetStatus w))
                                      (listeners (svc w))) = true)
      by (induction (listeners (svc w)) as [|cb l IH]; [reflexivity | exact IH]).
    rewrite Hn.
    destruct (authUnsubscribe (svc w)),
      (connectedListener (svc w)), (userRef (svc w)), (retryTimeout (svc w)),
      (awayTimeout (svc w)); reflexivity.
Qed.

(** With no identity and no binding, a step other than a sign-in keeps it
    so and calls the store no more. *)
Lemma step_noIdentity w e w' :
  noIdentity w -> isSignIn e = false -> step w e = Some w' ->
  noIdentity w' /\ adds noStore w w'.
Proof.
  intros Hn He Hstep. pose proof Hn as [Hu Hr].
  destruct e; cbn [step] in Hstep.
  - destruct (authUnsubscribe (svc w)); [|discriminate]. injection Hstep as <-.
    destruct user as [u|]; [discriminate He|].
    unfold handleAuthStateChange.
    change (currentUser (svc (upd (set_currentSetupUid None) w)))
      with (currentUser (svc w)).
    rewrite Hu. split; [exact Hn | apply adds_same; reflexivity].
  - destruct (appStateUnsubscribe (svc w)); [|discriminate]. injection Hstep as <-.
    unfold appStateListener. rewrite Hu. split; [exact Hn | apply adds_refl].
  - destruct (isSome _); [|discriminate]. injection Hstep as <-.
    unfold handleConnectionChange. destruct connected; cbn [negb].
    + change (userRef (svc (upd (set_retryCount 0)
                (upd (set_lastConnected (Some now)) (upd (set_isConnected true) w)))))
        with (userRef (svc w)).
      rewrite Hr. cbn [isSome]. rewrite andb_false_r.
      split; [exact Hn|].
      exact (notify_noStore
               (upd (set_retryCount 0)
                  (upd (set_lastConnected (Some now)) (upd (set_isConnected true) w)))).
    + set (w3 := notifyConnectionListeners (upd (set_isConnected false) w)).
      split.
      * apply (keeps_noIdentity w3); [apply scheduleRetry_keeps | exact Hn].
      * apply (adds_trans _ w w3).
        -- exact (notify_noStore (upd (set_isConnected false) w)).
        -- apply local_noStore. apply scheduleRetry_inner.
  - destruct (isSome _); [|discriminate]. injection Hstep as <-.
    split; [exact (keeps_noIdentity _ _ (handleConnectionError_keeps w) Hn)|].
    apply local_noStore. apply handleConnectionError_inner.
  - unfold fire in Hstep. destruct (lookup h (timers w)) as [k|]; [|discriminate].
    injection Hstep as <-.
    set (w0 := mkWorld (svc w) (drop h (timers w)) (suspended w) (fresh w) (trace w)).
    destruct k.
    + unfold retryTimerFired.
      change (currentUser (svc (upd (set_retryTimeout None) w0)))
        with (currentUser (svc w)).
      rewrite Hu. split; [exact Hn | apply adds_same; reflexivity].
    + unfold awayTimerFired. destruct (PState_eqb _ _);
        [|split; [exact Hn | apply adds_same; reflexivity]].
      split.
      * apply (keeps_noIdentity w0); [apply setPresenceState_keeps | exact Hn].
      * apply local_noStore.
        apply (setPresenceState_unbound_local away None KDetached w0).
        left. exact Hr.
  - unfold reply in Hstep. destruct (lookup id (suspended w)) as [p|]; [|discriminate].
    injection Hstep as <-.
    set (w0 := mkWorld (svc w) (timers w) (drop id (suspended w)) (fresh w) (trace w)).
    split.
    + apply (keeps_noIdentity w0); [apply resume_keeps | exact Hn].
    + apply local_noStore. apply (resume_unbound_local p r w0). exact Hr.
  - injection Hstep as <-. split.
    + exact (keeps_noIdentity _ _ (setPresenceState_keeps _ _ _ w) Hn).
    + apply local_noStore. apply setPresenceState_unbound_local. left. exact Hr.
  - injection Hstep as <-. unfold subscribeToConnectionStatus.
    pose proof (initialize_logged_keeps w) as Hk.
    pose proof (initialize_logged_noStore w) as Ha.
    revert Hk Ha. generalize (initialize_logged w). intros w1 Hk Ha.
    split.
    + apply (keeps_noIdentity w1); [|exact (keeps_noIdentity _ _ Hk Hn)].
      split; [reflexivity | left; reflexivity].
    + apply (adds_trans _ w w1 _ Ha). eapply adds_one; reflexivity.
  - injection Hstep as <-. split; [exact Hn | apply adds_same; reflexivity].
  - injection Hstep as <-. split.
    + exact (keeps_noIdentity _ _ (subscribeToUserPresence_keeps userId cb w) Hn).
    + destruct (subscribeToUserPresence_shape userId cb w) as (m & l & -> & Hl).
      apply (adds_trans _ w (initialize_logged w));
        [apply initialize_logged_noStore|].
      apply frame_noStore.
      destruct Hl as [->|[r ->]]; [left; reflexivity | right; left; exists r; reflexivity].
  - injection Hstep as <-. split.
    + exact (keeps_noIdentity _ _ (runUnsubscribe_keeps u w) Hn).
    + destruct (runUnsubscribe_shape u w) as (m & l & -> & Hl).
      apply frame_noStore.
      destruct Hl as [->|[r ->]]; [left; reflexivity | right; right; exists r; reflexivity].
  - injection Hstep as <-. split; [exact Hn | apply adds_same; reflexivity].
  - injection Hstep as <-. split; [|apply destroy_noStore].
    exact (keeps_noIdentity _ _ (destroy_keeps w) Hn).
Qed.

Lemma run_noIdentity es :
  forall w w',
    noIdentity w -> forallb (fun e => negb (isSignIn e)) es = true ->
    run w es = Some w' ->
    noIdentity w' /\ adds noStore w w'.
Proof.
  induction es as [|e es IH]; intros w w' Hn Hall Hrun; cbn in Hrun.
  - injection Hrun as <-. split; [exact Hn | apply adds_refl].
  - cbn in Hall. apply andb_true_iff in Hall. destruct Hall as [He Hall].
    destruct (step w e) as [w1|] eqn:Hstep; [|discriminate].
    destruct (step_noIdentity w e w1 Hn) as [Hn1 Ha1];
      [destruct (isSignIn e); [discriminate | reflexivity] | exact Hstep |].
    destruct (IH w1 w' Hn1 Hall Hrun) as [Hn' Ha'].
    split; [exact Hn' | exact (adds_trans _ _ _ _ Ha1 Ha')].
Qed.

(** X14: once the identity has signed out, the service calls the store no
    more (no write, no deferred-write registration) whatever happens next:
    late answers of the store to calls still in flight, timers, lifecycle
    changes, connectivity observations, explicit [setPresenceState] calls;
    until an identity signs in again. *)
Theorem no_store_call_after_sign_out w es w' :
  reachable w ->
  forallb (fun e => negb (isSignIn e)) es = true ->
  run w (EvAuth None :: es) = Some w' ->
  writes (trace w') = writes (trace w) /\
  registrations (trace w') = registrations (trace w) /\
  userRef (svc w') = None /\ currentUser (svc w') = None.
Proof.
  intros Hreach Hall Hrun. cbn [run step] in Hrun.
  destruct (authUnsubscribe (svc w)); [|discriminate].
  assert (H1 : noIdentity (handleAuthStateChange None w) /\
               adds noStore w (handleAuthStateChange None w)).
  { unfold handleAuthStateChange.
    pose proof (cleanup_unbinds (upd (set_currentSetupUid None) w)) as [_ Hr].
    pose proof (cleanup_noStore (upd (set_currentSetupUid None) w)) as Ha.
    revert Hr Ha. generalize (cleanup (upd (set_currentSetupUid None) w)).
    intros w2 Hr Ha.
    pose proof (reachable_binding_has_identity w Hreach) as Hinv.
    unfold binding_has_identity in Hinv.
    change (currentUser (svc (upd (set_currentSetupUid None) w)))
      with (currentUser (svc w)).
    destruct (currentUser (svc w)) eqn:Hu.
    - split; [split; [reflexivity | exact Hr] | exact Ha].
    - split; [|apply adds_same; reflexivity].
      split; [exact Hu|].
      destruct (userRef (svc w)) eqn:Hur; [|exact Hur].
      exfalso. apply Hinv; [discriminate | reflexivity]. }
  destruct H1 as [Hn1 Ha1].
  destruct (run_noIdentity es _ w' Hn1 Hall Hrun) as [[Hu' Hr'] Ha'].
  destruct (adds_writes w w' (adds_trans _ _ _ _ Ha1 Ha')) as [Hw Hg].
  repeat split; assumption.
Qed.

Lemma pendingWorld_reachable : reachable pendingWorld.
Proof.
  apply (run_reachable [EvAuth (Some alice)] (started validCfg));
    [apply started_reachable | vm_compute; reflexivity].
Qed.

Lemma no_store_call_after_sign_out_witness :
  reachable pendingWorld /\
  exists w',
    run pendingWorld [EvAuth None; EvReply 1 Ok; EvSetPresenceState 7 busy None;
                      EvAppState active] = Some w' /\
    writes (trace w') = writes (trace pendingWorld).
Proof.
  split; [exact pendingWorld_reachable|].
  destruct (run pendingWorld [EvAuth None; EvReply 1 Ok; EvSetPresenceState 7 busy None;
                              EvAppState active]) as [w'|] eqn:E.
  - exists w'. split; [reflexivity|].
    exact (proj1 (no_store_call_after_sign_out pendingWorld
                    [EvReply 1 Ok; EvSetPresenceState 7 busy None; EvAppState active]
                    w' pendingWorld_reachable eq_refl E)).
  - exfalso. vm_compute in E. discriminate E.
Defined.

(** ** Connection-status listeners *)

Lemma tells_refl w : tells w w.
Proof.
  split; [|reflexivity]. exists []. split; [symmetry; apply app_nil_r|].
  intros x [].
Qed.

Lemma tells_trans w1 w2 w3 : tells w1 w2 -> tells w2 w3 -> tells w1 w3.
Proof.
  intros [(l1 & H1 & F1) L1] [(l2 & H2 & F2) L2]. split; [|congruence].
  exists (l1 ++ l2). split; [rewrite H2, H1; symmetry; apply app_assoc|].
  intros x Hx. apply in_app_or in Hx. destruct Hx as [Hx|Hx].
  - apply F1. exact Hx.
  - rewrite <- L1. apply F2. exact Hx.
Qed.

Lemma tells_of_local w w' :
  adds isLocalOrStore w w' -> lifecycle (svc w') = lifecycle (svc w) -> tells w w'.
Proof.
  intros (l & Ht & Hl) L. split.
  - exists []. rewrite app_nil_r. split; [|intros x []].
    rewrite Ht, notifications_app.
    assert (Hn : notifications l = []).
    { clear Ht. induction l as [|e l IH]; [reflexivity|].
      cbn in Hl. apply andb_true_iff in Hl. destruct Hl as [He Hl].
      destruct e; cbn in *; try discriminate; apply IH; exact Hl. }
    rewrite Hn. apply app_nil_r.
  - unfold lifecycle in L. injection L as _ Hl' _ _ _ _ _ _ _ _ _. exact Hl'.
Qed.

Lemma tells_of_local' w w' :
  adds isLocal w w' -> lifecycle (svc w') = lifecycle (svc w) -> tells w w'.
Proof.
  intros A L. apply tells_of_local; [|exact L].
  apply (adds_weaken isLocal); [|exact A].
  intros e He. unfold isLocalOrStore. rewrite He. reflexivity.
Qed.

Lemma tells_same w w' :
  trace w' = trace w -> listeners (svc w') = listeners (svc w) -> tells w w'.
Proof.
  intros Ht Hl. split; [|exact Hl]. exists []. rewrite Ht, app_nil_r.
  split; [reflexivity | intros x []].
Qed.

Lemma tells_notify w : tells w (notifyConnectionListeners w).
Proof.
  split; [|reflexivity]. unfold notifyConnectionListeners. cbn [trace emits].
  eexists. split; [rewrite notifications_app, notifications_notify; reflexivity|].
  intros x Hx. apply in_map_iff in Hx. destruct Hx as (cb & <- & Hcb). exact Hcb.
Qed.

Lemma tells_cleanup w : tells w (cleanup w).
Proof.
  split; [|apply cleanup_listeners].
  exists (resetHeard w). split; [apply cleanup_notifications|].
  intros x Hx. unfold resetHeard in Hx. apply in_map_iff in Hx.
  destruct Hx as (cb & <- & Hcb). exact Hcb.
Qed.

Lemma tells_setupPresence id w : tells w (setupPresence id w).
Proof.
  unfold setupPresence.
  destruct (setupInProgress (svc w)); [apply tells_refl|].
  set (w1 := upd (set_setupInProgress true) w).
  assert (H1 : tells w w1) by (apply tells_same; reflexivity).
  apply (tells_trans w w1 _ H1).
  destruct (negb _).
  - unfold setupPresence_catch.
    destruct (handleSetupError_inner (upd (set_userRef None) w1)) as [A L].
    apply tells_of_local'; [exact A | exact L].
  - cbv zeta. pose proof (tells_cleanup w1) as Hc.
    revert Hc. generalize (cleanup w1). intros w2 Hc.
    apply (tells_trans w1 w2 _ Hc).
    cbn [negb userRef svc upd emit emits set_connectedListener set_connectedRef
         set_userRef].
    match goal with
    | |- tells w2 (setPresenceState ?s ?cd ?k ?w5) =>
        destruct (setPresenceState_inner s cd k w5) as [A L];
        apply (tells_trans w2 w5); [|apply tells_of_local; assumption]
    end.
    split; [|reflexivity]. exists []. split; [|intros x []].
    cbn. rewrite notifications_app. reflexivity.
Qed.

Lemma tells_handleAuthStateChange user w : tells w (handleAuthStateChange user w).
Proof.
  unfold handleAuthStateChange. destruct user as [u|].
  - destruct (uid_differs _ _); [|apply tells_refl].
    set (w2 := upd (set_currentSetupUid (Some (uid u))) _).
    apply (tells_trans w w2); [apply tells_same; reflexivity|].
    apply tells_setupPresence.
  - pose proof (tells_cleanup (upd (set_currentSetupUid None) w)) as Hc.
    revert Hc. generalize (cleanup (upd (set_currentSetupUid None) w)). intros w2 Hc.
    destruct (currentUser (svc (upd (set_currentSetupUid None) w))).
    + apply (tells_trans w (upd (set_currentSetupUid None) w));
        [apply tells_same; reflexivity|].
      apply (tells_trans _ w2 _ Hc). apply tells_same; reflexivity.
    + apply tells_same; reflexivity.
Qed.

Lemma tells_appStateListener s w : tells w (appStateListener s w).
Proof.
  unfold appStateListener. destruct (_ && _); [|apply tells_refl].
  unfold handleAppStateChange.
  set (w1 := match awayTimeout (svc w) with Some h => _ | None => w end).
  assert (H1 : tells w w1).
  { subst w1. destruct (awayTimeout (svc w)); [|apply tells_refl].
    apply tells_of_local'; [eapply adds_one; reflexivity | reflexivity]. }
  clearbody w1. apply (tells_trans w w1 _ H1).
  destruct s.
  - apply (tells_trans _ (setPresenceState online None KDetached w1)).
    + destruct (setPresenceState_inner online None KDetached w1).
      apply tells_of_local; assumption.
    + destruct (setupAwayTimer_inner (setPresenceState online None KDetached w1)).
      apply tells_of_local'; assumption.
  - destruct (setPresenceState_inner offline None KDetached w1).
    apply tells_of_local; assumption.
  - destruct (setPresenceState_inner offline None KDetached w1).
    apply tells_of_local; assumption.
  - apply tells_refl.
  - apply tells_refl.
Qed.

Lemma tells_handleConnectionChange connected now w :
  tells w (handleConnectionChange connected now w).
Proof.
  unfold handleConnectionChange. destruct connected; cbn [negb].
  - set (w1a := upd (set_retryCount 0) _).
    apply (tells_trans w w1a); [apply tells_same; reflexivity|].
    destruct (_ && _); [|apply tells_notify].
    eapply tells_trans; [|apply tells_notify].
    destruct (setPresenceState_inner
                (currentOrOnline (currentPresenceState (svc w1a))) None KDetached w1a).
    apply tells_of_local; assumption.
  - set (w1 := upd (set_isConnected false) w).
    apply (tells_trans w w1); [apply tells_same; reflexivity|].
    eapply tells_trans; [apply tells_notify|].
    destruct (scheduleRetry_inner (notifyConnectionListeners w1)).
    apply tells_of_local'; assumption.
Qed.

Lemma tells_fire h w w' : fire h w = Some w' -> tells w w'.
Proof.
  unfold fire. destruct (lookup h (timers w)) as [k|]; [|discriminate].
  intros H. injection H as <-.
  set (w0 := mkWorld (svc w) (drop h (timers w)) (suspended w) (fresh w) (trace w)).
  apply (tells_trans w w0); [apply tells_same; reflexivity|].
  destruct k.
  - unfold retryTimerFired. set (w1 := upd (set_retryTimeout None) w0).
    apply (tells_trans w0 w1); [apply tells_same; reflexivity|].
    destruct (currentUser (svc w1)); [|apply tells_refl].
    destruct (negb _); [apply tells_setupPresence | apply tells_refl].
  - unfold awayTimerFired. destruct (PState_eqb _ _); [|apply tells_refl].
    destruct (setPresenceState_inner away None KDetached w0).
    apply tells_of_local; assumption.
Qed.

Lemma tells_reply id r w w' : reply id r w = Some w' -> tells w w'.
Proof.
  unfold reply. destruct (lookup id (suspended w)) as [p|]; [|discriminate].
  intros H. injection H as <-.
  set (w0 := mkWorld (svc w) (timers w) (drop id (suspended w)) (fresh w) (trace w)).
  apply (tells_trans w w0); [apply tells_same; reflexivity|].
  destruct (resume_inner p r w0). apply tells_of_local; assumption.
Qed.

Lemma initialize_listeners w :
  listeners (svc (fst (initialize w))) = listeners (svc w) /\
  notifications (trace (fst (initialize w))) = notifications (trace w).
Proof.
  unfold initialize. destruct (initPromise (svc w)); [split; reflexivity|].
  unfold _initialize. destruct (initialized (svc w)); [split; reflexivity|].
  destruct (FirebaseValidator.validateConfig _); [|split; reflexivity].
  destruct (_ || _); [split; reflexivity|].
  split; [reflexivity|]. cbn. rewrite !notifications_app. cbn.
  rewrite !app_nil_r. reflexivity.
Qed.

Lemma initialize_logged_listeners w :
  listeners (svc (initialize_logged w)) = listeners (svc w) /\
  notifications (trace (initialize_logged w)) = notifications (trace w).
Proof.
  unfold initialize_logged. destruct (initialize_listeners w) as [Hl Hn].
  destruct (initialize w) as [w1 pr]. cbn [fst] in Hl, Hn.
  destruct pr; [split; assumption|].
  split; [exact Hl|]. cbn. rewrite notifications_app, Hn. cbn. apply app_nil_r.
Qed.

Lemma tells_initialize_logged w : tells w (initialize_logged w).
Proof.
  destruct (initialize_logged_listeners w) as [Hl Hn].
  split; [|exact Hl]. exists []. rewrite Hn, app_nil_r.
  split; [reflexivity | intros x []].
Qed.

Lemma tells_frame w m l :
  (l = [] \/ (exists r, l = [OnValue r]) \/ (exists r, l = [OffValue r])) ->
  tells w (mkWorld (set_presenceListeners m (svc w)) (timers w) (suspended w)
                   (fresh w) (trace w ++ l)).
Proof.
  intros Hl. split; [|reflexivity]. exists []. split; [|intros x []].
  cbn [trace]. rewrite notifications_app, app_nil_r.
  destruct Hl as [->|[[r ->]|[r ->]]]; cbn; rewrite ?app_nil_r; reflexivity.
Qed.

Lemma tells_subscribeToUserPresence userId cb w :
  tells w (fst (subscribeToUserPresence userId cb w)).
Proof.
  destruct (subscribeToUserPresence_shape userId cb w) as (m & l & -> & Hl).
  apply (tells_trans w (initialize_logged w)); [apply tells_initialize_logged|].
  apply tells_frame.
  destruct Hl as [->|[r ->]]; [left; reflexivity | right; left; exists r; reflexivity].
Qed.

Lemma tells_runUnsubscribe u w : tells w (runUnsubscribe u w).
Proof.
  destruct (runUnsubscribe_shape u w) as (m & l & -> & Hl).
  apply tells_frame.
  destruct Hl as [->|[r ->]]; [left; reflexivity | right; right; exists r; reflexivity].
Qed.

Lemma step_listeners w e w' :
  step w e = Some w' ->
  listeners (svc w') = listenersAfter w e.
Proof.
  destruct e; cbn [step listenersAfter]; intros H.
  - destruct (authUnsubscribe (svc w)); [|discriminate]. injection H as <-.
    apply tells_handleAuthStateChange.
  - destruct (appStateUnsubscribe (svc w)); [|discriminate]. injection H as <-.
    apply tells_appStateListener.
  - destruct (isSome _); [|discriminate]. injection H as <-.
    apply tells_handleConnectionChange.
  - destruct (isSome _); [|discriminate]. injection H as <-.
    destruct (handleConnectionError_inner w) as [A L].
    exact (proj2 (tells_of_local' _ _ A L)).
  - exact (proj2 (tells_fire _ _ _ H)).
  - exact (proj2 (tells_reply _ _ _ _ H)).
  - injection H as <-.
    destruct (setPresenceState_inner state customData (KCaller c) w) as [A L].
    exact (proj2 (tells_of_local _ _ A L)).
  - injection H as <-. unfold subscribeToConnectionStatus.
    destruct (initialize_logged_listeners w) as [Hl _].
    revert Hl. generalize (initialize_logged w). intros w1 Hl.
    cbn. rewrite Hl. reflexivity.
  - injection H as <-. reflexivity.
  - injection H as <-. apply tells_subscribeToUserPresence.
  - injection H as <-. apply tells_runUnsubscribe.
  - injection H as <-. reflexivity.
  - injection H as <-. destruct (appStateUnsubscribe (svc w)) eqn:Ea.
    + exact (proj2 (proj2 (proj2 (destroy_throws w Ea)))).
    + exact (proj2 (proj2 (proj2 (destroy_returns w Ea)))).
Qed.

(** X15: the registrations of connection-status listeners change only by
    [subscribeToConnectionStatus] (which adds the callback unless it is
    there already), by the returned unsubscribe function (which removes it)
    and by a [destroy] on a service that does not hold the app-lifecycle
    subscription (which clears them); a [destroy] on a service that holds
    it throws before the listeners are cleared and leaves them, and no
    other call or callback of the service touches them. *)
Theorem listeners_change_only_by_subscription w e w' :
  step w e = Some w' ->
  listeners (svc w') = listenersAfter w e.
Proof.
  exact (step_listeners w e w').
Qed.

Lemma listeners_change_only_by_subscription_witness :
  exists w',
    step boundWorld (EvSubscribe 11%nat) = Some w' /\
    listeners (svc w') = [11%nat] /\
    exists w'',
      step w' EvDestroy = Some w'' /\ listeners (svc w'') = [11%nat].
Proof.
  eexists. split; [reflexivity|].
  split.
  - exact (listeners_change_only_by_subscription boundWorld (EvSubscribe 11%nat) _
             eq_refl).
  - eexists. split; [reflexivity|].
    exact (listeners_change_only_by_subscription _ EvDestroy _ eq_refl).
Defined.

Lemma set_add_in cb x l : In x (set_add cb l) -> x = cb \/ In x l.
Proof.
  induction l as [|y l IH]; cbn.
  - intros [H|[]]. left. symmetry. exact H.
  - destruct (Nat.eqb y cb); [intros H; right; exact H|].
    intros [H|H]; [right; left; exact H|].
    destruct (IH H) as [H'|H']; [left | right; right]; assumption.
Qed.

Lemma set_add_NoDup cb l : NoDup l -> NoDup (set_add cb l).
Proof.
  induction 1 as [|y l Hy Hl IH]; cbn.
  - constructor; [intros [] | constructor].
  - destruct (Nat.eqb y cb) eqn:E; [constructor; assumption|].
    constructor; [|exact IH].
    intros Hin. destruct (set_add_in cb y l Hin) as [H|H].
    + subst y. rewrite Nat.eqb_refl in E. discriminate.
    + contradiction.
Qed.

(** X16: in every reachable world no callback is registered twice, so a
    change of status reaches each listener once. *)
Theorem reachable_listeners_nodup w : reachable w -> NoDup (listeners (svc w)).
Proof.
  induction 1 as [p w Hc | w e w' Hw IH Hstep].
  - unfold constructor in Hc.
    pose proof (initialize_listeners (newWorld (merge defaults p))) as [Hl _].
    destruct (initialize _) as [w1 pr]. cbn [fst] in Hl. injection Hc as <-.
    assert (Hl' : listeners (svc w1) = []) by exact Hl.
    destruct pr; cbn; rewrite Hl'; constructor.
  - rewrite (step_listeners w e w' Hstep).
    destruct e; cbn [listenersAfter]; try exact IH.
    + apply set_add_NoDup. exact IH.
    + apply NoDup_filter. exact IH.
    + destruct (appStateUnsubscribe (svc w)); [exact IH | constructor].
Qed.

Lemma listeningWorld_reachable : reachable listeningWorld.
Proof.
  apply (run_reachable [EvSubscribe 11%nat; EvSubscribe 12%nat; EvConnected true 100;
                        EvReply 4 Ok; EvReply 5 Ok] boundWorld);
    [apply boundWorld_reachable | vm_compute; reflexivity].
Qed.

Lemma reachable_listeners_nodup_witness :
  reachable listeningWorld /\ NoDup (listeners (svc listeningWorld)).
Proof.
  split; [exact listeningWorld_reachable|].
  apply reachable_listeners_nodup. exact listeningWorld_reachable.
Defined.

Lemma heardBy_app cb (a b : list Effect) :
  heardBy cb (a ++ b) = heardBy cb a ++ heardBy cb b.
Proof.
  unfold heardBy. rewrite notifications_app, filter_app, map_app. reflexivity.
Qed.

Lemma tells_unheard cb w w' :
  tells w w' -> ~ In cb (listeners (svc w)) ->
  heardBy cb (trace w') = heardBy cb (trace w).
Proof.
  intros [(l & Hn & Hl) _] Hcb. unfold heardBy. rewrite Hn, filter_app, map_app.
  match goal with
  | |- _ ++ map snd ?t = _ => assert (Hf : t = [])
  end.
  { clear Hn. induction l as [|x l IH]; [reflexivity|].
    cbn [filter]. destruct (Nat.eqb _ cb) eqn:E.
    - exfalso. apply Hcb. apply Nat.eqb_eq in E. rewrite <- E.
      apply Hl. left. reflexivity.
    - apply IH. intros y Hy. apply Hl. right. exact Hy. }
  rewrite Hf. apply app_nil_r.
Qed.

Lemma step_unheard cb w e w' :
  ~ In cb (listeners (svc w)) -> isSubscribeOf cb e = false ->
  step w e = Some w' ->
  ~ In cb (listeners (svc w')) /\ heardBy cb (trace w') = heardBy cb (trace w).
Proof.
  intros Hcb He Hstep. split.
  - rewrite (step_listeners w e w' Hstep).
    destruct e; cbn [listenersAfter]; try exact Hcb.
    + intros Hin. destruct (set_add_in cb0 cb _ Hin) as [H|H]; [|contradiction].
      cbn in He. subst cb0. rewrite Nat.eqb_refl in He. discriminate.
    + intros Hin. apply filter_In in Hin. destruct Hin as [Hin _]. contradiction.
    + destruct (appStateUnsubscribe (svc w)); [exact Hcb | intros []].
  - destruct e; cbn [step] in Hstep.
    + destruct (authUnsubscribe (svc w)); [|discriminate]. injection Hstep as <-.
      apply tells_unheard; [apply tells_handleAuthStateChange | exact Hcb].
    + destruct (appStateUnsubscribe (svc w)); [|discriminate]. injection Hstep as <-.
      apply tells_unheard; [apply tells_appStateListener | exact Hcb].
    + destruct (isSome _); [|discriminate]. injection Hstep as <-.
      apply tells_unheard; [apply tells_handleConnectionChange | exact Hcb].
    + destruct (isSome _); [|discriminate]. injection Hstep as <-.
      destruct (handleConnectionError_inner w) as [A L].
      apply tells_unheard; [apply tells_of_local'; assumption | exact Hcb].
    + apply tells_unheard; [exact (tells_fire _ _ _ Hstep) | exact Hcb].
    + apply tells_unheard; [exact (tells_reply _ _ _ _ Hstep) | exact Hcb].
    + injection Hstep as <-.
      destruct (setPresenceState_inner state customData (KCaller c) w) as [A L].
      apply tells_unheard; [apply tells_of_local; assumption | exact Hcb].
    + injection Hstep as <-. unfold subscribeToConnectionStatus.
      destruct (initialize_logged_listeners w) as [_ Hn].
      revert Hn. generalize (initialize_logged w). intros w1 Hn.
      unfold heardBy in *. cbn [trace emit emits upd].
      rewrite notifications_app, Hn, filter_app, map_app. cbn.
      cbn in He. rewrite He. cbn. apply app_nil_r.
    + injection Hstep as <-. reflexivity.
    + injection Hstep as <-.
      apply tells_unheard; [apply tells_subscribeToUserPresence | exact Hcb].
    + injection Hstep as <-.
      apply tells_unheard; [apply tells_runUnsubscribe | exact Hcb].
    + injection Hstep as <-. reflexivity.
    + injection Hstep as <-. unfold heardBy.
      destruct (appStateUnsubscribe (svc w)) eqn:Ea;
        [rewrite (proj1 (proj2 (destroy_throws w Ea))); reflexivity|].
      rewrite (proj1 (proj2 (destroy_returns w Ea))).
      rewrite filter_app, map_app.
      match goal with
      | |- _ ++ map snd ?t = _ => assert (Hf : t = [])
      end.
      { unfold resetHeard. induction (listeners (svc w)) as [|y l IH]; [reflexivity|].
        cbn [map filter fst]. destruct (Nat.eqb _ cb) eqn:E.
        - exfalso. apply Hcb. left. apply Nat.eqb_eq. exact E.
        - apply IH. intros Hin. apply Hcb. right. exact Hin. }
      rewrite Hf. apply app_nil_r.
Qed.

(** X17: once a callback has been unsubscribed it is not called again,
    whatever the service does, until it is subscribed again. *)
Theorem unsubscribed_callback_hears_nothing cb w es w' :
  forallb (fun e => negb (isSubscribeOf cb e)) es = true ->
  run w (EvUnsubscribe cb :: es) = Some w' ->
  heardBy cb (trace w') = heardBy cb (trace w) /\ ~ In cb (listeners (svc w')).
Proof.
  intros Hall Hrun. cbn [run step] in Hrun.
  set (w1 := unsubscribeFromConnectionStatus cb w) in *.
  assert (H1 : ~ In cb (listeners (svc w1))).
  { subst w1. cbn. unfold set_delete. intros Hin. apply filter_In in Hin.
    destruct Hin as [_ Hin]. rewrite Nat.eqb_refl in Hin. discriminate. }
  assert (Ht : heardBy cb (trace w1) = heardBy cb (trace w)) by reflexivity.
  rewrite <- Ht. clearbody w1. clear Ht.
  revert w1 H1 Hrun. induction es as [|e es IH]; intros w1 H1 Hrun; cbn in Hrun.
  - injection Hrun as <-. split; [reflexivity | exact H1].
  - cbn in Hall. apply andb_true_iff in Hall. destruct Hall as [He Hall].
    destruct (step w1 e) as [w2|] eqn:Hstep; [|discriminate].
    destruct (step_unheard cb w1 e w2 H1) as [H2 Hh];
      [destruct (isSubscribeOf cb e); [discriminate | reflexivity] | exact Hstep |].
    destruct (IH Hall w2 H2 Hrun) as [Hh' Hn']. split; [congruence | exact Hn'].
Qed.

Lemma unsubscribed_callback_hears_nothing_witness :
  exists w',
    run listeningWorld [EvUnsubscribe 11%nat; EvConnected false 200; EvDestroy]
      = Some w' /\
    heardBy 11%nat (trace w') = heardBy 11%nat (trace listeningWorld) /\
    heardBy 12%nat (trace w') <> heardBy 12%nat (trace listeningWorld).
Proof.
  destruct (run listeningWorld [EvUnsubscribe 11%nat; EvConnected false 200; EvDestroy])
    as [w'|] eqn:E.
  - exists w'. split; [reflexivity|]. split.
    + exact (proj1 (unsubscribed_callback_hears_nothing 11%nat listeningWorld
                      [EvConnected false 200; EvDestroy] w' eq_refl E)).
    + vm_compute in E. injection E as <-. vm_compute. discriminate.
  - exfalso. vm_compute in E. discriminate E.
Defined.

(** ** The signed-in user and the uid of the setup *)

Lemma sameSignIn_refl w : sameSignIn w w.
Proof. reflexivity. Qed.

Lemma sameSignIn_trans w1 w2 w3 : sameSignIn w1 w2 -> sameSignIn w2 w3 -> sameSignIn w1 w3.
Proof. unfold sameSignIn. intros A B. rewrite B. exact A. Qed.

Lemma sameSignIn_lifecycle w w' :
  lifecycle (svc w') = lifecycle (svc w) -> sameSignIn w w'.
Proof.
  unfold lifecycle. intros L. injection L as _ _ _ Ha Hp Hi Hip _ _ Hu Hs.
  unfold sameSignIn, session. rewrite Ha, Hp, Hi, Hip, Hu, Hs. reflexivity.
Qed.

Lemma sameSignIn_cleanup w : sameSignIn w (cleanup w).
Proof.
  pose proof (cleanup_kept w) as (_ & K2 & _ & _ & K5 & K6 & K7 & K8 & _ & K10 & _).
  unfold sameSignIn, session. rewrite K2, K5, K6, K7, K8, K10. reflexivity.
Qed.

Lemma sameSignIn_user w w' : sameSignIn w w' -> sameUser w w'.
Proof.
  unfold sameSignIn, session. intros H. injection H as Hu Hs _ _ _ _.
  split; assumption.
Qed.

Lemma sameUser_refl w : sameUser w w.
Proof. split; reflexivity. Qed.

Lemma sameUser_trans w1 w2 w3 : sameUser w1 w2 -> sameUser w2 w3 -> sameUser w1 w3.
Proof. intros [A1 B1] [A2 B2]. split; congruence. Qed.

Lemma sameSignIn_setupPresence id w : sameSignIn w (setupPresence id w).
Proof.
  unfold setupPresence.
  destruct (setupInProgress (svc w)); [apply sameSignIn_refl|].
  set (w1 := upd (set_setupInProgress true) w).
  apply (sameSignIn_trans w w1); [reflexivity|].
  destruct (negb _).
  - unfold setupPresence_catch.
    destruct (handleSetupError_inner (upd (set_userRef None) w1)) as [_ L].
    exact (sameSignIn_lifecycle _ _ L).
  - cbv zeta. pose proof (sameSignIn_cleanup w1) as Hc.
    revert Hc. generalize (cleanup w1). intros w2 Hc.
    apply (sameSignIn_trans w1 w2 _ Hc).
    cbn [negb userRef svc upd emit emits set_connectedListener set_connectedRef
         set_userRef].
    match goal with
    | |- sameSignIn w2 (setPresenceState ?s ?cd ?k ?w5) =>
        destruct (setPresenceState_inner s cd k w5) as [_ L];
        apply (sameSignIn_trans w2 w5);
          [reflexivity | exact (sameSignIn_lifecycle _ _ L)]
    end.
Qed.

Lemma sameUser_tracks w w' : sameUser w w' -> tracksUser w -> tracksUser w'.
Proof. unfold tracksUser. intros [A B] H. rewrite A, B. exact H. Qed.

Lemma sameSignIn_tracks w w' : sameSignIn w w' -> tracksUser w -> tracksUser w'.
Proof. intros H. exact (sameUser_tracks w w' (sameSignIn_user w w' H)). Qed.

Lemma handleAuthStateChange_tracks user w :
  tracksUser w -> tracksUser (handleAuthStateChange user w).
Proof.
  intros H. unfold handleAuthStateChange. destruct user as [u|].
  - destruct (uid_differs _ _); [|exact H].
    apply (sameSignIn_tracks
             (upd (set_currentSetupUid (Some (uid u))) (upd (set_currentUser (Some u)) w)));
      [apply sameSignIn_setupPresence | reflexivity].
  - pose proof (sameSignIn_user _ _ (sameSignIn_cleanup (upd (set_currentSetupUid None) w)))
      as [Hu Hs].
    revert Hu Hs. generalize (cleanup (upd (set_currentSetupUid None) w)).
    intros w2 Hu Hs.
    destruct (currentUser (svc (upd (set_currentSetupUid None) w))) eqn:E.
    + unfold tracksUser. cbn. rewrite Hs. reflexivity.
    + unfold tracksUser. cbn in *. rewrite E. reflexivity.
Qed.

Lemma sameSignIn_fire h w w' : fire h w = Some w' -> sameSignIn w w'.
Proof.
  unfold fire. destruct (lookup h (timers w)) as [k|]; [|discriminate].
  intros H. injection H as <-.
  set (w0 := mkWorld (svc w) (drop h (timers w)) (suspended w) (fresh w) (trace w)).
  apply (sameSignIn_trans w w0); [reflexivity|].
  destruct k.
  - unfold retryTimerFired. set (w1 := upd (set_retryTimeout None) w0).
    apply (sameSignIn_trans w0 w1); [reflexivity|].
    destruct (currentUser (svc w1)); [|apply sameSignIn_refl].
    destruct (negb _); [apply sameSignIn_setupPresence | apply sameSignIn_refl].
  - unfold awayTimerFired. destruct (PState_eqb _ _); [|apply sameSignIn_refl].
    destruct (setPresenceState_inner away None KDetached w0) as [_ L].
    exact (sameSignIn_lifecycle _ _ L).
Qed.

Lemma sameSignIn_appStateListener s w : sameSignIn w (appStateListener s w).
Proof.
  unfold appStateListener. destruct (_ && _); [|apply sameSignIn_refl].
  unfold handleAppStateChange.
  set (w1 := match awayTimeout (svc w) with Some h => _ | None => w end).
  assert (H1 : sameSignIn w w1).
  { subst w1. destruct (awayTimeout (svc w)); reflexivity. }
  clearbody w1. apply (sameSignIn_trans w w1 _ H1).
  destruct s; try apply sameSignIn_refl.
  - apply (sameSignIn_trans _ (setPresenceState online None KDetached w1)).
    + destruct (setPresenceState_inner online None KDetached w1) as [_ L].
      exact (sameSignIn_lifecycle _ _ L).
    + destruct (setupAwayTimer_inner (setPresenceState online None KDetached w1))
        as [_ L].
      exact (sameSignIn_lifecycle _ _ L).
  - destruct (setPresenceState_inner offline None KDetached w1) as [_ L].
    exact (sameSignIn_lifecycle _ _ L).
  - destruct (setPresenceState_inner offline None KDetached w1) as [_ L].
    exact (sameSignIn_lifecycle _ _ L).
Qed.

Lemma sameSignIn_handleConnectionChange connected now w :
  sameSignIn w (handleConnectionChange connected now w).
Proof.
  unfold handleConnectionChange. destruct connected; cbn [negb].
  - set (w1a := upd (set_retryCount 0) _).
    apply (sameSignIn_trans w w1a); [reflexivity|].
    destruct (_ && _); [|reflexivity].
    apply (sameSignIn_trans _ (setPresenceState
                (currentOrOnline (currentPresenceState (svc w1a))) None KDetached w1a));
      [|reflexivity].
    destruct (setPresenceState_inner
                (currentOrOnline (currentPresenceState (svc w1a))) None KDetached w1a)
      as [_ L].
    exact (sameSignIn_lifecycle _ _ L).
  - set (w1 := upd (set_isConnected false) w).
    destruct (scheduleRetry_inner (notifyConnectionListeners w1)) as [_ L].
    apply (sameSignIn_trans w (notifyConnectionListeners w1)); [reflexivity|].
    exact (sameSignIn_lifecycle _ _ L).
Qed.

Lemma sameSignIn_reply id r w w' : reply id r w = Some w' -> sameSignIn w w'.
Proof.
  unfold reply. destruct (lookup id (suspended w)) as [p|]; [|discriminate].
  intros H. injection H as <-.
  match goal with
  | |- sameSignIn w (resume p r ?w0) =>
      destruct (resume_inner p r w0) as [_ L];
      apply (sameSignIn_trans w w0);
        [reflexivity | exact (sameSignIn_lifecycle _ _ L)]
  end.
Qed.

Lemma sameUser_initialize w : sameUser w (fst (initialize w)).
Proof.
  unfold initialize. destruct (initPromise (svc w)); [apply sameUser_refl|].
  unfold _initialize. destruct (initialized (svc w)); [split; reflexivity|].
  destruct (FirebaseValidator.validateConfig _); [|split; reflexivity].
  destruct (_ || _); split; reflexivity.
Qed.

Lemma sameUser_initialize_logged w : sameUser w (initialize_logged w).
Proof.
  unfold initialize_logged. pose proof (sameUser_initialize w) as H.
  destruct (initialize w) as [w1 pr]. cbn [fst] in H.
  destruct pr; [exact H|].
  apply (sameUser_trans w w1 _ H). split; reflexivity.
Qed.

Lemma sameUser_subscribe cb w : sameUser w (subscribeToConnectionStatus cb w).
Proof.
  unfold subscribeToConnectionStatus.
  pose proof (sameUser_initialize_logged w) as H.
  revert H. generalize (initialize_logged w). intros w1 H.
  apply (sameUser_trans w w1 _ H). split; reflexivity.
Qed.

Lemma sameUser_subscribeToUserPresence userId cb w :
  sameUser w (fst (subscribeToUserPresence userId cb w)).
Proof.
  destruct (subscribeToUserPresence_shape userId cb w) as (m & l & -> & _).
  pose proof (sameUser_initialize_logged w) as H.
  revert H. generalize (initialize_logged w). intros w1 H.
  apply (sameUser_trans w w1 _ H). split; reflexivity.
Qed.

Lemma sameUser_runUnsubscribe u w : sameUser w (runUnsubscribe u w).
Proof.
  destruct (runUnsubscribe_shape u w) as (m & l & -> & _). split; reflexivity.
Qed.

Lemma sameUser_destroy w : sameUser w (fst (destroy w)).
Proof.
  destruct (appStateUnsubscribe (svc w)) eqn:Ea.
  - rewrite (destroy_throws_world w Ea). split; reflexivity.
  - rewrite (destroy_returns_world w Ea). split; reflexivity.
Qed.

Lemma step_tracksUser w e w' : step w e = Some w' -> tracksUser w -> tracksUser w'.
Proof.
  destruct e; cbn [step]; intros H.
  - destruct (authUnsubscribe (svc w)); [|discriminate]. injection H as <-.
    apply handleAuthStateChange_tracks.
  - destruct (appStateUnsubscribe (svc w)); [|discriminate]. injection H as <-.
    apply sameSignIn_tracks, sameSignIn_appStateListener.
  - destruct (isSome _); [|discriminate]. injection H as <-.
    apply sameSignIn_tracks, sameSignIn_handleConnectionChange.
  - destruct (isSome _); [|discriminate]. injection H as <-.
    destruct (handleConnectionError_inner w) as [_ L].
    apply sameSignIn_tracks, sameSignIn_lifecycle, L.
  - apply sameSignIn_tracks. exact (sameSignIn_fire _ _ _ H).
  - apply sameSignIn_tracks. exact (sameSignIn_reply _ _ _ _ H).
  - injection H as <-.
    destruct (setPresenceState_inner state customData (KCaller c) w) as [_ L].
    apply sameSignIn_tracks, sameSignIn_lifecycle, L.
  - injection H as <-. apply sameUser_tracks, sameUser_subscribe.
  - injection H as <-. intros T. exact T.
  - injection H as <-. apply sameUser_tracks, sameUser_subscribeToUserPresence.
  - injection H as <-. apply sameUser_tracks, sameUser_runUnsubscribe.
  - injection H as <-. intros T. exact T.
  - injection H as <-. apply sameUser_tracks, sameUser_destroy.
Qed.

Lemma reachable_tracksUser w : reachable w -> tracksUser w.
Proof.
  induction 1 as [p w Hc | w e w' Hw IH Hstep].
  - unfold constructor in Hc.
    pose proof (sameUser_initialize (newWorld (merge defaults p))) as Hs.
    destruct (initialize _) as [w1 pr]. cbn [fst] in Hs. injection Hc as <-.
    assert (T : tracksUser w1) by (apply (sameUser_tracks _ _ Hs); reflexivity).
    destruct pr; exact T.
  - exact (step_tracksUser w e w' Hstep IH).
Qed.

Lemma same_uid_ignored w u u' :
  tracksUser w -> currentUser (svc w) = Some u -> uid u' = uid u ->
  handleAuthStateChange (Some u') w = w.
Proof.
  intros T Hu Hid. unfold handleAuthStateChange, tracksUser in *.
  rewrite Hu in T. cbn in T. rewrite T, Hid. cbn.
  rewrite String.eqb_refl. reflexivity.
Qed.

(** X18: while a user is the current user, an auth callback that reports a
    user with the same uid changes nothing: no field, no timer, no call.
    This holds in every reachable world, whether the binding exists, its
    setup failed, or the retries are exhausted. *)
Theorem repeated_sign_in_is_ignored w u u' :
  reachable w -> currentUser (svc w) = Some u -> uid u' = uid u ->
  handleAuthStateChange (Some u') w = w.
Proof.
  intros Hr. exact (same_uid_ignored w u u' (reachable_tracksUser w Hr)).
Qed.

Lemma repeated_sign_in_is_ignored_witness :
  currentUser (svc boundWorld) = Some alice /\
  handleAuthStateChange (Some alice) boundWorld = boundWorld.
Proof.
  split; [reflexivity|].
  exact (repeated_sign_in_is_ignored boundWorld alice alice boundWorld_reachable
           eq_refl eq_refl).
Defined.

Lemma run_cons w e es :
  run w (e :: es) = match step w e with Some w1 => run w1 es | None => None end.
Proof. reflexivity. Qed.

Lemma run_nil w : run w [] = Some w.
Proof. reflexivity. Qed.

Lemma step_destroy w : step w EvDestroy = Some (fst (destroy w)).
Proof. reflexivity. Qed.

Lemma step_subscribe w cb :
  step w (EvSubscribe cb) = Some (subscribeToConnectionStatus cb w).
Proof. reflexivity. Qed.

Lemma step_auth w user :
  step w (EvAuth user) =
  if authUnsubscribe (svc w) then Some (handleAuthStateChange user w) else None.
Proof. reflexivity. Qed.

Lemma initialize_logged_memoised w :
  initPromise (svc w) = Some Resolved -> initialize_logged w = w.
Proof.
  intros Hp. unfold initialize_logged, initialize. rewrite Hp. reflexivity.
Qed.

Lemma sameSignIn_deaf w w' : sameSignIn w w' -> deaf w -> deaf w'.
Proof.
  unfold sameSignIn, session, deaf. intros H (Hi & Ha & Hp & Hip).
  injection H as _ _ Ha' Hp' Hi' Hip'.
  rewrite Ha', Hp', Hi', Hip'. repeat split; assumption.
Qed.

(** A service that has ended its identity subscription hears no sign-in
    or sign-out, and no other step assigns the sign-in or the lifecycle
    subscriptions. *)
Lemma step_deaf w e w' :
  step w e = Some w' -> deaf w -> isAuthEvent e = false /\ sameSignIn w w'.
Proof.
  intros H (Hi & Ha & Hp & Hip). destruct e; cbn [step] in H.
  - rewrite Ha in H. discriminate.
  - split; [reflexivity|]. rewrite Hp in H. injection H as <-.
    apply sameSignIn_appStateListener.
  - split; [reflexivity|]. destruct (isSome _); [|discriminate]. injection H as <-.
    apply sameSignIn_handleConnectionChange.
  - split; [reflexivity|]. destruct (isSome _); [|discriminate]. injection H as <-.
    destruct (handleConnectionError_inner w) as [_ L].
    exact (sameSignIn_lifecycle _ _ L).
  - split; [reflexivity | exact (sameSignIn_fire _ _ _ H)].
  - split; [reflexivity | exact (sameSignIn_reply _ _ _ _ H)].
  - split; [reflexivity|]. injection H as <-.
    destruct (setPresenceState_inner state customData (KCaller c) w) as [_ L].
    exact (sameSignIn_lifecycle _ _ L).
  - split; [reflexivity|]. injection H as <-.
    unfold subscribeToConnectionStatus. rewrite (initialize_logged_memoised w Hip).
    reflexivity.
  - split; [reflexivity|]. injection H as <-. reflexivity.
  - split; [reflexivity|]. injection H as <-.
    destruct (subscribeToUserPresence_shape userId cb w) as (m & l & -> & _).
    rewrite (initialize_logged_memoised w Hip). reflexivity.
  - split; [reflexivity|]. injection H as <-.
    destruct (runUnsubscribe_shape u w) as (m & l & -> & _). reflexivity.
  - split; [reflexivity|]. injection H as <-. reflexivity.
  - split; [reflexivity|]. injection H as <-.
    rewrite (destroy_throws_world w Hp). unfold sameSignIn, session, halfDestroyedWorld.
    cbn. rewrite Ha. reflexivity.
Qed.

Lemma run_deaf es :
  forall w w', run w es = Some w' -> deaf w ->
    forallb (fun e => negb (isAuthEvent e)) es = true /\ sameSignIn w w'.
Proof.
  induction es as [|e es IH]; intros w w' Hrun Hd.
  - rewrite run_nil in Hrun. injection Hrun as <-. split; reflexivity.
  - rewrite run_cons in Hrun. destruct (step w e) as [w1|] eqn:Hstep; [|discriminate].
    destruct (step_deaf w e w1 Hstep Hd) as [He H1].
    destruct (IH w1 w' Hrun (sameSignIn_deaf w w1 H1 Hd)) as [Hall H2].
    split; [cbn [forallb]; rewrite He, Hall; reflexivity|].
    exact (sameSignIn_trans _ _ _ H1 H2).
Qed.

(** X19: [destroy] on an initialised service ends the identity
    subscription and then throws, and from then on the service never hears
    the identity provider again.  Whatever is called afterwards, including
    [subscribeToConnectionStatus] and [subscribeToUserPresence], whose
    [initialize] is memoised, and further calls of [destroy], the service
    stays initialised without the identity subscription, still holds the
    app-lifecycle subscription, and keeps the user who was signed in when
    [destroy] was called: no sign-in or sign-out is or can be delivered. *)
Theorem destroy_leaves_service_deaf w es w' :
  reachable w -> initialized (svc w) = true ->
  run w (EvDestroy :: es) = Some w' ->
  snd (destroy w) = Throw notAFunction /\
  initialized (svc w') = true /\
  authUnsubscribe (svc w') = false /\
  appStateUnsubscribe (svc w') = true /\
  currentUser (svc w') = currentUser (svc w) /\
  currentSetupUid (svc w') = currentSetupUid (svc w) /\
  forallb (fun e => negb (isAuthEvent e)) es = true /\
  (forall user, step w' (EvAuth user) = None).
Proof.
  intros Hr Hi Hrun.
  destruct (subscriptions_reachable w Hr) as (_ & _ & _ & Hp & Hip).
  rewrite Hi in Hp. specialize (Hip Hi).
  rewrite run_cons, step_destroy, (destroy_throws_world w Hp) in Hrun.
  rewrite (destroy_throws_world w Hp). cbn [fst snd] in *.
  assert (Hd : deaf (halfDestroyedWorld w)) by (repeat split; assumption).
  destruct (run_deaf es _ w' Hrun Hd) as [Hall Hs].
  destruct (sameSignIn_deaf _ _ Hs Hd) as (Hi' & Ha' & Hp' & _).
  destruct (sameSignIn_user _ _ Hs) as [Hu' Hs'].
  split; [reflexivity|]. repeat (split; [assumption|]).
  intros user. rewrite step_auth, Ha'. reflexivity.
Qed.

Lemma destroy_leaves_service_deaf_witness :
  reachable boundWorld /\
  initialized (svc boundWorld) = true /\
  authUnsubscribe (svc boundWorld) = true /\
  exists w',
    run boundWorld [EvDestroy; EvSubscribe 11%nat; EvConnected false 200; EvDestroy]
      = Some w' /\
    authUnsubscribe (svc w') = false /\
    currentUser (svc w') = Some alice /\
    step w' (EvAuth None) = None.
Proof.
  split; [exact boundWorld_reachable|]. split; [reflexivity|]. split; [reflexivity|].
  destruct (run boundWorld [EvDestroy; EvSubscribe 11%nat; EvConnected false 200;
                            EvDestroy]) as [w'|] eqn:E.
  - exists w'. split; [reflexivity|].
    destruct (destroy_leaves_service_deaf boundWorld
                [EvSubscribe 11%nat; EvConnected false 200; EvDestroy] w'
                boundWorld_reachable eq_refl E)
      as (_ & _ & Ha & _ & Hu & _ & _ & Hs).
    split; [exact Ha|]. split; [exact Hu | exact (Hs None)].
  - exfalso. vm_compute in E. discriminate E.
Defined.

(** ** Watching the presence of other users *)

Lemma map_get_set k k' v m :
  map_get k (map_set k' v m) = if String.eqb k' k then Some v else map_get k m.
Proof.
  induction m as [|[k0 v0] m IH]; cbn.
  - destruct (String.eqb k' k); reflexivity.
  - destruct (String.eqb k0 k') eqn:E0; cbn.
    + apply String.eqb_eq in E0. subst k0.
      destruct (String.eqb k' k); reflexivity.
    + destruct (String.eqb k0 k) eqn:E1; [|exact IH].
      apply String.eqb_eq in E1. subst k0. rewrite String.eqb_sym, E0. reflexivity.
Qed.

Lemma map_get_delete k k' m :
  map_get k (map_delete k' m) = if String.eqb k' k then None else map_get k m.
Proof.
  unfold map_delete. induction m as [|[k0 v0] m IH]; cbn [filter map_get fst].
  - destruct (String.eqb k' k); reflexivity.
  - destruct (String.eqb k0 k') eqn:E0; cbn [negb map_get].
    + apply String.eqb_eq in E0. subst k0. rewrite IH.
      destruct (String.eqb k' k); reflexivity.
    + rewrite IH. destruct (String.eqb k0 k) eqn:E1; [|reflexivity].
      apply String.eqb_eq in E1. subst k0. rewrite String.eqb_sym, E0. reflexivity.
Qed.

Lemma map_set_absent k v m : map_get k m = None -> map_set k v m = m ++ [(k, v)].
Proof.
  induction m as [|[k0 v0] m IH]; cbn; [reflexivity|].
  destruct (String.eqb k0 k); [discriminate|]. intros H. rewrite (IH H). reflexivity.
Qed.

Lemma map_set_set k v v' m : map_set k v (map_set k v' m) = map_set k v m.
Proof.
  induction m as [|[k0 v0] m IH]; cbn.
  - rewrite String.eqb_refl. reflexivity.
  - destruct (String.eqb k0 k) eqn:E; cbn.
    + rewrite String.eqb_refl. reflexivity.
    + rewrite E, IH. reflexivity.
Qed.

Lemma map_set_same k v m : map_get k m = Some v -> map_set k v m = m.
Proof.
  induction m as [|[k0 v0] m IH]; cbn; [discriminate|].
  destruct (String.eqb k0 k) eqn:E.
  - intros H. injection H as <-. apply String.eqb_eq in E. subst k0. reflexivity.
  - intros H. rewrite (IH H). reflexivity.
Qed.

Lemma map_delete_absent k m : map_get k m = None -> map_delete k m = m.
Proof.
  unfold map_delete. induction m as [|[k0 v0] m IH]; cbn [filter map_get fst];
    [reflexivity|].
  destruct (String.eqb k0 k); [discriminate|]. intros H. cbn [negb].
  rewrite (IH H). reflexivity.
Qed.

Lemma map_delete_set_absent k v m :
  map_get k m = None -> map_delete k (map_set k v m) = m.
Proof.
  intros H. rewrite (map_set_absent k v m H). unfold map_delete.
  rewrite filter_app. cbn. rewrite String.eqb_refl. cbn. rewrite app_nil_r.
  apply (map_delete_absent k m H).
Qed.

Lemma set_add_absent cb l : ~ In cb l -> set_add cb l = l ++ [cb].
Proof.
  induction l as [|x l IH]; cbn; [reflexivity|].
  intros H. destruct (Nat.eqb x cb) eqn:E.
  - exfalso. apply H. left. apply Nat.eqb_eq. exact E.
  - rewrite IH; [reflexivity|]. intros Hin. apply H. right. exact Hin.
Qed.

Lemma set_delete_absent cb l : ~ In cb l -> set_delete cb l = l.
Proof.
  induction l as [|x l IH]; cbn; [reflexivity|].
  intros H. destruct (Nat.eqb x cb) eqn:E; cbn.
  - exfalso. apply H. left. apply Nat.eqb_eq. exact E.
  - unfold set_delete in IH. rewrite IH; [reflexivity|].
    intros Hin. apply H. right. exact Hin.
Qed.

Lemma set_delete_add cb l : ~ In cb l -> set_delete cb (set_add cb l) = l.
Proof.
  intros H. rewrite (set_add_absent cb l H). unfold set_delete.
  rewrite filter_app. cbn. rewrite Nat.eqb_refl. cbn. rewrite app_nil_r.
  apply (set_delete_absent cb l H).
Qed.

Lemma set_add_has cb l : In cb (set_add cb l).
Proof.
  induction l as [|x l IH]; cbn; [left; reflexivity|].
  destruct (Nat.eqb x cb) eqn:E.
  - left. apply Nat.eqb_eq. exact E.
  - right. exact IH.
Qed.

Lemma set_delete_hasnt cb l : ~ In cb (set_delete cb l).
Proof.
  unfold set_delete. intros H. apply filter_In in H. destruct H as [_ H].
  rewrite Nat.eqb_refl in H. discriminate.
Qed.

Lemma initialize_logged_frame w :
  config (svc (initialize_logged w)) = config (svc w) /\
  presenceListeners (svc (initialize_logged w)) = presenceListeners (svc w).
Proof.
  unfold initialize_logged, initialize.
  destruct (initPromise (svc w)) as [[|e]|]; [split; reflexivity ..|].
  unfold _initialize. destruct (initialized (svc w)); [split; reflexivity|].
  destruct (FirebaseValidator.validateConfig _); [|split; reflexivity].
  destruct (_ || _); split; reflexivity.
Qed.

(** What [subscribeToUserPresence] does once the service is started and the
    store handle is there. *)
Lemma subscribeToUserPresence_world uid cb w :
  truthy (database (config (svc w))) = true ->
  let w0 := initialize_logged w in
  let r := (databasePath (config (svc w)) ++ "/" ++ uid)%string in
  subscribeToUserPresence uid cb w =
  (emit (OnValue r)
        (upd (set_presenceListeners
                (map_set uid (set_add cb (userListeners uid w))
                         (presenceListeners (svc w)))) w0),
   UserPresenceUnsubscribe r uid cb).
Proof.
  intros Hdb w0 r. unfold subscribeToUserPresence.
  destruct (initialize_logged_frame w) as [Hc Hp].
  fold w0 in Hc, Hp |- *. rewrite Hc, Hp, Hdb. cbn [negb].
  unfold map_has, userListeners.
  destruct (map_get uid (presenceListeners (svc w))) as [s|] eqn:E; cbn [isSome negb].
  - rewrite E. reflexivity.
  - rewrite map_get_set, String.eqb_refl, map_set_set. reflexivity.
Qed.

Lemma runUnsubscribe_world r uid cb w :
  trace (runUnsubscribe (UserPresenceUnsubscribe r uid cb) w) = trace w ++ [OffValue r] /\
  presenceListeners (svc (runUnsubscribe (UserPresenceUnsubscribe r uid cb) w)) =
    match map_get uid (presenceListeners (svc w)) with
    | Some l =>
        if Nat.eqb (List.length (set_delete cb l)) 0
        then map_delete uid (map_set uid (set_delete cb l) (presenceListeners (svc w)))
        else map_set uid (set_delete cb l) (presenceListeners (svc w))
    | None => presenceListeners (svc w)
    end.
Proof.
  unfold runUnsubscribe. cbn [svc emit emits upd presenceListeners].
  destruct (map_get uid (presenceListeners (svc w))); split; reflexivity.
Qed.

(** X20: subscribing a callback to a user's presence and then calling the
    returned function is a round trip: the callback is registered in
    between, the map of presence listeners ends as it began, and the store
    subscription on [<databasePath>/<uid>] that was opened is closed.  The
    store handle must be there, and the callback not yet registered for
    that uid. *)
Theorem user_presence_subscription_round_trip uid cb w w1 u :
  truthy (database (config (svc w))) = true ->
  noEmptySet (presenceListeners (svc w)) ->
  ~ In cb (userListeners uid w) ->
  subscribeToUserPresence uid cb w = (w1, u) ->
  In cb (userListeners uid w1) /\
  presenceListeners (svc (runUnsubscribe u w1)) = presenceListeners (svc w) /\
  trace (runUnsubscribe u w1) =
    trace (initialize_logged w)
      ++ [OnValue (databasePath (config (svc w)) ++ "/" ++ uid)%string;
          OffValue (databasePath (config (svc w)) ++ "/" ++ uid)%string].
Proof.
  intros Hdb Hne Hcb Hsub.
  rewrite (subscribeToUserPresence_world uid cb w Hdb) in Hsub.
  set (r := (databasePath (config (svc w)) ++ "/" ++ uid)%string) in *.
  set (m1 := map_set uid (set_add cb (userListeners uid w)) (presenceListeners (svc w)))
    in *.
  injection Hsub as H1 Hu. subst u.
  assert (Hg : map_get uid m1 = Some (set_add cb (userListeners uid w)))
    by (unfold m1; rewrite map_get_set, String.eqb_refl; reflexivity).
  assert (F : presenceListeners (svc w1) = m1 /\
              trace w1 = trace (initialize_logged w) ++ [OnValue r])
    by (rewrite <- H1; split; reflexivity).
  clear H1. destruct F as [Fl Ft].
  destruct (runUnsubscribe_world r uid cb w1) as [Ht Hl].
  rewrite Fl, Hg, (set_delete_add cb _ Hcb) in Hl.
  split; [|split].
  - unfold userListeners at 1. rewrite Fl, Hg. apply set_add_has.
  - rewrite Hl. unfold m1. rewrite map_set_set. unfold userListeners in *.
    destruct (map_get uid (presenceListeners (svc w))) as [s|] eqn:E.
    + destruct s as [|x s]; [exfalso; exact (Hne uid E)|]. cbn [List.length Nat.eqb].
      apply map_set_same. exact E.
    + cbn [List.length Nat.eqb]. apply map_delete_set_absent. exact E.
  - rewrite Ht, Ft, <- app_assoc. reflexivity.
Qed.

Lemma user_presence_subscription_round_trip_witness :
  exists w1 u,
    subscribeToUserPresence "B" 21%nat boundWorld = (w1, u) /\
    In 21%nat (userListeners "B" w1) /\
    presenceListeners (svc (runUnsubscribe u w1)) = [].
Proof.
  destruct (subscribeToUserPresence "B" 21%nat boundWorld) as [w1 u] eqn:E.
  exists w1, u. split; [reflexivity|].
  assert (Hne : noEmptySet (presenceListeners (svc boundWorld)))
    by (intros k; discriminate).
  assert (Hcb : ~ In 21%nat (userListeners "B" boundWorld)) by (intros []).
  destruct (user_presence_subscription_round_trip "B" 21%nat boundWorld w1 u
              eq_refl Hne Hcb E) as (H1 & H2 & _).
  split; [exact H1 | exact H2].
Defined.

Lemma noEmptySet_subscribe uid cb w :
  noEmptySet (presenceListeners (svc w)) ->
  noEmptySet (presenceListeners (svc (fst (subscribeToUserPresence uid cb w)))).
Proof.
  intros Hne. unfold subscribeToUserPresence.
  destruct (initialize_logged_frame w) as [Hc Hp].
  revert Hc Hp. generalize (initialize_logged w). intros w0 Hc Hp.
  destruct (negb _); cbn [fst]; [rewrite Hp; exact Hne|].
  rewrite Hp. unfold map_has.
  destruct (map_get uid (presenceListeners (svc w))) as [s|] eqn:E; cbn [isSome negb].
  - rewrite E. cbn. intros k. rewrite map_get_set.
    destruct (String.eqb uid k); [|apply Hne].
    intros H. injection H as H. pose proof (set_add_has cb s) as Hin.
    rewrite H in Hin. destruct Hin.
  - rewrite map_get_set, String.eqb_refl. cbn. intros k.
    rewrite map_set_set, map_get_set.
    destruct (String.eqb uid k); [discriminate | apply Hne].
Qed.

Lemma noEmptySet_unsubscribe u w :
  noEmptySet (presenceListeners (svc w)) ->
  noEmptySet (presenceListeners (svc (runUnsubscribe u w))).
Proof.
  intros Hne. destruct u as [|r uid cb]; [exact Hne|].
  unfold runUnsubscribe. cbn [svc emit emits upd presenceListeners].
  destruct (map_get uid (presenceListeners (svc w))) as [s|] eqn:E; [|exact Hne].
  cbn [svc upd presenceListeners set_presenceListeners]. intros k.
  destruct (set_delete cb s) as [|x s'] eqn:Es; cbn [List.length Nat.eqb].
  - rewrite map_get_delete. destruct (String.eqb uid k) eqn:Ek; [discriminate|].
    rewrite map_get_set, Ek. apply Hne.
  - rewrite map_get_set. destruct (String.eqb uid k); [discriminate | apply Hne].
Qed.

(** X21: the map of presence listeners never keeps a uid with an empty
    set of callbacks: [subscribeToUserPresence] and every function it
    returns preserve this, whichever order they are called in, so the
    size of the map is the number of users being watched. *)
Theorem presence_listeners_have_no_empty_set uid cb u w :
  noEmptySet (presenceListeners (svc w)) ->
  noEmptySet (presenceListeners (svc (fst (subscribeToUserPresence uid cb w)))) /\
  noEmptySet (presenceListeners (svc (runUnsubscribe u w))).
Proof.
  intros Hne. split; [apply noEmptySet_subscribe | apply noEmptySet_unsubscribe];
    exact Hne.
Qed.

Lemma presence_listeners_have_no_empty_set_witness :
  noEmptySet (presenceListeners (svc (fst (subscribeToUserPresence "C" 22%nat
                                              watchingWorld)))) /\
  noEmptySet (presenceListeners
                (svc (runUnsubscribe
                        (UserPresenceUnsubscribe "presence/B" "B" 21%nat)
                        watchingWorld))).
Proof.
  apply presence_listeners_have_no_empty_set.
  intros k. unfold watchingWorld. cbn -[String.eqb].
  destruct (String.eqb "B" k); discriminate.
Defined.

Lemma set_add_idem cb l : In cb l -> set_add cb l = l.
Proof.
  induction l as [|x l IH]; cbn; [intros []|].
  destruct (Nat.eqb x cb) eqn:E; [reflexivity|].
  intros [H|H]; [subst x; rewrite Nat.eqb_refl in E; discriminate|].
  rewrite (IH H). reflexivity.
Qed.

(** X22: the bookkeeping holds a callback once per uid, the store one
    subscription per call.  When a started service is asked twice to
    subscribe the same callback to the same uid, the first returned
    function unregisters the callback although one store subscription
    stays open, and the second returned function closes that one and
    leaves the map alone. *)
Theorem duplicate_user_subscription uid cb w w1 u1 w2 u2 :
  truthy (database (config (svc w))) = true ->
  initPromise (svc w) = Some Resolved ->
  subscribeToUserPresence uid cb w = (w1, u1) ->
  subscribeToUserPresence uid cb w1 = (w2, u2) ->
  let r := (databasePath (config (svc w)) ++ "/" ++ uid)%string in
  let w3 := runUnsubscribe u1 w2 in
  ~ In cb (userListeners uid w3) /\
  trace w3 = trace w ++ [OnValue r; OnValue r; OffValue r] /\
  presenceListeners (svc (runUnsubscribe u2 w3)) = presenceListeners (svc w3) /\
  trace (runUnsubscribe u2 w3) = trace w3 ++ [OffValue r].
Proof.
  intros Hdb Hp H1 H2 r w3.
  rewrite (subscribeToUserPresence_world uid cb w Hdb) in H1.
  rewrite (initialize_logged_memoised w Hp) in H1. fold r in H1.
  injection H1 as H1 Hu1.
  set (s1 := set_add cb (userListeners uid w)) in *.
  set (m1 := map_set uid s1 (presenceListeners (svc w))) in *.
  assert (Hg1 : map_get uid m1 = Some s1)
    by (unfold m1; rewrite map_get_set, String.eqb_refl; reflexivity).
  assert (Hs1 : In cb s1) by apply set_add_has.
  assert (F1 : config (svc w1) = config (svc w) /\
               presenceListeners (svc w1) = m1 /\
               initPromise (svc w1) = Some Resolved /\
               trace w1 = trace w ++ [OnValue r]).
  { rewrite <- H1. repeat split. exact Hp. }
  clear H1. destruct F1 as (Hc1 & Hl1 & Hp1 & Ht1).
  assert (Hdb1 : truthy (database (config (svc w1))) = true) by (rewrite Hc1; exact Hdb).
  rewrite (subscribeToUserPresence_world uid cb w1 Hdb1) in H2.
  rewrite (initialize_logged_memoised w1 Hp1), Hc1 in H2. fold r in H2.
  unfold userListeners in H2. rewrite Hl1, Hg1, (set_add_idem cb s1 Hs1) in H2.
  rewrite (map_set_same uid s1 m1 Hg1) in H2.
  injection H2 as H2 Hu2.
  assert (F2 : presenceListeners (svc w2) = m1 /\
               trace w2 = trace w ++ [OnValue r; OnValue r]).
  { rewrite <- H2. split; [reflexivity|]. cbn. rewrite Ht1, <- app_assoc. reflexivity. }
  clear H2. destruct F2 as (Hl2 & Ht2).
  destruct (runUnsubscribe_world r uid cb w2) as [Ht3 Hl3].
  rewrite Hl2, Hg1 in Hl3. rewrite Ht2, <- app_assoc in Ht3. cbn [app] in Ht3.
  subst u1. fold w3 in Ht3, Hl3.
  destruct (runUnsubscribe_world r uid cb w3) as [Ht4 Hl4].
  subst u2. clearbody w3.
  pose proof (set_delete_hasnt cb s1) as Hd.
  assert (Hg3 : map_get uid (presenceListeners (svc w3)) =
                match set_delete cb s1 with [] => None | _ => Some (set_delete cb s1) end).
  { rewrite Hl3. destruct (set_delete cb s1) as [|x l]; cbn [List.length Nat.eqb].
    - rewrite map_get_delete, String.eqb_refl. reflexivity.
    - rewrite map_get_set, String.eqb_refl. reflexivity. }
  split; [|split; [exact Ht3 | split; [|exact Ht4]]].
  - unfold userListeners. rewrite Hg3.
    destruct (set_delete cb s1) as [|x l]; [intros [] | exact Hd].
  - rewrite Hl4, Hg3. destruct (set_delete cb s1) as [|x l] eqn:Es; [reflexivity|].
    rewrite (set_delete_absent cb (x :: l) Hd). cbn [List.length Nat.eqb].
    apply map_set_same. exact Hg3.
Qed.

Lemma duplicate_user_subscription_witness :
  exists w1 u1 w2 u2,
    subscribeToUserPresence "B" 21%nat boundWorld = (w1, u1) /\
    subscribeToUserPresence "B" 21%nat w1 = (w2, u2) /\
    userListeners "B" w2 = [21%nat] /\
    userListeners "B" (runUnsubscribe u1 w2) = [] /\
    trace (runUnsubscribe u1 w2) =
      trace boundWorld ++ [OnValue "presence/B"; OnValue "presence/B";
                           OffValue "presence/B"]%string.
Proof.
  destruct (subscribeToUserPresence "B" 21%nat boundWorld) as [w1 u1] eqn:E1.
  destruct (subscribeToUserPresence "B" 21%nat w1) as [w2 u2] eqn:E2.
  exists w1, u1, w2, u2. split; [reflexivity|]. split; [exact E2|].
  destruct (duplicate_user_subscription "B" 21%nat boundWorld w1 u1 w2 u2
              eq_refl eq_refl E1 E2) as (H1 & H2 & _).
  vm_compute in E1. injection E1 as <- <-.
  vm_compute in E2. injection E2 as <- <-.
  split; [vm_compute; reflexivity|]. split; [vm_compute; reflexivity | exact H2].
Defined.

(** ** The global service of [src/config/index.ts] *)

Lemma onInstance_length r f l : List.length (onInstance r f l) = List.length l.
Proof.
  revert r. induction l as [|w l IH]; intros r; [destruct r; reflexivity|].
  destruct r; cbn; [reflexivity | rewrite IH; reflexivity].
Qed.

Lemma onInstance_same r f l w :
  nth_error l r = Some w -> nth_error (onInstance r f l) r = Some (f w).
Proof.
  revert r. induction l as [|x l IH]; intros r; destruct r; cbn; try discriminate.
  - intros H. injection H as ->. reflexivity.
  - apply IH.
Qed.

Lemma onInstance_other r f l i :
  i <> r -> nth_error (onInstance r f l) i = nth_error l i.
Proof.
  revert r i. induction l as [|x l IH]; intros r i Hi; [destruct r; reflexivity|].
  destruct r, i; cbn; try reflexivity; [contradiction|].
  apply IH. intros ->. apply Hi. reflexivity.
Qed.

Lemma constructor_fresh config :
  exists w, constructor config = Normal w /\ listeners (svc w) = [] /\
            presenceListeners (svc w) = [] /\ userRef (svc w) = None /\
            currentUser (svc w) = None.
Proof.
  unfold constructor.
  pose proof (initialize_listeners (newWorld (merge defaults config))) as [Hl _].
  pose proof (initialize_keeps (newWorld (merge defaults config))) as [[Hu Hr] _].
  assert (Hp : presenceListeners (svc (fst (initialize (newWorld (merge defaults config)))))
               = []).
  { unfold initialize. cbn [initPromise svc newWorld newService].
    unfold _initialize. cbn [initialized svc newWorld newService].
    destruct (FirebaseValidator.validateConfig _); [|reflexivity].
    destruct (_ || _); reflexivity. }
  destruct (initialize _) as [w1 pr]. cbn [fst] in *.
  assert (Hr' : userRef (svc w1) = None) by (destruct Hr as [Hr|Hr]; exact Hr).
  destruct pr; eexists; (split; [reflexivity|]); cbn; repeat split; assumption.
Qed.

Lemma destroyInstance_spec r l w :
  nth_error l r = Some w ->
  exists l',
    destroyInstance r l = (l', snd (destroy w)) /\
    List.length l' = List.length l /\
    nth_error l' r = Some (fst (destroy w)) /\
    (forall i, i <> r -> nth_error l' i = nth_error l i).
Proof.
  intros Hw. unfold destroyInstance. rewrite Hw. eexists. split; [reflexivity|].
  split; [apply onInstance_length|].
  split; [exact (onInstance_same r (fun w0 => fst (destroy w0)) l w Hw)|].
  intros i Hi. apply onInstance_other. exact Hi.
Qed.

Lemma nth_error_snoc {A : Type} (l : list A) (x : A) i :
  i <> List.length l -> nth_error (l ++ [x]) i = nth_error l i.
Proof.
  intros Hi. destruct (Nat.lt_ge_cases i (List.length l)) as [Hlt|Hge].
  - apply nth_error_app1. exact Hlt.
  - rewrite nth_error_app2 by exact Hge.
    assert (Hn : nth_error l i = None) by (apply nth_error_None; exact Hge).
    rewrite Hn. destruct (i - List.length l)%nat as [|n] eqn:En.
    + exfalso. apply Hi. apply Nat.le_antisymm; [|exact Hge].
      apply Nat.sub_0_le. exact En.
    + cbn. destruct n; reflexivity.
Qed.

(** X23: [configurePresence] calls [destroy] on the instance that was
    global before it enters its [try].  When that instance holds the
    app-lifecycle subscription, as every initialised service does, the
    [TypeError] of [destroy] leaves [configurePresence]: no instance is
    constructed, the global service stays the old one, which has lost
    only its identity subscription, and every other instance is left
    alone.  When there is no global instance, or it does not hold that
    subscription, [configurePresence] returns, whatever the configuration
    (the constructor does not throw, so the [CONFIG_FAILED] handler is not
    entered): it returns a new instance that no listener is registered on,
    makes it the one [getGlobalPresenceService] returns, and has destroyed
    the instance that was global before. *)
Theorem configurePresence_replaces_global config g :
  globalsOk g ->
  (globalHoldsAppState g = true ->
   exists g' r0 w0,
     globalPresenceService g = Some r0 /\
     nth_error (instances g) r0 = Some w0 /\
     configurePresence config g = (g', Throw notAFunction) /\
     getGlobalPresenceService g' = Normal r0 /\
     List.length (instances g') = List.length (instances g) /\
     nth_error (instances g') r0 = Some (halfDestroyedWorld w0) /\
     (forall i, i <> r0 -> nth_error (instances g') i = nth_error (instances g) i)) /\
  (globalHoldsAppState g = false ->
   exists g' r w,
     configurePresence config g = (g', Normal r) /\
     getGlobalPresenceService g' = Normal r /\
     r = List.length (instances g) /\
     nth_error (instances g') r = Some w /\
     constructor config = Normal w /\
     listeners (svc w) = [] /\
     (forall r0 w0, globalPresenceService g = Some r0 ->
                    nth_error (instances g) r0 = Some w0 ->
                    nth_error (instances g') r0 = Some (destroyedWorld w0)) /\
     (forall i, i <> r -> globalPresenceService g <> Some i ->
                nth_error (instances g') i = nth_error (instances g) i)).
Proof.
  intros Hok. unfold globalsOk in Hok.
  unfold globalHoldsAppState, globalInstance, configurePresence.
  destruct (globalPresenceService g) as [r0|] eqn:Hg.
  - destruct (nth_error (instances g) r0) as [w0|] eqn:Hw0;
      [|exfalso; apply nth_error_None in Hw0; lia].
    destruct (destroyInstance_spec r0 (instances g) w0 Hw0)
      as (l' & Hd & Hlen & Hsame & Hother).
    rewrite Hd. split; intros Ha.
    + rewrite (destroy_throws_world w0 Ha) in *. cbn [fst snd] in *.
      exists (mkGlobals l' (Some r0)), r0, w0.
      repeat (split; [first [reflexivity | assumption]|]). exact Hother.
    + rewrite (destroy_returns_world w0 Ha) in *. cbn [fst snd] in *.
      destruct (constructor_fresh config) as (w & Hc & Hl & _). rewrite Hc.
      cbn [instances]. rewrite Hlen.
      exists (mkGlobals (l' ++ [w]) (Some (List.length (instances g)))),
             (List.length (instances g)), w.
      split; [reflexivity|]. split; [reflexivity|]. split; [reflexivity|].
      cbn [instances].
      split; [rewrite <- Hlen, nth_error_app2, Nat.sub_diag;
              [reflexivity | apply Nat.le_refl]|].
      split; [reflexivity|]. split; [exact Hl|]. split.
      * intros r1 w1 Hr1 Hw1. injection Hr1 as <-. rewrite Hw0 in Hw1.
        injection Hw1 as <-.
        rewrite nth_error_app1 by (rewrite Hlen; exact Hok). exact Hsame.
      * intros i Hi Hgi. rewrite nth_error_snoc by (rewrite Hlen; exact Hi).
        apply Hother. intros ->. apply Hgi. reflexivity.
  - split; intros Ha; [discriminate|].
    destruct (constructor_fresh config) as (w & Hc & Hl & _). rewrite Hc.
    exists (mkGlobals (instances g ++ [w]) (Some (List.length (instances g)))),
           (List.length (instances g)), w.
    split; [reflexivity|]. split; [reflexivity|]. split; [reflexivity|].
    cbn [instances].
    split; [rewrite nth_error_app2, Nat.sub_diag; [reflexivity | apply Nat.le_refl]|].
    split; [reflexivity|]. split; [exact Hl|]. split.
    + intros r1 w1 Hr1. discriminate.
    + intros i Hi _. apply nth_error_snoc. exact Hi.
Qed.

Lemma configurePresence_replaces_global_witness :
  globalsOk listeningGlobals /\ globalHoldsAppState listeningGlobals = true /\
  (exists g',
     configurePresence emptyCfg listeningGlobals = (g', Throw notAFunction) /\
     getGlobalPresenceService g' = Normal 0%nat /\
     List.length (instances g') = 1%nat) /\
  globalsOk repairedGlobals /\ globalHoldsAppState repairedGlobals = false /\
  (exists g' w,
     configurePresence emptyCfg repairedGlobals = (g', Normal 1%nat) /\
     getGlobalPresenceService g' = Normal 1%nat /\
     nth_error (instances g') 1 = Some w /\
     nth_error (instances g') 0 = Some (destroyedWorld repairedWorld)).
Proof.
  assert (Hok : globalsOk listeningGlobals) by (unfold globalsOk; cbn; lia).
  assert (Hok' : globalsOk repairedGlobals) by (unfold globalsOk; cbn; lia).
  split; [exact Hok|]. split; [reflexivity|]. split; [|split; [exact Hok'|split]].
  - destruct (proj1 (configurePresence_replaces_global emptyCfg listeningGlobals Hok)
                eq_refl)
      as (g' & r0 & w0 & Hr0 & _ & H1 & H2 & H3 & _).
    injection Hr0 as <-. exists g'. repeat split; assumption.
  - reflexivity.
  - destruct (proj2 (configurePresence_replaces_global emptyCfg repairedGlobals Hok')
                eq_refl)
      as (g' & r & w & H1 & H2 & H3 & H4 & _ & _ & H7 & _).
    cbn in H3. subst r. exists g', w.
    split; [exact H1|]. split; [exact H2|]. split; [exact H4|].
    exact (H7 0%nat repairedWorld eq_refl eq_refl).
Defined.

(** ** Hooks and components *)

Lemma usersInState_spec st presences u :
  NoDup (map fst presences) ->
  In u (usersInState st presences) <->
  exists v, obj_get u presences = Some v /\ stateIs st v = true.
Proof.
  unfold usersInState. induction presences as [|[k v] o IH]; cbn [map fst]; intros Hnd.
  - cbn. split; [intros [] | intros (v & H & _); discriminate].
  - inversion Hnd as [|? ? Hk Hnd']; subst. specialize (IH Hnd').
    cbn [filter snd obj_get]. destruct (String.eqb k u) eqn:E.
    + apply String.eqb_eq in E. subst k. split.
      * intros Hin. destruct (stateIs st v) eqn:Es.
        -- exists v. split; [reflexivity | exact Es].
        -- exfalso. apply Hk. apply IH in Hin. destruct Hin as (v' & Hg & _).
           clear -Hg. induction o as [|[k' v0] o IHo]; [discriminate|].
           cbn in Hg |- *. destruct (String.eqb k' u) eqn:E'.
           ++ left. apply String.eqb_eq. exact E'.
           ++ right. apply IHo. exact Hg.
      * intros (v' & Hv & Hs). injection Hv as <-. rewrite Hs. left. reflexivity.
    + rewrite <- IH. destruct (stateIs st v); [|reflexivity].
      cbn [map fst In]. split; [intros [H|H]; [|exact H] | intros H; right; exact H].
      subst k. rewrite String.eqb_refl in E. discriminate.
Qed.

Lemma stateIs_one st st' v : stateIs st v = true -> stateIs st' v = true -> st = st'.
Proof.
  destruct v as [p|]; cbn; [|discriminate].
  intros H1 H2. apply String.eqb_eq in H1, H2. congruence.
Qed.

(** X24: what [useMultipleUsersPresence] derives from its state: a user id
    is in [onlineUsers] exactly when [isUserOnline] holds for it, no user
    id is in two of the four lists, and a user whose presence is [null]
    or unknown is in none. *)
Theorem presence_lists_partition presences u :
  NoDup (map fst presences) ->
  (In u (onlineUsers presences) <-> isUserOnline presences u = true) /\
  (forall st st', In u (usersInState st presences) ->
                  In u (usersInState st' presences) -> st = st') /\
  (forall st, obj_get u presences = Some None \/ obj_get u presences = None ->
              ~ In u (usersInState st presences)).
Proof.
  intros Hnd. split; [|split].
  - unfold onlineUsers, isUserOnline. rewrite (usersInState_spec _ _ _ Hnd). split.
    + intros (v & Hg & Hs). rewrite Hg. exact Hs.
    + destruct (obj_get u presences) as [v|]; [|discriminate].
      intros Hs. exists v. split; [reflexivity | exact Hs].
  - intros st st' H1 H2.
    apply (usersInState_spec _ _ _ Hnd) in H1, H2.
    destruct H1 as (v1 & Hg1 & Hs1), H2 as (v2 & Hg2 & Hs2).
    rewrite Hg1 in Hg2. injection Hg2 as <-. exact (stateIs_one _ _ _ Hs1 Hs2).
  - intros st Hg Hin. apply (usersInState_spec _ _ _ Hnd) in Hin.
    destruct Hin as (v & Hv & Hs). destruct Hg as [Hg|Hg]; rewrite Hg in Hv;
      [injection Hv as <-|]; discriminate.
Qed.

Lemma presence_lists_partition_witness :
  onlineUsers somePresences = ["A"; "D"]%string /\
  busyUsers somePresences = ["C"]%string /\
  (In "A"%string (onlineUsers somePresences) <->
   isUserOnline somePresences "A" = true) /\
  ~ In "B"%string (usersInState "offline" somePresences).
Proof.
  assert (Hnd : NoDup (map fst somePresences)).
  { cbn. repeat constructor; cbn; intros H;
      repeat (destruct H as [H|H]; [discriminate H|]); exact H. }
  split; [reflexivity|]. split; [reflexivity|].
  destruct (presence_lists_partition somePresences "A" Hnd) as (H1 & _ & _).
  destruct (presence_lists_partition somePresences "B" Hnd) as (_ & _ & H3).
  split; [exact H1|]. apply H3. left. reflexivity.
Defined.

Lemma formatLastSeen_valid now d :
  formatLastSeen now (Some (TimeValue d)) =
  if (now - d) / 60000 <? 1 then "Just now"%string
  else if (now - d) / 60000 <? 60 then (show ((now - d) / 60000) ++ "m ago")%string
  else if (now - d) / 3600000 <? 24 then (show ((now - d) / 3600000) ++ "h ago")%string
  else (show ((now - d) / 86400000) ++ "d ago")%string.
Proof. reflexivity. Qed.

(** X25: for a valid date whose distance from now is an integer that a
    double holds exactly (less than [2 ^ 53] ms), [formatLastSeen] never
    shows a zero or an overflowing count: a date less than a minute ago,
    or in the future, gives [Just now]; otherwise the text is a count of 1
    to 59 minutes, of 1 to 23 hours, or of at least one day, rounded down.
    An Invalid Date gives [NaNd ago], and [null] gives [Never]. *)
Theorem formatLastSeen_ranges now d :
  (Z.abs (now - d) < 2 ^ 53 ->
   (now - d < 60000 -> formatLastSeen now (Some (TimeValue d)) = "Just now"%string) /\
   (60000 <= now - d < 3600000 ->
    1 <= (now - d) / 60000 <= 59 /\
    formatLastSeen now (Some (TimeValue d))
    = (show ((now - d) / 60000) ++ "m ago")%string) /\
   (3600000 <= now - d < 86400000 ->
    1 <= (now - d) / 3600000 <= 23 /\
    formatLastSeen now (Some (TimeValue d))
    = (show ((now - d) / 3600000) ++ "h ago")%string) /\
   (86400000 <= now - d ->
    1 <= (now - d) / 86400000 /\
    formatLastSeen now (Some (TimeValue d))
    = (show ((now - d) / 86400000) ++ "d ago")%string)) /\
  formatLastSeen now (Some InvalidDate) = "NaNd ago"%string /\
  formatLastSeen now None = "Never"%string.
Proof.
  split; [|split; reflexivity]. intros _.
  rewrite formatLastSeen_valid. generalize (now - d). intros diff.
  assert (Hm := Z.div_lt_upper_bound diff 60000).
  assert (Hm' := Z.div_le_lower_bound diff 60000).
  assert (Hh := Z.div_lt_upper_bound diff 3600000).
  assert (Hh' := Z.div_le_lower_bound diff 3600000).
  assert (Hd' := Z.div_le_lower_bound diff 86400000).
  repeat split.
  - intros H. specialize (Hm 1). destruct (Z.ltb_spec (diff / 60000) 1); [reflexivity|lia].
  - specialize (Hm' 1). lia.
  - specialize (Hm 60). lia.
  - specialize (Hm' 1). specialize (Hm 60).
    destruct (Z.ltb_spec (diff / 60000) 1); [lia|].
    destruct (Z.ltb_spec (diff / 60000) 60); [reflexivity | lia].
  - specialize (Hh' 1). lia.
  - specialize (Hh 24). lia.
  - specialize (Hm' 60). specialize (Hh 24).
    destruct (Z.ltb_spec (diff / 60000) 1); [lia|].
    destruct (Z.ltb_spec (diff / 60000) 60); [lia|].
    destruct (Z.ltb_spec (diff / 3600000) 24); [reflexivity | lia].
  - specialize (Hd' 1). lia.
  - specialize (Hm' 60). specialize (Hh' 24).
    destruct (Z.ltb_spec (diff / 60000) 1); [lia|].
    destruct (Z.ltb_spec (diff / 60000) 60); [lia|].
    destruct (Z.ltb_spec (diff / 3600000) 24); [lia | reflexivity].
Qed.

Lemma formatLastSeen_ranges_witness :
  formatLastSeen 7200000 (Some (TimeValue 0)) = "2h ago"%string /\
  formatLastSeen 3599999 (Some (TimeValue 0)) = "59m ago"%string /\
  formatLastSeen 0 (Some (TimeValue 500)) = "Just now"%string /\
  formatLastSeen 0 (Some InvalidDate) = "NaNd ago"%string.
Proof.
  destruct (formatLastSeen_ranges 7200000 0) as (H & _ & _).
  destruct (H ltac:(cbn; lia)) as (_ & _ & H3 & _).
  destruct (formatLastSeen_ranges 3599999 0) as (H' & _ & _).
  destruct (H' ltac:(cbn; lia)) as (_ & H2 & _ & _).
  destruct (formatLastSeen_ranges 0 500) as (H'' & H4 & _).
  destruct (H'' ltac:(cbn; lia)) as (H1 & _ & _ & _).
  split; [|split; [|split]].
  - rewrite (proj2 (H3 ltac:(cbn; lia))). reflexivity.
  - rewrite (proj2 (H2 ltac:(cbn; lia))). reflexivity.
  - apply H1. cbn. lia.
  - exact H4.
Defined.

(** ** The effect of [useMultipleUsersPresence] on the service *)

Lemma initialize_logged_counts w :
  count isOnValue (trace (initialize_logged w)) = count isOnValue (trace w) /\
  count isOffValue (trace (initialize_logged w)) = count isOffValue (trace w).
Proof.
  unfold initialize_logged, initialize.
  destruct (initPromise (svc w)) as [[|e]|];
    [split; reflexivity | cbn -[count]; rewrite !count_app; cbn; split; lia |].
  unfold _initialize. destruct (initialized (svc w)); [split; reflexivity|].
  destruct (FirebaseValidator.validateConfig _);
    [|cbn -[count]; rewrite !count_app; cbn; split; lia].
  destruct (_ || _); cbn -[count]; rewrite !count_app; cbn; split; lia.
Qed.

Lemma subscribeToUserPresence_view uid cb w :
  truthy (database (config (svc w))) = true ->
  (forall k, userListeners k (fst (subscribeToUserPresence uid cb w)) =
             if String.eqb uid k then set_add cb (userListeners k w)
             else userListeners k w) /\
  snd (subscribeToUserPresence uid cb w) =
    UserPresenceUnsubscribe (databasePath (config (svc w)) ++ "/" ++ uid)%string uid cb /\
  config (svc (fst (subscribeToUserPresence uid cb w))) = config (svc w) /\
  count isOnValue (trace (fst (subscribeToUserPresence uid cb w)))
    = S (count isOnValue (trace w)) /\
  count isOffValue (trace (fst (subscribeToUserPresence uid cb w)))
    = count isOffValue (trace w).
Proof.
  intros Hdb. rewrite (subscribeToUserPresence_world uid cb w Hdb). cbn [fst snd].
  destruct (initialize_logged_frame w) as [Hc _].
  destruct (initialize_logged_counts w) as [Hon Hoff].
  revert Hc Hon Hoff. generalize (initialize_logged w). intros w0 Hc Hon Hoff.
  split; [|split; [reflexivity|split; [exact Hc|]]].
  - intros k. unfold userListeners at 1.
    cbn [svc emit emits upd presenceListeners set_presenceListeners].
    rewrite map_get_set. destruct (String.eqb uid k) eqn:E; [|reflexivity].
    apply String.eqb_eq in E. subst k. reflexivity.
  - cbn [trace emit emits upd]. rewrite !count_app, Hon, Hoff. cbn. split; lia.
Qed.

Lemma runUnsubscribe_view r uid cb w k :
  userListeners k (runUnsubscribe (UserPresenceUnsubscribe r uid cb) w) =
  if String.eqb uid k then set_delete cb (userListeners k w) else userListeners k w.
Proof.
  destruct (runUnsubscribe_world r uid cb w) as [_ Hl].
  unfold userListeners at 1. rewrite Hl. unfold userListeners.
  destruct (map_get uid (presenceListeners (svc w))) as [l|] eqn:E.
  - destruct (set_delete cb l) as [|x l'] eqn:Ed; cbn [List.length Nat.eqb].
    + rewrite map_get_delete. destruct (String.eqb uid k) eqn:Ek.
      * apply String.eqb_eq in Ek. subst k. rewrite E. symmetry. exact Ed.
      * rewrite map_get_set, Ek. reflexivity.
    + rewrite map_get_set. destruct (String.eqb uid k) eqn:Ek; [|reflexivity].
      apply String.eqb_eq in Ek. subst k. rewrite E. symmetry. exact Ed.
  - destruct (String.eqb uid k) eqn:Ek; [|reflexivity].
    apply String.eqb_eq in Ek. subst k. rewrite E. reflexivity.
Qed.

Lemma NoDup_callbacksFor k qs : NoDup (map snd qs) -> NoDup (callbacksFor k qs).
Proof.
  unfold callbacksFor. induction qs as [|[u c] qs IH]; cbn [map snd filter fst];
    intros H; [constructor|].
  inversion H as [|? ? Hc Hnd]; subst.
  destruct (String.eqb u k); [|exact (IH Hnd)].
  cbn [map snd]. constructor; [|exact (IH Hnd)].
  intros Hin. apply Hc. apply in_map_iff in Hin. destruct Hin as ([u' c'] & Hc' & Hin).
  apply filter_In in Hin. destruct Hin as [Hin _]. cbn in Hc'. subst c'.
  apply in_map_iff. exists (u', c). split; [reflexivity | exact Hin].
Qed.

Lemma NoDup_watched ps : NoDup (map snd ps) -> NoDup (map snd (watched ps)).
Proof.
  unfold watched. induction ps as [|[u c] ps IH]; cbn [map snd filter fst];
    intros H; [constructor|].
  inversion H as [|? ? Hc Hnd]; subst.
  destruct (negb _); [|exact (IH Hnd)].
  cbn [map snd]. constructor; [|exact (IH Hnd)].
  intros Hin. apply Hc. apply in_map_iff in Hin. destruct Hin as ([u' c'] & Hc' & Hin).
  apply filter_In in Hin. destruct Hin as [Hin _]. cbn in Hc'. subst c'.
  apply in_map_iff. exists (u', c). split; [reflexivity | exact Hin].
Qed.

Lemma callbacksFor_in k qs c : In c (callbacksFor k qs) -> In c (map snd qs).
Proof.
  unfold callbacksFor. intros H. apply in_map_iff in H. destruct H as (p & Hp & Hin).
  apply filter_In in Hin. destruct Hin as [Hin _].
  apply in_map_iff. exists p. split; assumption.
Qed.

Lemma watched_in ps c : In c (map snd (watched ps)) -> In c (map snd ps).
Proof.
  unfold watched. intros H. apply in_map_iff in H. destruct H as (p & Hp & Hin).
  apply filter_In in Hin. destruct Hin as [Hin _].
  apply in_map_iff. exists p. split; assumption.
Qed.

Lemma set_delete_app c (a b : list Callback) :
  set_delete c (a ++ b) = set_delete c a ++ set_delete c b.
Proof. unfold set_delete. apply filter_app. Qed.

Lemma set_delete_head c (cs : list Callback) : set_delete c (c :: cs) = set_delete c cs.
Proof. unfold set_delete. cbn [filter]. rewrite Nat.eqb_refl. reflexivity. Qed.

Lemma deletes_undo_adds cs l :
  NoDup cs -> (forall c, In c cs -> ~ In c l) ->
  fold_left (fun l' c => set_delete c l') cs (l ++ cs) = l.
Proof.
  revert l. induction cs as [|c cs IH]; intros l Hnd Hf; cbn [fold_left].
  - apply app_nil_r.
  - inversion Hnd as [|? ? Hc Hnd']; subst.
    assert (Hd : set_delete c (l ++ c :: cs) = l ++ cs).
    { rewrite set_delete_app, set_delete_head.
      rewrite (set_delete_absent c l (Hf c (or_introl eq_refl))).
      rewrite (set_delete_absent c cs Hc). reflexivity. }
    rewrite Hd. apply IH; [exact Hnd'|].
    intros c' Hc'. apply Hf. right. exact Hc'.
Qed.

Lemma effect_view ps :
  forall w w1 us,
    truthy (database (config (svc w))) = true ->
    NoDup (map snd ps) ->
    (forall k cb, In cb (map snd ps) -> ~ In cb (userListeners k w)) ->
    useMultipleUsersPresence_effect ps w = (w1, us) ->
    (forall k, userListeners k w1 = userListeners k w ++ callbacksFor k (watched ps)) /\
    us = map (fun p => UserPresenceUnsubscribe
                         (databasePath (config (svc w)) ++ "/" ++ fst p)%string
                         (fst p) (snd p)) (watched ps) /\
    config (svc w1) = config (svc w) /\
    count isOnValue (trace w1)
      = (count isOnValue (trace w) + List.length (watched ps))%nat /\
    count isOffValue (trace w1) = count isOffValue (trace w) /\
    (noEmptySet (presenceListeners (svc w)) -> noEmptySet (presenceListeners (svc w1))).
Proof.
  induction ps as [|[uid cb] ps IH]; intros w w1 us Hdb Hnd Hfresh Heff.
  - cbn in Heff. injection Heff as <- <-. cbn.
    repeat split; try reflexivity; try lia; [|intros H; exact H].
    intros k. symmetry. apply app_nil_r.
  - inversion Hnd as [|? ? Hcb Hnd']; subst.
    cbn [useMultipleUsersPresence_effect] in Heff.
    unfold watched. cbn [filter fst]. fold (watched ps).
    destruct (String.eqb uid "") eqn:Eu; cbn [negb].
    + apply (IH w w1 us Hdb Hnd'); [|exact Heff].
      intros k c Hc. apply Hfresh. right. exact Hc.
    + destruct (subscribeToUserPresence_view uid cb w Hdb) as (V1 & V2 & V3 & V4 & V5).
      pose proof (noEmptySet_subscribe uid cb w) as V6.
      destruct (subscribeToUserPresence uid cb w) as [wa u]. cbn [fst snd] in *.
      destruct (useMultipleUsersPresence_effect ps wa) as [wb us'] eqn:Erest.
      injection Heff as <- <-.
      assert (Hdba : truthy (database (config (svc wa))) = true)
        by (rewrite V3; exact Hdb).
      assert (Hfa : forall k c, In c (map snd ps) -> ~ In c (userListeners k wa)).
      { intros k c Hc. rewrite V1. destruct (String.eqb uid k).
        - intros Hin. destruct (set_add_in cb c _ Hin) as [->|Hin'].
          + apply Hcb. exact Hc.
          + revert Hin'. apply Hfresh. right. exact Hc.
        - apply Hfresh. right. exact Hc. }
      destruct (IH wa wb us' Hdba Hnd' Hfa Erest) as (I1 & I2 & I3 & I4 & I5 & I6).
      split; [|split; [|split; [|split; [|split]]]].
      * intros k. rewrite I1, V1. unfold callbacksFor. cbn [filter fst].
        destruct (String.eqb uid k).
        -- rewrite set_add_absent by (apply Hfresh; left; reflexivity).
           cbn [map snd]. rewrite <- app_assoc. reflexivity.
        -- reflexivity.
      * cbn [map fst snd]. rewrite V2, I2, V3. reflexivity.
      * rewrite I3. exact V3.
      * rewrite I4, V4. cbn [List.length]. lia.
      * rewrite I5. exact V5.
      * intros H. apply I6, V6, H.
Qed.

Lemma cleanup_view (f : string -> Ref) qs :
  forall w,
    let w2 := useMultipleUsersPresence_cleanup
                (map (fun p => UserPresenceUnsubscribe (f (fst p)) (fst p) (snd p)) qs) w in
    (forall k, userListeners k w2 =
               fold_left (fun l c => set_delete c l) (callbacksFor k qs)
                         (userListeners k w)) /\
    count isOnValue (trace w2) = count isOnValue (trace w) /\
    count isOffValue (trace w2) = (count isOffValue (trace w) + List.length qs)%nat /\
    (noEmptySet (presenceListeners (svc w)) -> noEmptySet (presenceListeners (svc w2))).
Proof.
  unfold useMultipleUsersPresence_cleanup.
  induction qs as [|[uid cb] qs IH]; intros w; cbn [map fold_left fst snd].
  - cbn. repeat split; try lia. intros H; exact H.
  - destruct (IH (runUnsubscribe (UserPresenceUnsubscribe (f uid) uid cb) w))
      as (I1 & I2 & I3 & I4).
    destruct (runUnsubscribe_world (f uid) uid cb w) as [Ht _].
    pose proof (noEmptySet_unsubscribe (UserPresenceUnsubscribe (f uid) uid cb) w) as Hne.
    pose proof (runUnsubscribe_view (f uid) uid cb w) as Hv.
    revert I1 I2 I3 I4 Ht Hne Hv.
    generalize (runUnsubscribe (UserPresenceUnsubscribe (f uid) uid cb) w).
    intros wa I1 I2 I3 I4 Ht Hne Hv.
    split; [|split; [|split]].
    + intros k. rewrite I1, Hv. unfold callbacksFor. cbn [filter fst].
      destruct (String.eqb uid k); reflexivity.
    + rewrite I2, Ht, count_app. cbn. lia.
    + rewrite I3, Ht, count_app. cbn. lia.
    + intros H. apply I4, Hne, H.
Qed.

Lemma map_get_of_view m m' :
  noEmptySet m -> noEmptySet m' ->
  (forall k, match map_get k m' with Some s => s | None => [] end
             = match map_get k m with Some s => s | None => [] end) ->
  forall k, map_get k m' = map_get k m.
Proof.
  intros Hm Hm' Hv k. specialize (Hv k). specialize (Hm k). specialize (Hm' k).
  destruct (map_get k m') as [s'|], (map_get k m) as [s|]; subst;
    try reflexivity; contradiction.
Qed.

(** X26: running the effect of [useMultipleUsersPresence] and then its
    cleanup leaves the service's presence listeners as they were, and
    closes as many store subscriptions as it opened: one per non-empty
    user id, also when a user id occurs twice.  The closures are distinct
    and new to the service, and the store handle is there. *)
Theorem multiple_users_effect_round_trip userIds w w1 us :
  truthy (database (config (svc w))) = true ->
  noEmptySet (presenceListeners (svc w)) ->
  NoDup (map snd userIds) ->
  (forall k cb, In cb (map snd userIds) -> ~ In cb (userListeners k w)) ->
  useMultipleUsersPresence_effect userIds w = (w1, us) ->
  let w2 := useMultipleUsersPresence_cleanup us w1 in
  (forall k, map_get k (presenceListeners (svc w2))
             = map_get k (presenceListeners (svc w))) /\
  count isOnValue (trace w2)
    = (count isOnValue (trace w) + List.length (watched userIds))%nat /\
  count isOffValue (trace w2)
    = (count isOffValue (trace w) + List.length (watched userIds))%nat.
Proof.
  intros Hdb Hne Hnd Hfresh Heff w2.
  destruct (effect_view userIds w w1 us Hdb Hnd Hfresh Heff)
    as (E1 & E2 & _ & E4 & E5 & E6).
  subst us.
  destruct (cleanup_view
              (fun u => (databasePath (config (svc w)) ++ "/" ++ u)%string)
              (watched userIds) w1) as (C1 & C2 & C3 & C4).
  fold w2 in C1, C2, C3, C4. clearbody w2.
  split; [|split; [rewrite C2; exact E4 | rewrite C3, E5; reflexivity]].
  apply map_get_of_view; [exact Hne | exact (C4 (E6 Hne)) |].
  intros k. fold (userListeners k w2). fold (userListeners k w).
  rewrite C1, E1. apply deletes_undo_adds.
  - apply NoDup_callbacksFor, NoDup_watched, Hnd.
  - intros c Hc. apply Hfresh. apply watched_in. exact (callbacksFor_in _ _ _ Hc).
Qed.

Lemma multiple_users_effect_round_trip_witness :
  exists w1 us,
    useMultipleUsersPresence_effect someUserIds boundWorld = (w1, us) /\
    userListeners "B" w1 = [21%nat; 23%nat] /\
    (forall k, map_get k (presenceListeners
                            (svc (useMultipleUsersPresence_cleanup us w1))) = None) /\
    count isOffValue (trace (useMultipleUsersPresence_cleanup us w1))
      = (count isOffValue (trace boundWorld) + 3)%nat.
Proof.
  destruct (useMultipleUsersPresence_effect someUserIds boundWorld) as [w1 us] eqn:E.
  exists w1, us. split; [reflexivity|].
  assert (Hne : noEmptySet (presenceListeners (svc boundWorld)))
    by (intros k; discriminate).
  assert (Hnd : NoDup (map snd someUserIds)).
  { cbn. repeat constructor; cbn; intros H;
      repeat (destruct H as [H|H]; [discriminate H|]); exact H. }
  assert (Hfresh : forall k cb, In cb (map snd someUserIds) ->
                                ~ In cb (userListeners k boundWorld))
    by (intros k cb _ []).
  destruct (multiple_users_effect_round_trip someUserIds boundWorld w1 us
              eq_refl Hne Hnd Hfresh E) as (H1 & _ & H3).
  split; [|split; [exact H1 | exact H3]].
  vm_compute in E. injection E as <- _. vm_compute. reflexivity.
Defined.

(** ** The retry timer *)

Lemma retryFrame_refl w : retryFrame w w.
Proof. split; [intros h H; exact H | reflexivity]. Qed.

Lemma retryFrame_trans w1 w2 w3 : retryFrame w1 w2 -> retryFrame w2 w3 -> retryFrame w1 w3.
Proof.
  intros [A1 B1] [A2 B2]. split; [|congruence].
  intros h H. apply A1, A2, H.
Qed.

Lemma retryFrame_held w w' : retryFrame w w' -> retryHeld w -> retryHeld w'.
Proof. intros [A B] R h H. rewrite B. apply R, A, H. Qed.

Lemma retryFrame_same w w' :
  timers w' = timers w -> retryTimeout (svc w') = retryTimeout (svc w) -> retryFrame w w'.
Proof. intros Ht Hr. split; [rewrite Ht; intros h H; exact H | exact Hr]. Qed.

Lemma in_drop {A : Type} (h h' : nat) (k : A) l :
  In (h', k) (drop h l) -> In (h', k) l /\ h' <> h.
Proof.
  unfold drop. intros H. apply filter_In in H. destruct H as [H E]. split; [exact H|].
  cbn in E. intros ->. rewrite Nat.eqb_refl in E. discriminate.
Qed.

Lemma lookup_in {A : Type} (h : nat) (k : A) l : lookup h l = Some k -> In (h, k) l.
Proof.
  induction l as [|[m a] l IH]; cbn; [discriminate|].
  destruct (Nat.eqb m h) eqn:E.
  - intros H. injection H as ->. apply Nat.eqb_eq in E. subst m. left. reflexivity.
  - intros H. right. exact (IH H).
Qed.

Lemma retryHeld_scheduleRetry w : retryHeld w -> retryHeld (scheduleRetry w).
Proof.
  intros R. unfold scheduleRetry.
  destruct (retryTimeout (svc w)) eqn:E; cbn [isSome orb]; [exact R|].
  destruct (_ >=? _); [exact R|].
  intros h H. cbn in H |- *. destruct H as [H|H].
  - injection H as <-. reflexivity.
  - apply R in H. congruence.
Qed.

Lemma retryHeld_handleSetupError w : retryHeld w -> retryHeld (handleSetupError w).
Proof.
  intros R. unfold handleSetupError.
  set (w1 := upd (set_retryCount (retryCount (connectionStatus (svc w)) + 1)) w).
  assert (R1 : retryHeld w1) by exact R.
  destruct (_ <? _); [apply retryHeld_scheduleRetry|]; exact R1.
Qed.

Lemma retryFrame_setupAwayTimer w : retryFrame w (setupAwayTimer w).
Proof.
  unfold setupAwayTimer. destruct (negb _); [apply retryFrame_refl|].
  split; [|reflexivity]. intros h H. cbn in H. destruct H as [H|H]; [discriminate | exact H].
Qed.

Lemma retryHeld_settle k o w : retryHeld w -> retryHeld (settle k o w).
Proof.
  intros R. destruct k; cbn [settle].
  - destruct o; exact R.
  - exact R.
  - destruct o; cbn [setupPresence_resume].
    + exact (retryFrame_held _ _ (retryFrame_setupAwayTimer w) R).
    + unfold setupPresence_catch, setupPresence_finally.
      pose proof (retryHeld_handleSetupError (upd (set_userRef None) w) R) as R'.
      revert R'. generalize (handleSetupError (upd (set_userRef None) w)).
      intros w' R'. exact R'.
Qed.

Lemma retryHeld_setPresenceState s cd k w :
  retryHeld w -> retryHeld (setPresenceState s cd k w).
Proof.
  intros R. unfold setPresenceState.
  destruct (userRef (svc w)); [|apply retryHeld_settle, R].
  destruct (currentUser (svc w)); [|apply retryHeld_settle, R].
  destruct (negb _); [apply retryHeld_settle, R | exact R].
Qed.

Lemma retryHeld_resume p r w : retryHeld w -> retryHeld (resume p r w).
Proof.
  intros R. destruct p as [s cd k|k], r as [|cause]; cbn [resume];
    try (apply retryHeld_settle, R).
  destruct (PState_eqb s online); [|apply retryHeld_settle, R].
  destruct (userRef (svc w)); [|apply retryHeld_settle, R].
  destruct (currentUser (svc w)); [exact R | apply retryHeld_settle, R].
Qed.

Lemma cleanupTimers_no_retry w :
  retryHeld w -> forall h, ~ In (h, RetryTimer) (cleanupTimers w).
Proof.
  intros R h H. unfold cleanupTimers in H.
  assert (H1 : In (h, RetryTimer)
                  (match retryTimeout (svc w) with
                   | Some h0 => drop h0 (timers w)
                   | None => timers w
                   end)).
  { destruct (awayTimeout (svc w)); [apply in_drop in H; exact (proj1 H) | exact H]. }
  destruct (retryTimeout (svc w)) as [h0|] eqn:E.
  - apply in_drop in H1. destruct H1 as [H1 Hne]. apply R in H1. congruence.
  - apply R in H1. congruence.
Qed.

Lemma retryHeld_cleanup w : retryHeld w -> retryHeld (cleanup w).
Proof.
  intros R h H. rewrite cleanup_world in H. cbn [timers] in H.
  exfalso. exact (cleanupTimers_no_retry w R h H).
Qed.

Lemma retryHeld_destroy w : retryHeld w -> retryHeld (fst (destroy w)).
Proof.
  intros R. destruct (appStateUnsubscribe (svc w)) eqn:Ea.
  - rewrite (destroy_throws_world w Ea). exact R.
  - rewrite (destroy_returns_world w Ea). intros h H. cbn [fst destroyedWorld timers] in H.
    exfalso. exact (cleanupTimers_no_retry w R h H).
Qed.

Lemma retryHeld_setupPresence id w : retryHeld w -> retryHeld (setupPresence id w).
Proof.
  intros R. unfold setupPresence.
  destruct (setupInProgress (svc w)); [exact R|].
  set (w1 := upd (set_setupInProgress true) w).
  assert (R1 : retryHeld w1) by exact R.
  destruct (negb _).
  - unfold setupPresence_catch, setupPresence_finally.
    pose proof (retryHeld_handleSetupError (upd (set_userRef None) w1) R1) as R'.
    revert R'. generalize (handleSetupError (upd (set_userRef None) w1)).
    intros w' R'. exact R'.
  - cbv zeta. pose proof (retryHeld_cleanup w1 R1) as Rc.
    revert Rc. generalize (cleanup w1). intros w2 Rc.
    cbn [negb userRef svc upd emit emits set_connectedListener set_connectedRef
         set_userRef].
    apply retryHeld_setPresenceState. exact Rc.
Qed.

Lemma retryHeld_handleAuthStateChange user w :
  retryHeld w -> retryHeld (handleAuthStateChange user w).
Proof.
  intros R. unfold handleAuthStateChange. destruct user as [u|].
  - destruct (uid_differs _ _); [|exact R].
    apply retryHeld_setupPresence. exact R.
  - pose proof (retryHeld_cleanup (upd (set_currentSetupUid None) w) R) as Rc.
    revert Rc. generalize (cleanup (upd (set_currentSetupUid None) w)). intros w2 Rc.
    destruct (currentUser (svc (upd (set_currentSetupUid None) w))); [exact Rc | exact R].
Qed.

Lemma retryHeld_appStateListener s w : retryHeld w -> retryHeld (appStateListener s w).
Proof.
  intros R. unfold appStateListener. destruct (_ && _); [|exact R].
  unfold handleAppStateChange.
  set (w1 := match awayTimeout (svc w) with Some h => _ | None => w end).
  assert (R1 : retryHeld w1).
  { subst w1. destruct (awayTimeout (svc w)) as [h|]; [|exact R].
    intros h' H. cbn in H |- *. apply in_drop in H. apply R. exact (proj1 H). }
  clearbody w1.
  destruct s; try exact R1; try (apply retryHeld_setPresenceState; exact R1).
  apply (retryFrame_held _ _ (retryFrame_setupAwayTimer _)).
  apply retryHeld_setPresenceState. exact R1.
Qed.

Lemma retryHeld_handleConnectionChange connected now w :
  retryHeld w -> retryHeld (handleConnectionChange connected now w).
Proof.
  intros R. unfold handleConnectionChange. destruct connected; cbn [negb].
  - set (w1a := upd (set_retryCount 0) _).
    assert (R1 : retryHeld w1a) by exact R.
    destruct (_ && _); [|exact R1].
    pose proof (retryHeld_setPresenceState
                  (currentOrOnline (currentPresenceState (svc w1a))) None KDetached
                  w1a R1) as R2.
    revert R2. generalize (setPresenceState
                  (currentOrOnline (currentPresenceState (svc w1a))) None KDetached w1a).
    intros w2 R2. exact R2.
  - apply retryHeld_scheduleRetry. exact R.
Qed.

Lemma retryHeld_fire h w w' : fire h w = Some w' -> retryHeld w -> retryHeld w'.
Proof.
  unfold fire. destruct (lookup h (timers w)) as [k|] eqn:E; [|discriminate].
  intros H R. injection H as <-. apply lookup_in in E.
  set (w0 := mkWorld (svc w) (drop h (timers w)) (suspended w) (fresh w) (trace w)).
  destruct k.
  - unfold retryTimerFired. set (w1 := upd (set_retryTimeout None) w0).
    assert (R1 : retryHeld w1).
    { intros h' H. cbn in H. apply in_drop in H. destruct H as [H Hne].
      apply R in H. apply R in E. congruence. }
    clearbody w1.
    destruct (currentUser (svc w1)); [|exact R1].
    destruct (negb _); [apply retryHeld_setupPresence|]; exact R1.
  - assert (R0 : retryHeld w0).
    { intros h' H. cbn in H |- *. apply in_drop in H. apply R. exact (proj1 H). }
    clearbody w0. unfold awayTimerFired.
    destruct (PState_eqb _ _); [apply retryHeld_setPresenceState|]; exact R0.
Qed.

Lemma retryHeld_reply id r w w' : reply id r w = Some w' -> retryHeld w -> retryHeld w'.
Proof.
  unfold reply. destruct (lookup id (suspended w)) as [p|]; [|discriminate].
  intros H R. injection H as <-. apply retryHeld_resume. exact R.
Qed.

Lemma retryFrame_initialize w : retryFrame w (fst (initialize w)).
Proof.
  unfold initialize. destruct (initPromise (svc w)); [apply retryFrame_refl|].
  unfold _initialize. destruct (initialized (svc w));
    [apply retryFrame_same; reflexivity|].
  destruct (FirebaseValidator.validateConfig _); [|apply retryFrame_same; reflexivity].
  destruct (_ || _); apply retryFrame_same; reflexivity.
Qed.

Lemma retryFrame_initialize_logged w : retryFrame w (initialize_logged w).
Proof.
  unfold initialize_logged. pose proof (retryFrame_initialize w) as H.
  destruct (initialize w) as [w1 pr]. cbn [fst] in H.
  destruct pr; [exact H|].
  apply (retryFrame_trans w w1 _ H). apply retryFrame_same; reflexivity.
Qed.

Lemma retryHeld_subscribe cb w :
  retryHeld w -> retryHeld (subscribeToConnectionStatus cb w).
Proof.
  intros R. unfold subscribeToConnectionStatus.
  pose proof (retryFrame_held _ _ (retryFrame_initialize_logged w) R) as R1.
  revert R1. generalize (initialize_logged w). intros w1 R1. exact R1.
Qed.

Lemma retryHeld_subscribeToUserPresence userId cb w :
  retryHeld w -> retryHeld (fst (subscribeToUserPresence userId cb w)).
Proof.
  intros R. destruct (subscribeToUserPresence_shape userId cb w) as (m & l & -> & _).
  pose proof (retryFrame_held _ _ (retryFrame_initialize_logged w) R) as R1.
  revert R1. generalize (initialize_logged w). intros w1 R1. exact R1.
Qed.

Lemma retryHeld_runUnsubscribe u w : retryHeld w -> retryHeld (runUnsubscribe u w).
Proof.
  intros R. destruct (runUnsubscribe_shape u w) as (m & l & -> & _). exact R.
Qed.

Lemma step_retryHeld w e w' : step w e = Some w' -> retryHeld w -> retryHeld w'.
Proof.
  destruct e; cbn [step]; intros H.
  - destruct (authUnsubscribe (svc w)); [|discriminate]. injection H as <-.
    apply retryHeld_handleAuthStateChange.
  - destruct (appStateUnsubscribe (svc w)); [|discriminate]. injection H as <-.
    apply retryHeld_appStateListener.
  - destruct (isSome _); [|discriminate]. injection H as <-.
    apply retryHeld_handleConnectionChange.
  - destruct (isSome _); [|discriminate]. injection H as <-.
    intros R. unfold handleConnectionError. apply retryHeld_scheduleRetry. exact R.
  - exact (retryHeld_fire _ _ _ H).
  - exact (retryHeld_reply _ _ _ _ H).
  - injection H as <-. apply retryHeld_setPresenceState.
  - injection H as <-. apply retryHeld_subscribe.
  - injection H as <-. intros R. exact R.
  - injection H as <-. apply retryHeld_subscribeToUserPresence.
  - injection H as <-. apply retryHeld_runUnsubscribe.
  - injection H as <-. intros R. exact R.
  - injection H as <-. apply retryHeld_destroy.
Qed.

Lemma reachable_retryHeld w : reachable w -> retryHeld w.
Proof.
  induction 1 as [p w Hc | w e w' Hw IH Hstep].
  - unfold constructor in Hc.
    assert (R0 : retryHeld (newWorld (merge defaults p))) by (intros h []).
    pose proof (retryFrame_held _ _ (retryFrame_initialize _) R0) as R1.
    destruct (initialize _) as [w1 pr]. cbn [fst] in R1. injection Hc as <-.
    destruct pr; exact R1.
  - exact (step_retryHeld w e w' Hstep IH).
Qed.

(** X27: at most one retry timer is live, and it is the one whose handle
    the service holds in [retryTimeout]; [cleanup] leaves no retry timer
    live, so no retry runs after it unless a later failure arms one.
    [destroy] on an initialised service throws before it reaches [cleanup]
    and leaves every timer live and the handle held, a pending retry timer
    among them; on a service that is not initialised it leaves no retry
    timer live. *)
Theorem at_most_one_retry_timer w :
  reachable w ->
  (forall h, In (h, RetryTimer) (timers w) -> retryTimeout (svc w) = Some h) /\
  (forall h h', In (h, RetryTimer) (timers w) -> In (h', RetryTimer) (timers w) ->
                h = h') /\
  (forall h, ~ In (h, RetryTimer) (timers (cleanup w))) /\
  (initialized (svc w) = true ->
   timers (fst (destroy w)) = timers w /\
   retryTimeout (svc (fst (destroy w))) = retryTimeout (svc w)) /\
  (initialized (svc w) = false ->
   forall h, ~ In (h, RetryTimer) (timers (fst (destroy w)))).
Proof.
  intros Hr. pose proof (reachable_retryHeld w Hr) as R.
  destruct (subscriptions_reachable w Hr) as (_ & _ & _ & Hp & _).
  split; [exact R|]. split; [|split; [|split]].
  - intros h h' H H'. apply R in H, H'. congruence.
  - intros h. rewrite cleanup_world. cbn [timers]. apply cleanupTimers_no_retry, R.
  - intros Hi. rewrite Hi in Hp. rewrite (destroy_throws_world w Hp).
    split; reflexivity.
  - intros Hi h. rewrite Hi in Hp. rewrite (destroy_returns_world w Hp).
    cbn [fst destroyedWorld timers]. apply cleanupTimers_no_retry, R.
Qed.

Lemma retryingWorld_reachable : reachable retryingWorld.
Proof.
  apply (run_reachable [EvConnected false 50] boundWorld);
    [apply boundWorld_reachable | vm_compute; reflexivity].
Qed.

Lemma at_most_one_retry_timer_witness :
  reachable retryingWorld /\
  In (4%nat, RetryTimer) (timers retryingWorld) /\
  retryTimeout (svc retryingWorld) = Some 4%nat /\
  ~ In (4%nat, RetryTimer) (timers (cleanup retryingWorld)) /\
  In (4%nat, RetryTimer) (timers (fst (destroy retryingWorld))).
Proof.
  assert (Hin : In (4%nat, RetryTimer) (timers retryingWorld))
    by (vm_compute; left; reflexivity).
  destruct (at_most_one_retry_timer retryingWorld retryingWorld_reachable)
    as (H1 & _ & H3 & H4 & _).
  split; [exact retryingWorld_reachable|].
  split; [exact Hin|]. split; [exact (H1 4%nat Hin)|]. split; [exact (H3 4%nat)|].
  rewrite (proj1 (H4 eq_refl)). exact Hin.
Defined.
